(** * batou secrets: encrypted files and the bundle sharing their recipients

    A shallow embedding of [src/batou/secrets/encryption.py]: the
    [EncryptedFile] primitive (lock, lazy decrypt, encrypt with backup and
    rollback) and [EncryptedConfigFile], which ties several encrypted files
    to the member list of the main configuration file; and of the
    [Editor] of [src/batou/secrets/edit.py], which runs a session on them.

    Python objects are records threaded through the methods together with
    the outside world (files, directories, advisory locks of other
    processes, the record of spawned processes).  A method returns the updated object and
    world next to its outcome, so that what a method changed before it
    raised stays visible. *)

From stdpp Require Import base option list strings gmap sorting.
From Stdlib Require Import ZArith Ascii String Lia.

Local Open Scope string_scope.
Local Open Scope Z_scope.

(** ** Python strings

    A [str] is modelled as a Rocq [string] whose characters are the code
    points below 256. *)

Module PyStr.

(** [str.isspace] on one character, for the code points below 256:
    TAB..CR, FS..US and SPACE, NEL and NBSP. *)
Definition isspace (c : ascii) : bool :=
  let n := N_of_ascii c in
  ((9 <=? n) && (n <=? 13) || (28 <=? n) && (n <=? 32)
   || (n =? 133) || (n =? 160))%N.

Fixpoint lstrip (s : string) : string :=
  match s with
  | EmptyString => EmptyString
  | String c r => if isspace c then lstrip r else s
  end.

Fixpoint rstrip (s : string) : string :=
  match s with
  | EmptyString => EmptyString
  | String c r =>
      match rstrip r with
      | EmptyString => if isspace c then EmptyString else String c EmptyString
      | r' => String c r'
      end
  end.

(** [s.strip()] *)
Definition strip (s : string) : string := rstrip (lstrip s).

(** [s.split(sep)] for a one-character separator: never the empty list. *)
Fixpoint split (sep : ascii) (s : string) : list string :=
  match s with
  | EmptyString => [EmptyString]
  | String c r =>
      if Ascii.eqb c sep then EmptyString :: split sep r
      else match split sep r with
           | h :: t => String c h :: t
           | [] => [String c EmptyString]
           end
  end.

(** [sep.join(l)] *)
Fixpoint join (sep : string) (l : list string) : string :=
  match l with
  | [] => EmptyString
  | [x] => x
  | x :: r => x +:+ sep +:+ join sep r
  end.

(** Truth value of a [str]: the empty string is false. *)
Definition truthy (s : string) : bool :=
  match s with EmptyString => false | _ => true end.

(** [list.sort()] on strings: ascending in the code point order. *)
Definition sort (l : list string) : list string := merge_sort String.le l.

Definition all_space (s : string) : Prop :=
  Forall (fun c => isspace c = true) (list_ascii_of_string s).

Definition first_char (s : string) : option ascii :=
  match s with EmptyString => None | String c _ => Some c end.

Fixpoint last_char (s : string) : option ascii :=
  match s with
  | EmptyString => None
  | String c EmptyString => Some c
  | String _ r => last_char r
  end.

End PyStr.

(** ** The parsed configuration document

    [ConfigUpdater] is a third-party library.  Of a parsed document the
    code uses section membership, [add_section] and the value of an option;
    a document is modelled as its sections in order, each with its options
    in order. *)

Module Config.

Definition t : Type := list (string * list (string * string)).

(** [name in config] *)
Definition has_section (name : string) (cfg : t) : bool :=
  existsb (fun s => String.eqb (fst s) name) cfg.

(** [config.add_section(name)] on a document without that section *)
Definition add_section (name : string) (cfg : t) : t :=
  (cfg ++ [(name, [])])%list.

Fixpoint assoc {A} (k : string) (l : list (string * A)) : option A :=
  match l with
  | [] => None
  | (k', v) :: r => if String.eqb k' k then Some v else assoc k r
  end.

(** [config.get(section, option).value]: [None] stands for the
    [NoSectionError] or [NoOptionError] the library raises. *)
Definition get_value (section key : string) (cfg : t) : option string :=
  match assoc section cfg with
  | Some opts => assoc key opts
  | None => None
  end.

Fixpoint set_assoc {A} (k : string) (v : A) (l : list (string * A))
  : list (string * A) :=
  match l with
  | [] => [(k, v)]
  | (k', v') :: r =>
      if String.eqb k' k then (k', v) :: r else (k', v') :: set_assoc k v r
  end.

(** [config.set(section, key, value)]: the option gets the value in
    place, a missing option is added at the end of the section; [None]
    stands for the [NoSectionError] of a missing section. *)
Definition set (section key value : string) (cfg : t) : option t :=
  match assoc section cfg with
  | None => None
  | Some opts => Some (set_assoc section (set_assoc key value opts) cfg)
  end.

End Config.

(** [EncryptedConfigFile.get_members], on the document alone: returns the
    document (a missing [batou] section is added) and the members. *)
Definition get_members_of (cfg : Config.t) : Config.t * list string :=
  let cfg :=
    if negb (Config.has_section "batou" cfg)
    then Config.add_section "batou" cfg else cfg in
  match Config.get_value "batou" "members" cfg with
  | None => (cfg, [])
  | Some value =>
      let members := PyStr.split "," value in
      let members := map PyStr.strip members in
      let members := List.filter PyStr.truthy members in
      (cfg, PyStr.sort members)
  end.

(** ** Exceptions and outcomes *)

Inductive exn : Type :=
| RuntimeError (msg : string)
| ValueError (msg : string)
| AttributeError
| FileNotFoundError (path : string)
| OSError
| UnicodeDecodeError
| GPGCallError (args : list string) (returncode : Z) (stderr : string)
| FileLockedError (path : string)
| KeyboardInterrupt
| SystemExit (code : Z).

(** [isinstance(e, Exception)]: [KeyboardInterrupt] and [SystemExit] derive
    from [BaseException] alone, and an [except Exception] lets them
    pass. *)
Definition is_Exception (e : exn) : bool :=
  match e with
  | KeyboardInterrupt | SystemExit _ => false
  | _ => true
  end.

Inductive outcome (A : Type) : Type :=
| Return (a : A)
| Raise (e : exn).
Arguments Return {A} a.
Arguments Raise {A} e.

(** The two refusals of [EncryptedFile.write] and the failure of
    [EncryptedFile.gpg], with the messages of the source. *)
Definition NotWritable : exn := RuntimeError "write() needs a write lock".
Definition MissingRecipients : exn :=
  ValueError "Need at least one recipient. Quitting will delete the file.".
Definition GPG_BINARY_CANDIDATES : list string := ["gpg"; "gpg2"].
Definition BinaryNotFound : exn :=
  RuntimeError
    ("Could not find gpg binary. Is GPG installed? I tried looking for: "
     +:+ PyStr.join ", "
           (map (fun x => "`" +:+ x +:+ "`") GPG_BINARY_CANDIDATES)).
Definition NonZeroExit : exn :=
  RuntimeError "GPG returned non-zero exit code.".

(** ** The host: files, locks of other processes, spawned processes *)

Inductive lock_type : Type := F_RDLCK | F_WRLCK.

(** A spawned child process: its argument vector and what was fed to it. *)
Inductive Call : Type := Spawn (argv : list string) (stdin : option string).

Record Host : Type := mkHost {
  fs : gmap string string;          (* path -> content of the file *)
  dirs : gset string;               (* the directories that exist *)
  foreign : gmap string lock_type;  (* strongest lock other processes hold *)
  spawned : list Call               (* newest first *)
}.

Definition set_fs (m : gmap string string) (h : Host) : Host :=
  mkHost m (dirs h) (foreign h) (spawned h).
Definition record_call (c : Call) (h : Host) : Host :=
  mkHost (fs h) (dirs h) (foreign h) (c :: spawned h).

(** What the encryption tool does is not decided by this program.  Each
    answer may depend on the host as it is when the process starts. *)
Inductive decrypt_outcome : Type :=
| DecryptOSError
| DecryptExit (returncode : Z) (stdout : option string) (stderr : string).
    (* [stdout]: the output decoded as UTF-8, [None] when it does not decode *)

Inductive encrypt_outcome : Type :=
| EncryptOSError
| EncryptRuns (run : string -> Z * option string).
    (* fed its input, the process exits with a return code and has left
       [Some c] at the path given with -o, or nothing *)

Record Tool : Type := mkTool {
  version_probe : Host -> string -> bool;
  decrypt_run : Host -> list string -> decrypt_outcome;
  encrypt_run : Host -> list string -> encrypt_outcome
}.

Module OS.

(** [os.path.exists] *)
Definition path_exists (p : string) (h : Host) : bool :=
  match fs h !! p with Some _ => true | None => false end.

(** [os.rename(src, dst)] *)
Definition rename (src dst : string) (h : Host) : outcome unit * Host :=
  match fs h !! src with
  | None => (Raise (FileNotFoundError src), h)
  | Some c => (Return (), set_fs (<[dst := c]> (delete src (fs h))) h)
  end.

(** [os.unlink(p)] *)
Definition unlink (p : string) (h : Host) : outcome unit * Host :=
  match fs h !! p with
  | None => (Raise (FileNotFoundError p), h)
  | Some _ => (Return (), set_fs (delete p (fs h)) h)
  end.

(** The text before the last slash of a path; [None] for a path without
    slash. *)
Fixpoint head (p : string) : option string :=
  match p with
  | EmptyString => None
  | String c r =>
      match head r with
      | Some d => Some (String c d)
      | None => if Ascii.eqb c "/" then Some EmptyString else None
      end
  end.

Fixpoint rstrip_slashes (s : string) : string :=
  match s with
  | EmptyString => EmptyString
  | String c r =>
      match rstrip_slashes r with
      | EmptyString =>
          if Ascii.eqb c "/" then EmptyString else String c EmptyString
      | r' => String c r'
      end
  end.

(** The directory a path lies in: the text before its last slash, without
    the slashes at its end; the empty text stands for the root, [None] for
    the working directory, in which a path without slash lies.  A
    directory is known by that text, as a file is by its path. *)
Definition parent (p : string) : option string :=
  match head p with
  | Some d => Some (rstrip_slashes d)
  | None => None
  end.

(** Whether the directory a path lies in exists; the working directory
    and the root do. *)
Definition parent_exists (p : string) (h : Host) : bool :=
  match parent p with
  | None | Some EmptyString => true
  | Some d => bool_decide (d ∈ dirs h)
  end.
Arguments parent_exists : simpl never.

(** An open file object, with the lock this process holds through it. *)
Record FileObject : Type := mkFileObject {
  fo_path : string;
  fo_mode : string;
  fo_lock : option lock_type;
  fo_closed : bool
}.

(** [open(p, mode)] for the two modes the code uses: "a+" creates a missing
    file when the directory it lies in exists, "r+" needs the file to
    exist. *)
Definition open (p mode : string) (h : Host) : outcome FileObject * Host :=
  match fs h !! p with
  | Some _ => (Return (mkFileObject p mode None false), h)
  | None =>
      if String.eqb mode "a+"
      then if parent_exists p h
           then (Return (mkFileObject p mode None false),
                 set_fs (<[p := ""]> (fs h)) h)
           else (Raise (FileNotFoundError p), h)
      else (Raise (FileNotFoundError p), h)
  end.

(** [f.close()]: also drops the lock held on the file. *)
Definition close (f : FileObject) : FileObject :=
  mkFileObject (fo_path f) (fo_mode f) None true.

(** The constants of the [fcntl] module (Linux). *)
Definition LOCK_SH : Z := 1.
Definition LOCK_EX : Z := 2.
Definition LOCK_NB : Z := 4.
Definition LOCK_UN : Z := 8.

Inductive lock_request : Type :=
| Unlock
| Lock (t : lock_type) (nonblocking : bool).

(** How [fcntl.lockf] of the Python standard library reads its operation
    word: [LOCK_UN] alone unlocks; otherwise the [LOCK_SH] bit asks for a
    read lock, else the [LOCK_EX] bit for a write lock; the [LOCK_NB] bit
    makes the request non-blocking.  [None]: neither bit, a [ValueError]. *)
Definition lockf_request (operation : Z) : option lock_request :=
  if operation =? LOCK_UN then Some Unlock
  else
    let nb := negb (Z.land operation LOCK_NB =? 0) in
    if negb (Z.land operation LOCK_SH =? 0) then Some (Lock F_RDLCK nb)
    else if negb (Z.land operation LOCK_EX =? 0) then Some (Lock F_WRLCK nb)
    else None.

(** A read lock conflicts with a write lock of another process, a write
    lock with any lock of another process. *)
Definition conflicts (t : lock_type) (p : string) (h : Host) : bool :=
  match foreign h !! p, t with
  | None, _ => false
  | Some F_RDLCK, F_RDLCK => false
  | Some _, _ => true
  end.

Inductive lockf_result : Type :=
| Granted (f : FileObject) (h : Host)
| Blocking_IO_Error
| Bad_Operation.

(** [fcntl.lockf(f, operation)].  A blocking request that conflicts waits
    for the other processes to release the file and is then granted. *)
Definition lockf (f : FileObject) (operation : Z) (h : Host) : lockf_result :=
  match lockf_request operation with
  | None => Bad_Operation
  | Some Unlock =>
      Granted (mkFileObject (fo_path f) (fo_mode f) None (fo_closed f)) h
  | Some (Lock t nb) =>
      let f' := mkFileObject (fo_path f) (fo_mode f) (Some t) (fo_closed f) in
      if conflicts t (fo_path f) h
      then if nb then Blocking_IO_Error
           else Granted f'
                  (mkHost (fs h) (dirs h) (delete (fo_path f) (foreign h))
                     (spawned h))
      else Granted f' h
  end.

End OS.

(** The name [_encrypt] gives to the backup of a file. *)
Definition backup_of (filename : string) : string := filename +:+ ".old".

(** ** [class EncryptedFile]

    The module-level [debug] flag is [False]; the [print] calls it guards
    are left out. *)

Module EncryptedFile.

Record t : Type := mk {
  encrypted_filename : string;
  write_lock : bool;
  quiet : bool;
  recipients : list string;
  lockfd : option OS.FileObject;   (* class attribute, [None] *)
  cleartext : option string;       (* class attribute, [None] *)
  is_new : option bool             (* class attribute, [None] *)
}.

Definition set_recipients (r : list string) (f : t) : t :=
  mk (encrypted_filename f) (write_lock f) (quiet f) r
     (lockfd f) (cleartext f) (is_new f).
Definition set_lockfd (l : option OS.FileObject) (f : t) : t :=
  mk (encrypted_filename f) (write_lock f) (quiet f) (recipients f)
     l (cleartext f) (is_new f).
Definition set_cleartext (c : option string) (f : t) : t :=
  mk (encrypted_filename f) (write_lock f) (quiet f) (recipients f)
     (lockfd f) c (is_new f).
Definition set_is_new (n : option bool) (f : t) : t :=
  mk (encrypted_filename f) (write_lock f) (quiet f) (recipients f)
     (lockfd f) (cleartext f) n.

(** [__init__] *)
Definition __init__ (encrypted_filename : string)
    (write_lock quiet : bool) : t :=
  mk encrypted_filename write_lock quiet [] None None None.

(** The operation word [_lock] hands to [fcntl.lockf]. *)
Definition lock_operation (write_lock : bool) : Z :=
  Z.lor (Z.lor OS.LOCK_EX OS.LOCK_NB)
        (if write_lock then OS.LOCK_EX else OS.LOCK_SH).

(** [_lock] *)
Definition _lock (f : t) (h : Host) : outcome unit * t * Host :=
  let f :=
    match is_new f with
    | None =>
        set_is_new (Some (negb (OS.path_exists (encrypted_filename f) h))) f
    | Some _ => f
    end in
  match OS.open (encrypted_filename f)
                (if write_lock f then "a+" else "r+") h with
  | (Raise e, h) => (Raise e, f, h)
  | (Return fd, h) =>
      let f := set_lockfd (Some fd) f in
      match OS.lockf fd (lock_operation (write_lock f)) h with
      | OS.Granted fd h => (Return (), set_lockfd (Some fd) f, h)
      | OS.Blocking_IO_Error =>
          (Raise (FileLockedError (encrypted_filename f)), f, h)
      | OS.Bad_Operation =>
          (Raise (ValueError "unrecognized lockf argument"), f, h)
      end
  end.

(** [__enter__] *)
Definition __enter__ (f : t) (h : Host) : outcome unit * t * Host :=
  _lock f h.

(** [__exit__]: [self.lockfd.close()] *)
Definition __exit__ (f : t) : outcome unit * t :=
  match lockfd f with
  | None => (Raise AttributeError, f)
  | Some fd => (Return (), set_lockfd (Some (OS.close fd)) f)
  end.

Section WithTool.
Variable tool : Tool.

(** The loop of [gpg]: the first candidate that answers [--version]. *)
Fixpoint gpg_probe (candidates : list string) (h : Host)
  : option string * Host :=
  match candidates with
  | [] => (None, h)
  | g :: rest =>
      let h' := record_call (Spawn [g; "--version"] None) h in
      if version_probe tool h g then (Some g, h') else gpg_probe rest h'
  end.

(** [gpg] *)
Definition gpg (h : Host) : outcome string * Host :=
  match gpg_probe GPG_BINARY_CANDIDATES h with
  | (Some g, h) => (Return g, h)
  | (None, h) => (Raise BinaryNotFound, h)
  end.

Definition decrypt_argv (g : string) (f : t) : list string :=
  ([g] ++ (if quiet f then ["-q"; "--no-tty"; "--batch"] else [])
       ++ ["--decrypt"; encrypted_filename f])%list.

(** [_decrypt] *)
Definition _decrypt (f : t) (h : Host) : outcome string * Host :=
  match gpg h with
  | (Raise e, h) => (Raise e, h)
  | (Return g, h) =>
      let args := decrypt_argv g f in
      let h' := record_call (Spawn args None) h in
      match decrypt_run tool h args with
      | DecryptOSError => (Raise OSError, h')
      | DecryptExit returncode stdout stderr =>
          if returncode =? 0 then
            match stdout with
            | Some s => (Return s, h')
            | None => (Raise UnicodeDecodeError, h')
            end
          else (Raise (GPGCallError args returncode stderr), h')
      end
  end.

(** [read] *)
Definition read (f : t) (h : Host) : outcome string * t * Host :=
  match cleartext f with
  | Some c => (Return c, f, h)
  | None =>
      if OS.path_exists (encrypted_filename f) h then
        match _decrypt f h with
        | (Return c, h) => (Return c, set_cleartext (Some c) f, h)
        | (Raise e, h) => (Raise e, f, h)
        end
      else (Return "", set_cleartext (Some "") f, h)
  end.

Definition encrypt_argv (g : string) (recipients : list string)
    (filename : string) : list string :=
  ([g; "--encrypt"]
     ++ flat_map (fun r => ["-r"; PyStr.strip r]) recipients
     ++ ["-o"; filename])%list.

(** The body of the [try] in [_encrypt]: start the process, encode the
    data, feed it, look at the return code.  A process that was started
    and never fed is taken to leave nothing behind. *)
Definition encrypt_process (args : list string) (filename : string)
    (data : option string) (h : Host) : outcome unit * Host :=
  match encrypt_run tool h args with
  | EncryptOSError => (Raise OSError, record_call (Spawn args None) h)
  | EncryptRuns run =>
      match data with
      | None => (Raise AttributeError, record_call (Spawn args None) h)
      | Some d =>
          let '(returncode, output) := run d in
          let h := record_call (Spawn args (Some d)) h in
          let h :=
            match output with
            | Some c => set_fs (<[filename := c]> (fs h)) h
            | None => h
            end in
          if returncode =? 0 then (Return (), h)
          else (Raise NonZeroExit, h)
      end
  end.

(** [_encrypt] *)
Definition _encrypt (f : t) (data : option string) (h : Host)
  : outcome unit * Host :=
  match recipients f with
  | [] => (Raise MissingRecipients, h)
  | _ :: _ =>
      let filename := encrypted_filename f in
      match OS.rename filename (backup_of filename) h with
      | (Raise e, h) => (Raise e, h)
      | (Return _, h) =>
          match gpg h with
          | (Raise e, h) => (Raise e, h)
          | (Return g, h) =>
              let args := encrypt_argv g (recipients f) filename in
              match encrypt_process args filename data h with
              | (Raise e, h) =>
                  match OS.rename (backup_of filename) filename h with
                  | (Raise e', h) => (Raise e', h)
                  | (Return _, h) => (Raise e, h)
                  end
              | (Return _, h) => OS.unlink (backup_of filename) h
              end
          end
      end
  end.

(** [write] *)
Definition write (f : t) (h : Host) : outcome unit * t * Host :=
  if negb (write_lock f) then (Raise NotWritable, f, h)
  else
    let f := set_is_new (Some false) f in
    let '(r, h) := _encrypt f (cleartext f) h in
    (r, f, h).

End WithTool.

End EncryptedFile.

(** ** [pathlib] paths (POSIX flavour)

    A path is kept as [pathlib] keeps it: a root and the components after
    it.  Parsing drops empty components and single dots, and no more: a
    double dot stays. *)

Module Pathlib.

Definition components (s : string) : list string :=
  List.filter
    (fun c => negb (String.eqb c "") && negb (String.eqb c "."))
    (PyStr.split "/" s).

(** One slash for a text that starts with a slash, two when it starts
    with exactly two. *)
Definition root_of (s : string) : string :=
  if String.prefix "///" s then "/"
  else if String.prefix "//" s then "//"
  else if String.prefix "/" s then "/"
  else "".

Record t : Type := mk { root : string; parts : list string }.

(** [Path(s)] *)
Definition Path (s : string) : t := mk (root_of s) (components s).

(** [p / s]: a text that starts with a slash replaces the path. *)
Definition joinpath (p : t) (s : string) : t :=
  if String.prefix "/" s then Path s
  else mk (root p) (parts p ++ components s)%list.

(** [str(p)] *)
Definition str (p : t) : string :=
  match root p, parts p with
  | EmptyString, [] => "."
  | r, ps => r +:+ PyStr.join "/" ps
  end.

(** [p.name] *)
Definition name (p : t) : string := List.last (parts p) "".

End Pathlib.

(** [pathlib.Path("environments") / environment_name] *)
Definition environment_path (environment_name : string) : Pathlib.t :=
  Pathlib.joinpath (Pathlib.Path "environments") environment_name.

(** [iter_other_secrets], given the names of the entries [iterdir] finds
    in the directory of the environment, in the order it finds them.  The
    path [iterdir] yields for an entry is the directory joined with the
    name of the entry, a single component, which is then the [name] of
    that path.  The paths are given as [add_file] keeps them, as
    [str(path)]. *)
Definition iter_other_secrets (environment_name : string)
    (listing : list string) : list string :=
  map (fun name =>
         Pathlib.str (Pathlib.joinpath (environment_path environment_name)
                        name))
      (List.filter (String.prefix "secret-") listing).

(** What else the program takes from ConfigUpdater. *)
Record ConfigUpdaterLib : Type := mkLib {
  (* [ConfigUpdater().read_string(text)]: the outcome, and the fresh
     document as the parser leaves it, also when it raises *)
  read_string : string -> outcome unit * Config.t;
  (* the value an option has once it was set to a list of lines *)
  multiline : list string -> string;
  (* the exception [set] raises for a missing section *)
  NoSectionError : string -> exn
}.

Definition newline : ascii := "010"%char.

Definition NEW_FILE_TEMPLATE : string :=
  "[batou]" +:+ String newline ("members =" +:+ String newline EmptyString).

(** The lines [set_members] hands to [config.set]: the members joined by
    a comma and a line break, split at the line breaks. *)
Definition set_members_lines (members : list string) : list string :=
  let members := PyStr.join ("," +:+ String newline EmptyString) members in
  PyStr.split newline members.

(** ** [class EncryptedConfigFile]

    The [files] dictionary keeps insertion order and its first entry is
    always the main file, which [main_file] aliases: the object is kept
    once, as [main_file], and the later entries as [other_files], each
    under the key [encrypted_filename].  The [config] attribute exists once
    [read] has set it.  [__enter__], [read] and [set_members] run the
    parser and the option setter of ConfigUpdater, which are taken as a
    [ConfigUpdaterLib]. *)

Module EncryptedConfigFile.

Record t : Type := mk {
  add_files_for_env : option string;
  write_lock : bool;
  quiet : bool;
  main_file : EncryptedFile.t;
  other_files : list EncryptedFile.t;
  config : option Config.t
}.

Definition set_main_file (f : EncryptedFile.t) (b : t) : t :=
  mk (add_files_for_env b) (write_lock b) (quiet b) f
     (other_files b) (config b).
Definition set_other_files (l : list EncryptedFile.t) (b : t) : t :=
  mk (add_files_for_env b) (write_lock b) (quiet b) (main_file b)
     l (config b).
Definition set_config (c : option Config.t) (b : t) : t :=
  mk (add_files_for_env b) (write_lock b) (quiet b) (main_file b)
     (other_files b) c.

(** [self.files.values()] *)
Definition files (b : t) : list EncryptedFile.t :=
  main_file b :: other_files b.

(** [self.files.get(filename)] *)
Definition lookup (filename : string) (b : t) : option EncryptedFile.t :=
  List.find
    (fun f => String.eqb (EncryptedFile.encrypted_filename f) filename)
    (files b).

(** [get_members] *)
Definition get_members (b : t) : outcome (list string) * t :=
  match config b with
  | None => (Raise AttributeError, b)
  | Some cfg =>
      let '(cfg, members) := get_members_of cfg in
      (Return members, set_config (Some cfg) b)
  end.

Section WithTool.
Variable tool : Tool.
(** [ConfigUpdater.write] into a [StringIO]: the text of a document. *)
Variable render : Config.t -> string.

(** [add_file] *)
Definition add_file (filename : string) (b : t) (h : Host)
  : outcome EncryptedFile.t * t * Host :=
  match lookup filename b with
  | Some f => (Return f, b, h)
  | None =>
      let f := EncryptedFile.__init__ filename (write_lock b) (quiet b) in
      let '(r, f, h) := EncryptedFile.read tool f h in
      let b := set_other_files (other_files b ++ [f])%list b in
      match r with
      | Raise e => (Raise e, b, h)
      | Return _ => (Return f, b, h)
      end
  end.

Fixpoint add_files (filenames : list string) (b : t) (h : Host)
  : outcome unit * t * Host :=
  match filenames with
  | [] => (Return (), b, h)
  | p :: rest =>
      match add_file p b h with
      | (Raise e, b, h) => (Raise e, b, h)
      | (Return _, b, h) => add_files rest b h
      end
  end.

(** [__init__]; [listing] is what [iterdir] yields for the environment.
    The first [add_file] finds the dictionary empty. *)
Definition __init__ (encrypted_file : string)
    (add_files_for_env : option string) (listing : list string)
    (write_lock quiet : bool) (h : Host)
  : outcome t * Host :=
  let f := EncryptedFile.__init__ encrypted_file write_lock quiet in
  match EncryptedFile.read tool f h with
  | (Raise e, _, h) => (Raise e, h)
  | (Return _, f, h) =>
      let b := mk add_files_for_env write_lock quiet f [] None in
      match add_files_for_env with
      | Some env =>
          if PyStr.truthy env then
            match add_files (iter_other_secrets env listing) b h with
            | (Raise e, _, h) => (Raise e, h)
            | (Return _, b, h) => (Return b, h)
            end
          else (Return b, h)
      | None => (Return b, h)
      end
  end.

(** [__exit__] *)
Definition __exit__ (b : t) (h : Host) : outcome unit * t * Host :=
  let '(r, f) := EncryptedFile.__exit__ (main_file b) in
  let b := set_main_file f b in
  match r with
  | Raise e => (Raise e, b, h)
  | Return _ =>
      match get_members b with
      | (Raise e, b) => (Raise e, b, h)
      | (Return [], b) =>
          let '(r, h) :=
            OS.unlink (EncryptedFile.encrypted_filename (main_file b)) h in
          (r, b, h)
      | (Return (_ :: _), b) => (Return (), b, h)
      end
  end.

(** The body of the loop of [write]. *)
Definition write_one (cfg : Config.t) (f : EncryptedFile.t) (h : Host)
  : outcome unit * Config.t * EncryptedFile.t * Host :=
  let '(cfg, members) := get_members_of cfg in
  let f := EncryptedFile.set_recipients members f in
  let '(r, f, h) := EncryptedFile.write tool f h in
  (r, cfg, f, h).

(** The loop of [write] over the files still to visit. *)
Fixpoint write_files (cfg : Config.t) (l : list EncryptedFile.t) (h : Host)
  : outcome unit * Config.t * list EncryptedFile.t * Host :=
  match l with
  | [] => (Return (), cfg, [], h)
  | f :: rest =>
      match write_one cfg f h with
      | (Raise e, cfg, f, h) => (Raise e, cfg, f :: rest, h)
      | (Return _, cfg, f, h) =>
          let '(r, cfg, rest, h) := write_files cfg rest h in
          (r, cfg, f :: rest, h)
      end
  end.

(** [write] *)
Definition write (b : t) (h : Host) : outcome unit * t * Host :=
  match config b with
  | None => (Raise AttributeError, b, h)
  | Some cfg =>
      let main :=
        EncryptedFile.set_cleartext (Some (render cfg)) (main_file b) in
      match write_one cfg main h with
      | (Raise e, cfg, main, h) =>
          (Raise e, set_config (Some cfg) (set_main_file main b), h)
      | (Return _, cfg, main, h) =>
          let '(r, cfg, others, h) := write_files cfg (other_files b) h in
          (r, set_config (Some cfg)
                (set_other_files others (set_main_file main b)), h)
      end
  end.

End WithTool.

Section WithParser.
Variable tool : Tool.
Variable lib : ConfigUpdaterLib.

(** [set_members] *)
Definition set_members (members : list string) (b : t) : outcome unit * t :=
  let members := set_members_lines members in
  match config b with
  | None => (Raise AttributeError, b)
  | Some cfg =>
      match Config.set "batou" "members" (multiline lib members) cfg with
      | None => (Raise (NoSectionError lib "batou"), b)
      | Some cfg => (Return (), set_config (Some cfg) b)
      end
  end.

(** [read]: the cleartext of the main file, or the template when there is
    none, is parsed into a fresh document, and the members found are
    written back into it. *)
Definition read (b : t) (h : Host) : outcome unit * t * Host :=
  let '(r, main, h) := EncryptedFile.read tool (main_file b) h in
  let b := set_main_file main b in
  match r with
  | Raise e => (Raise e, b, h)
  | Return _ =>
      let text :=
        match EncryptedFile.cleartext main with
        | Some c => if PyStr.truthy c then c else NEW_FILE_TEMPLATE
        | None => NEW_FILE_TEMPLATE
        end in
      let b := set_main_file
                 (EncryptedFile.set_cleartext (Some text) main) b in
      let '(r, document) := read_string lib text in
      let b := set_config (Some document) b in
      match r with
      | Raise e => (Raise e, b, h)
      | Return _ =>
          match get_members b with
          | (Raise e, b) => (Raise e, b, h)
          | (Return members, b) =>
              let '(r, b) := set_members members b in (r, b, h)
          end
      end
  end.

(** [__enter__] *)
Definition __enter__ (b : t) (h : Host) : outcome unit * t * Host :=
  let '(r, main, h) := EncryptedFile.__enter__ (main_file b) h in
  let b := set_main_file main b in
  match r with
  | Raise e => (Raise e, b, h)
  | Return _ => read b h
  end.

End WithParser.

End EncryptedConfigFile.

(** ** [class Editor] of [edit.py]

    What the user types and what the editor program leaves behind is not
    decided by this program.  The temporary file [edit] hands to the editor
    lies outside the files modelled, and what is printed is left out. *)

Record Desk : Type := mkDesk {
  (* the [n]-th start of the editor command on a text: the text read back
     afterwards, or what starting the command or reading back raised *)
  run_editor : nat -> string -> string -> outcome string;
  (* what [input] raises when the input has ended *)
  EOFError : exn
}.

Module Editor.

(** An attribute that is not set yet is [None]; using it raises
    [AttributeError].  [editing] aliases a handle of the bundle: it is kept
    as the key of that handle.  [runs] counts the starts of the editor. *)
Record t : Type := mk {
  editor_cmd : string;
  environment : string;
  encrypted_configfile : string;
  edit_file : string;
  configfile : option EncryptedConfigFile.t;
  editing : option string;
  cleartext : option string;
  original_cleartext : option string;
  runs : nat
}.

Definition set_configfile (b : option EncryptedConfigFile.t) (ed : t) : t :=
  mk (editor_cmd ed) (environment ed) (encrypted_configfile ed) (edit_file ed)
     b (editing ed) (cleartext ed) (original_cleartext ed) (runs ed).
Definition set_editing (k : option string) (ed : t) : t :=
  mk (editor_cmd ed) (environment ed) (encrypted_configfile ed) (edit_file ed)
     (configfile ed) k (cleartext ed) (original_cleartext ed) (runs ed).
Definition set_cleartext (c : option string) (ed : t) : t :=
  mk (editor_cmd ed) (environment ed) (encrypted_configfile ed) (edit_file ed)
     (configfile ed) (editing ed) c (original_cleartext ed) (runs ed).
Definition set_original_cleartext (c : option string) (ed : t) : t :=
  mk (editor_cmd ed) (environment ed) (encrypted_configfile ed) (edit_file ed)
     (configfile ed) (editing ed) (cleartext ed) c (runs ed).
Definition set_runs (n : nat) (ed : t) : t :=
  mk (editor_cmd ed) (environment ed) (encrypted_configfile ed) (edit_file ed)
     (configfile ed) (editing ed) (cleartext ed) (original_cleartext ed) n.

(** [__init__]; the two paths are kept as [add_file] takes them, as
    [str(path)]. *)
Definition __init__ (editor_cmd environment : string)
    (edit_file : option string) : t :=
  let environment_path := environment_path environment in
  let encrypted_configfile :=
    Pathlib.str (Pathlib.joinpath environment_path "secrets.cfg") in
  mk editor_cmd environment encrypted_configfile
     (match edit_file with
      | None => encrypted_configfile
      | Some name =>
          Pathlib.str (Pathlib.joinpath environment_path ("secret-" +:+ name))
      end)
     None None None None 0.

(** Writing a handle back to where the bundle keeps the handle of that
    name. *)
Definition store (f : EncryptedFile.t) (b : EncryptedConfigFile.t)
  : EncryptedConfigFile.t :=
  let key := EncryptedFile.encrypted_filename f in
  if String.eqb
       (EncryptedFile.encrypted_filename (EncryptedConfigFile.main_file b)) key
  then EncryptedConfigFile.set_main_file f b
  else EncryptedConfigFile.set_other_files
         (map (fun g =>
                 if String.eqb (EncryptedFile.encrypted_filename g) key
                 then f else g)
              (EncryptedConfigFile.other_files b)) b.

(** Truth value of [is_new]. *)
Definition is_new_truthy (f : EncryptedFile.t) : bool :=
  match EncryptedFile.is_new f with Some true => true | _ => false end.

Section WithWorld.
Variable tool : Tool.
Variable lib : ConfigUpdaterLib.
Variable render : Config.t -> string.
Variable desk : Desk.

(** [edit] *)
Definition edit (ed : t) : outcome unit * t :=
  match cleartext ed with
  | None => (Raise AttributeError, ed)
  | Some text =>
      let ed' := set_runs (S (runs ed)) ed in
      match run_editor desk (runs ed) (editor_cmd ed) text with
      | Raise e => (Raise e, ed')
      | Return new_text => (Return (), set_cleartext (Some new_text) ed')
      end
  end.

(** [encrypt] *)
Definition encrypt (ed : t) (h : Host) : outcome unit * t * Host :=
  match cleartext ed, original_cleartext ed, configfile ed, editing ed with
  | Some text, Some original, Some b, Some key =>
      match EncryptedConfigFile.lookup key b with
      | None => (Raise AttributeError, ed, h)
      | Some f =>
          if String.eqb text original && negb (is_new_truthy f)
          then (Return (), ed, h)
          else
            let b := store (EncryptedFile.set_cleartext (Some text) f) b in
            let '(r, b, h) := EncryptedConfigFile.read tool lib b h in
            match r with
            | Raise e => (Raise e, set_configfile (Some b) ed, h)
            | Return _ =>
                let '(r, b, h) :=
                  EncryptedConfigFile.write tool render b h in
                (r, set_configfile (Some b) ed, h)
            end
      end
  | _, _, _, _ => (Raise AttributeError, ed, h)
  end.

(** [process_cmd] *)
Definition process_cmd (cmd : string) (ed : t) (h : Host)
  : outcome unit * t * Host :=
  if String.eqb cmd "edit" then
    match edit ed with
    | (Raise e, ed) => (Raise e, ed, h)
    | (Return _, ed) => encrypt ed h
    end
  else if String.eqb cmd "encrypt" then encrypt ed h
  else (Raise (ValueError ("unknown command `" +:+ cmd +:+ "`")), ed, h).

(** The loop of [interact], with the lines still to be typed.  The
    [except Exception] catches what is an [Exception]; anything else a
    command raises leaves the loop. *)
Fixpoint interact_loop (inputs : list string) (cmd : string) (ed : t)
    (h : Host) : outcome unit * t * Host :=
  if String.eqb cmd "quit" then (Return (), ed, h)
  else
    match process_cmd cmd ed h with
    | (Return _, ed, h) => (Return (), ed, h)
    | (Raise e, ed, h) =>
        if is_Exception e then
          match inputs with
          | [] => (Raise (EOFError desk), ed, h)
          | line :: inputs => interact_loop inputs (PyStr.strip line) ed h
          end
        else (Raise e, ed, h)
    end.

(** [interact] *)
Definition interact (inputs : list string) (ed : t) (h : Host)
  : outcome unit * t * Host :=
  interact_loop inputs "edit" ed h.

(** The body of the [with] of [main] up to [interact]: the file to edit
    is added to the session, entered, read and left again. *)
Definition prepare (ed : t) (h : Host) : outcome unit * t * Host :=
  match configfile ed with
  | None => (Raise AttributeError, ed, h)
  | Some b =>
      match EncryptedConfigFile.add_file tool (edit_file ed) b h with
      | (Raise e, b, h) => (Raise e, set_configfile (Some b) ed, h)
      | (Return f, b, h) =>
          let ed :=
            set_editing (Some (EncryptedFile.encrypted_filename f))
              (set_configfile (Some b) ed) in
          match EncryptedFile.__enter__ f h with
          | (Raise e, f, h) =>
              (Raise e, set_configfile (Some (store f b)) ed, h)
          | (Return _, f, h) =>
              let '(r, f, h) := EncryptedFile.read tool f h in
              let ed :=
                match r with
                | Return _ =>
                    set_original_cleartext (EncryptedFile.cleartext f)
                      (set_cleartext (EncryptedFile.cleartext f) ed)
                | Raise _ => ed
                end in
              let '(r', f) := EncryptedFile.__exit__ f in
              let ed := set_configfile (Some (store f b)) ed in
              match r' with
              | Raise e' => (Raise e', ed, h)
              | Return _ =>
                  match r with
                  | Raise e => (Raise e, ed, h)
                  | Return _ => (Return (), ed, h)
                  end
              end
          end
      end
  end.

(** [main]: the bundle is made and entered, the body runs, and
    [__exit__] of the bundle runs whatever the body did. *)
Definition main (listing inputs : list string) (ed : t) (h : Host)
  : outcome unit * t * Host :=
  match EncryptedConfigFile.__init__ tool (encrypted_configfile ed)
          (Some (environment ed)) listing true false h with
  | (Raise e, h) => (Raise e, ed, h)
  | (Return b, h) =>
      match EncryptedConfigFile.__enter__ tool lib b h with
      | (Raise e, _, h) => (Raise e, ed, h)
      | (Return _, b, h) =>
          let ed := set_configfile (Some b) ed in
          let '(r, ed, h) :=
            match prepare ed h with
            | (Raise e, ed, h) => (Raise e, ed, h)
            | (Return _, ed, h) => interact inputs ed h
            end in
          match configfile ed with
          | None => (Raise AttributeError, ed, h)
          | Some b =>
              let '(r', b, h) := EncryptedConfigFile.__exit__ b h in
              let ed := set_configfile (Some b) ed in
              match r' with
              | Raise e' => (Raise e', ed, h)
              | Return _ => (r, ed, h)
              end
          end
      end
  end.

End WithWorld.

End Editor.

(** ** Sample hosts and tools *)

Module Sample.

(** No binary answers. *)
Definition no_gpg : Tool :=
  mkTool (fun _ _ => false) (fun _ _ => DecryptOSError)
         (fun _ _ => EncryptOSError).

(** [gpg] answers; decryption gives back the content of the file,
    encryption leaves its command line followed by the cleartext. *)
Definition toy_gpg : Tool :=
  mkTool (fun _ g => String.eqb g "gpg")
         (fun h args =>
            match fs h !! List.last args "" with
            | Some c => DecryptExit 0 (Some c) ""
            | None => DecryptExit 2 None "gpg: decrypt_message failed"
            end)
         (fun _ args =>
            EncryptRuns (fun d => (0, Some (PyStr.join " " args +:+ ":" +:+ d)))).

(** [gpg] answers, and every encryption exits with code 2 after leaving
    a truncated output. *)
Definition failing_gpg : Tool :=
  mkTool (fun _ g => String.eqb g "gpg")
         (fun _ _ => DecryptExit 2 None "")
         (fun _ _ => EncryptRuns (fun _ => (2, Some "trunc"))).

Definition cfg_dup : Config.t :=
  [("batou", [("members", " bob, alice ,,bob")])].

Definition path0 : string := "environments/dev/secrets.cfg".

(** The main file exists and nobody holds a lock. *)
Definition dir0 : string := "environments/dev".

Definition host0 : Host :=
  mkHost {[ path0 := "CIPHERTEXT" ]} {[ dir0 ]} ∅ [].

(** The directory of the environment exists and is empty. *)
Definition host_new : Host := mkHost ∅ {[ dir0 ]} ∅ [].

(** Another process holds a write lock on the main file. *)
Definition host_locked : Host :=
  mkHost {[ path0 := "CIPHERTEXT" ]} {[ dir0 ]} {[ path0 := F_WRLCK ]} [].

(** A handle opened for writing, with a recipient and new cleartext. *)
Definition writer0 : EncryptedFile.t :=
  EncryptedFile.set_cleartext (Some "token = 1")
    (EncryptedFile.set_recipients ["alice"]
       (EncryptedFile.__init__ path0 true false)).

(** A handle opened read-only. *)
Definition reader0 : EncryptedFile.t :=
  EncryptedFile.__init__ path0 false false.

(** A stand-in for the writer of ConfigUpdater. *)
Definition render0 (cfg : Config.t) : string :=
  String.concat ""
    (map (fun s =>
            "[" +:+ fst s +:+ "] "
            +:+ String.concat ""
                  (map (fun kv => fst kv +:+ " = " +:+ snd kv +:+ "; ")
                       (snd s)))
         cfg).

Definition cfg_team : Config.t := [("batou", [("members", "bob, alice")])].
Definition cfg_nobody : Config.t := [("batou", [("members", "")])].

Definition secret_a : string := "environments/dev/secret-a".
Definition secret_b : string := "environments/dev/secret-b".

(** A handle as [__enter__] leaves it on an existing file. *)
Definition entered (p : string) (c : string) : EncryptedFile.t :=
  EncryptedFile.mk p true false []
    (Some (OS.mkFileObject p "a+" (Some F_WRLCK) false)) (Some c) (Some false).

(** A handle as [add_file] leaves it on an existing file. *)
Definition added (p : string) (c : string) : EncryptedFile.t :=
  EncryptedFile.mk p true false [] None (Some c) None.

(** A bundle in a write session: the main file and two more. *)
Definition bundle0 : EncryptedConfigFile.t :=
  EncryptedConfigFile.mk (Some "dev") true false
    (entered path0 "[batou] members = bob, alice; ")
    [added secret_a "a = 1"; added secret_b "b = 2"]
    (Some cfg_team).

Definition host_bundle : Host :=
  mkHost {[ path0 := "CIPHERTEXT"; secret_a := "CA"; secret_b := "CB" ]}
    {[ dir0 ]} ∅ [].

(** The same session after the member list was emptied. *)
Definition bundle_nobody : EncryptedConfigFile.t :=
  EncryptedConfigFile.set_config (Some cfg_nobody) bundle0.

(** [gpg] answers; encryption works except for [secret-b]. *)
Definition picky_gpg : Tool :=
  mkTool (fun _ g => String.eqb g "gpg")
         (fun _ _ => DecryptExit 2 None "")
         (fun _ args =>
            EncryptRuns (fun d =>
              if String.eqb (List.last args "") secret_b
              then (2, Some "trunc")
              else (0, Some (PyStr.join " " args +:+ ":" +:+ d)))).

(** [gpg] answers as long as no process was spawned, and no more after
    that: the binary goes away during the session. *)
Definition vanishing_gpg : Tool :=
  mkTool (fun h g => match spawned h with
                     | [] => String.eqb g "gpg"
                     | _ :: _ => false
                     end)
         (fun _ _ => DecryptOSError)
         (fun _ args =>
            EncryptRuns (fun d => (0, Some (PyStr.join " " args +:+ ":" +:+ d)))).


Definition host_clash : Host :=
  mkHost {[ path0 := "CIPHERTEXT"; secret_a := "CA";
            backup_of secret_a := "CA-OLD" ]} {[ dir0 ]} ∅ [].

(** A stand-in for ConfigUpdater: it knows the template, the text of
    [cfg_team] and one more text, refuses every other text before any
    section, and lays a list of lines out one per line, indented. *)
Definition indent : string := String newline "    ".

Definition lib0 : ConfigUpdaterLib :=
  mkLib (fun text =>
           if String.eqb text NEW_FILE_TEMPLATE
           then (Return (), cfg_nobody)
           else if String.eqb text "[batou] members = bob, alice; "
           then (Return (), cfg_team)
           else if String.eqb text "[batou] members = carol, alice; "
           then (Return (), [("batou", [("members", "carol, alice")])])
           else (Raise (RuntimeError "File contains no section headers."),
                 []))
        (fun lines => indent +:+ PyStr.join indent lines)
        (fun section => RuntimeError ("No section: " +:+ section)).

(** A user whose editor replaces every text by a line without section
    header. *)
Definition clumsy_desk : Desk :=
  mkDesk (fun _ _ _ => Return "members = alice")
         (RuntimeError "EOF when reading a line").

(** A user whose editor replaces [bob] by [carol]. *)
Definition careful_desk : Desk :=
  mkDesk (fun _ _ _ => Return "[batou] members = carol, alice; ")
         (RuntimeError "EOF when reading a line").

(** The directory of the environment, and the host on which the main file
    decrypts to the text of [cfg_team]. *)
Definition listing0 : list string :=
  ["environment.cfg"; "secrets.cfg"; "secret-a"; "secret-b"].

Definition host_session : Host :=
  mkHost {[ path0 := "[batou] members = bob, alice; ";
            secret_a := "a = 1"; secret_b := "b = 2" ]} {[ dir0 ]} ∅ [].

End Sample.

(** ** Conditions on the files of a bundle *)

(** The keys of the [files] dictionary. *)
Definition filenames (l : list EncryptedFile.t) : list string :=
  map EncryptedFile.encrypted_filename l.

(** No file of the list is stored under the backup name of a file of the
    list. *)
Definition no_backup_clash (l : list EncryptedFile.t) : Prop :=
  forall f g, In f l -> In g l ->
    EncryptedFile.encrypted_filename f
    <> backup_of (EncryptedFile.encrypted_filename g).

(** [content] is what the tool left for the file when it was asked to
    encrypt the cleartext of [f] for [members]. *)
Definition encrypted_for (tool : Tool) (members : list string)
    (f : EncryptedFile.t) (content : option string) : Prop :=
  exists g hs run d,
    In g GPG_BINARY_CANDIDATES
    /\ encrypt_run tool hs
         (EncryptedFile.encrypt_argv g members
            (EncryptedFile.encrypted_filename f))
       = EncryptRuns run
    /\ EncryptedFile.cleartext f = Some d
    /\ run d = (0, content).

(** [c] is the call that encrypts the cleartext of [f] for [members]. *)
Definition encrypt_call (members : list string) (f : EncryptedFile.t)
    (c : Call) : Prop :=
  exists g d,
    In g GPG_BINARY_CANDIDATES
    /\ EncryptedFile.cleartext f = Some d
    /\ c = Spawn (EncryptedFile.encrypt_argv g members
                    (EncryptedFile.encrypted_filename f)) (Some d).

(** A member as [get_members] returns them and without line break: not
    empty, no white space around it, neither comma nor line break in it. *)
Definition plain_member (m : string) : Prop :=
  m <> EmptyString
  /\ PyStr.strip m = m
  /\ Forall (fun c => c <> ","%char /\ c <> newline) (list_ascii_of_string m).

(** A single component of a path, as the name of a directory entry is:
    not empty, not a single dot, no slash in it. *)
Definition single_component (s : string) : Prop :=
  s <> EmptyString /\ s <> "."
  /\ Forall (fun c => c <> "/"%char) (list_ascii_of_string s).

(** A handle as [add_file] leaves it when it returns: the flags of the
    bundle, cleartext read, neither lock nor [is_new] nor recipients. *)
Definition registered_handle (wl q : bool) (f : EncryptedFile.t) : Prop :=
  EncryptedFile.write_lock f = wl /\ EncryptedFile.quiet f = q
  /\ EncryptedFile.cleartext f <> None
  /\ EncryptedFile.is_new f = None /\ EncryptedFile.lockfd f = None
  /\ EncryptedFile.recipients f = [].

(** A bundle during a session on [path]: that is the path of its main
    file, the main handle has a lock file, and a document was read. *)
Definition in_session (path : string) (b : EncryptedConfigFile.t) : Prop :=
  EncryptedFile.encrypted_filename (EncryptedConfigFile.main_file b) = path
  /\ EncryptedFile.lockfd (EncryptedConfigFile.main_file b) <> None
  /\ EncryptedConfigFile.config b <> None.

(** ** Observations on the record of spawned processes *)

Definition is_decrypt_call (c : Call) : bool :=
  match c with Spawn argv _ => existsb (String.eqb "--decrypt") argv end.

Definition is_encrypt_call (c : Call) : bool :=
  match c with Spawn argv _ => existsb (String.eqb "--encrypt") argv end.

(** How often the tool was asked to decrypt so far. *)
Definition decrypt_calls (h : Host) : nat :=
  List.length (List.filter is_decrypt_call (spawned h)).

(** ** Facts about the string operations *)

Module PyStrFacts.
Import PyStr.

Lemma split_nonempty sep s : split sep s <> [].
Proof.
  destruct s as [|c r]; simpl; [discriminate|].
  destruct (Ascii.eqb c sep); [discriminate|].
  destruct (split sep r); discriminate.
Qed.

(** Joining the pieces with the separator gives the string back. *)
Lemma join_cons sep x h t :
  join sep (x :: h :: t) = x +:+ sep +:+ join sep (h :: t).
Proof. reflexivity. Qed.

Lemma join_split sep s : join (String sep EmptyString) (split sep s) = s.
Proof.
  induction s as [|c r IH]; [reflexivity|].
  cbn [split].
  destruct (split sep r) as [|h t] eqn:S.
  { exfalso. exact (split_nonempty _ _ S). }
  destruct (Ascii.eqb c sep) eqn:E.
  - apply Ascii.eqb_eq in E. subst c.
    rewrite join_cons, IH. reflexivity.
  - destruct t as [|h' t].
    + cbn [join] in *. congruence.
    + rewrite join_cons in *. rewrite <- IH. reflexivity.
Qed.

(** No piece contains the separator. *)
Lemma split_no_sep sep s :
  Forall (fun e => Forall (fun c => c <> sep) (list_ascii_of_string e))
         (split sep s).
Proof.
  induction s as [|c r IH]; simpl.
  - repeat constructor.
  - destruct (Ascii.eqb c sep) eqn:E.
    + constructor; [constructor | exact IH].
    + apply Ascii.eqb_neq in E.
      destruct (split sep r) as [|h t]; [repeat constructor; exact E|].
      inversion IH; subst. constructor; [|assumption].
      simpl. constructor; assumption.
Qed.

Lemma append_cons c a s : String c a +:+ s = String c (a +:+ s).
Proof. reflexivity. Qed.

Lemma append_empty s : EmptyString +:+ s = s.
Proof. reflexivity. Qed.

Lemma all_space_empty : all_space EmptyString.
Proof. constructor. Qed.

Lemma all_space_cons c s :
  isspace c = true -> all_space s -> all_space (String c s).
Proof. intros. constructor; assumption. Qed.

Lemma lstrip_spec s :
  exists a, s = a +:+ lstrip s /\ all_space a
            /\ (forall c, first_char (lstrip s) = Some c -> isspace c = false).
Proof.
  induction s as [|c r (a & E & A & F)]; cbn [lstrip].
  - exists EmptyString. split; [reflexivity|].
    split; [apply all_space_empty | discriminate].
  - destruct (isspace c) eqn:S.
    + exists (String c a). rewrite append_cons, <- E.
      split; [reflexivity|]. split; [apply all_space_cons; assumption | exact F].
    + exists EmptyString. rewrite append_empty.
      split; [reflexivity|]. split; [apply all_space_empty|].
      intros c' [= <-]. exact S.
Qed.

Lemma rstrip_spec s :
  exists b, s = rstrip s +:+ b /\ all_space b
            /\ (forall c, last_char (rstrip s) = Some c -> isspace c = false).
Proof.
  induction s as [|c r (b & E & A & L)]; cbn [rstrip].
  - exists EmptyString. split; [reflexivity|].
    split; [apply all_space_empty | discriminate].
  - destruct (rstrip r) as [|c' r'] eqn:R.
    + rewrite append_empty in E. subst b.
      destruct (isspace c) eqn:S.
      * exists (String c r). rewrite append_empty.
        split; [reflexivity|].
        split; [apply all_space_cons; assumption | discriminate].
      * exists r. rewrite append_cons, append_empty.
        split; [reflexivity|]. split; [assumption|].
        intros x [= <-]. exact S.
    + exists b. rewrite append_cons, <- E.
      split; [reflexivity|]. split; [assumption | exact L].
Qed.

Lemma rstrip_first s c :
  first_char s = Some c -> isspace c = false -> first_char (rstrip s) = Some c.
Proof.
  destruct s as [|c0 r]; simpl; [discriminate|].
  intros [= ->] S. rewrite S. destruct (rstrip r); reflexivity.
Qed.

Lemma rstrip_first_inv s c :
  first_char (rstrip s) = Some c -> first_char s = Some c.
Proof.
  destruct s as [|c0 r]; simpl; [discriminate|].
  destruct (rstrip r); [destruct (isspace c0)|]; simpl; congruence.
Qed.

(** What [strip] removes is white space, on both sides, and what it
    leaves neither starts nor ends with white space. *)
Lemma strip_spec s :
  exists a b, s = a +:+ strip s +:+ b /\ all_space a /\ all_space b
    /\ (forall c, first_char (strip s) = Some c -> isspace c = false)
    /\ (forall c, last_char (strip s) = Some c -> isspace c = false).
Proof.
  destruct (lstrip_spec s) as (a & Ea & Aa & Fa).
  destruct (rstrip_spec (lstrip s)) as (b & Eb & Ab & Lb).
  exists a, b. unfold strip. rewrite <- Eb, <- Ea.
  repeat split; try assumption.
  intros c Hc. apply Fa. apply rstrip_first_inv. exact Hc.
Qed.

Lemma lstrip_fixed s :
  (forall c, first_char s = Some c -> isspace c = false) -> lstrip s = s.
Proof.
  destruct s as [|c r]; simpl; [reflexivity|].
  intros H. rewrite (H c eq_refl). reflexivity.
Qed.

Lemma rstrip_fixed s :
  (forall c, last_char s = Some c -> isspace c = false) -> rstrip s = s.
Proof.
  induction s as [|c r IH]; simpl; [reflexivity|].
  intros H. destruct r as [|c' r'].
  - simpl. rewrite (H c eq_refl). reflexivity.
  - rewrite IH by exact H. reflexivity.
Qed.

(** Stripping twice is stripping once. *)
Lemma strip_idem s : strip (strip s) = strip s.
Proof.
  destruct (strip_spec s) as (_ & _ & _ & _ & _ & F & L).
  unfold strip at 1. rewrite (lstrip_fixed _ F). apply rstrip_fixed, L.
Qed.

Lemma sort_Sorted l : Sorted String.le (sort l).
Proof. apply Sorted_merge_sort; apply _. Qed.

Lemma sort_Permutation l : sort l ≡ₚ l.
Proof. apply merge_sort_Permutation. Qed.

End PyStrFacts.

(** ** The member list *)

Module MembersFacts.

Lemma has_section_false name cfg :
  Config.has_section name cfg = false -> Config.assoc name cfg = None.
Proof.
  unfold Config.has_section.
  induction cfg as [|[k v] r IH]; simpl; [reflexivity|].
  destruct (String.eqb k name); simpl; [discriminate | exact IH].
Qed.

Lemma has_section_true name cfg :
  Config.has_section name cfg = true -> Config.assoc name cfg <> None.
Proof.
  unfold Config.has_section.
  induction cfg as [|[k v] r IH]; simpl; [discriminate|].
  destruct (String.eqb k name); simpl; [discriminate | exact IH].
Qed.

Lemma assoc_added name cfg :
  Config.assoc name cfg = None ->
  Config.assoc name (Config.add_section name cfg) = Some [].
Proof.
  unfold Config.add_section.
  induction cfg as [|[k v] r IH]; simpl.
  - rewrite String.eqb_refl. reflexivity.
  - destruct (String.eqb k name); [discriminate | exact IH].
Qed.

Lemma value_added name key cfg :
  Config.assoc name cfg = None ->
  Config.get_value name key (Config.add_section name cfg) = None
  /\ Config.get_value name key cfg = None.
Proof.
  intros H. unfold Config.get_value.
  rewrite (assoc_added _ _ H), H. split; reflexivity.
Qed.

(** The members depend on the value of the option alone. *)
Lemma members_of_value cfg :
  snd (get_members_of cfg) =
  match Config.get_value "batou" "members" cfg with
  | Some value =>
      PyStr.sort (List.filter PyStr.truthy
                    (map PyStr.strip (PyStr.split "," value)))
  | None => []
  end.
Proof.
  unfold get_members_of.
  destruct (Config.has_section "batou" cfg) eqn:H; simpl.
  - destruct (Config.get_value "batou" "members" cfg); reflexivity.
  - apply has_section_false in H.
    destruct (value_added "batou" "members" cfg H) as [-> ->]. reflexivity.
Qed.

(** Adding the missing section does not change the value of the option. *)
Lemma value_after_get_members cfg :
  Config.get_value "batou" "members" (fst (get_members_of cfg)) =
  Config.get_value "batou" "members" cfg.
Proof.
  unfold get_members_of.
  destruct (Config.has_section "batou" cfg) eqn:H; simpl.
  - destruct (Config.get_value "batou" "members" cfg) eqn:V; simpl; exact V.
  - apply has_section_false in H.
    destruct (value_added "batou" "members" cfg H) as [E1 E2].
    rewrite E1, E2. simpl. exact E1.
Qed.

(** Asking again gives the same members. *)
Lemma members_stable cfg :
  snd (get_members_of (fst (get_members_of cfg))) = snd (get_members_of cfg).
Proof. rewrite !members_of_value, value_after_get_members. reflexivity. Qed.

Lemma truthy_nonempty s : PyStr.truthy s = true <-> s <> EmptyString.
Proof. destruct s; simpl; split; congruence. Qed.

(** Members are stripped already: stripping them for the command line
    changes nothing. *)
Lemma members_stripped cfg :
  map PyStr.strip (snd (get_members_of cfg)) = snd (get_members_of cfg).
Proof.
  rewrite members_of_value.
  destruct (Config.get_value "batou" "members" cfg) as [v|]; [|reflexivity].
  assert (H : Forall (fun m => PyStr.strip m = m)
                (PyStr.sort (List.filter PyStr.truthy
                   (map PyStr.strip (PyStr.split "," v))))).
  { rewrite PyStrFacts.sort_Permutation.
    apply Forall_forall. intros m Hm.
    apply list_elem_of_In, filter_In in Hm. destruct Hm as [Hm _].
    apply in_map_iff in Hm. destruct Hm as (e & <- & _).
    apply PyStrFacts.strip_idem. }
  induction H as [|m l Hm _ IH]; simpl; congruence.
Qed.

End MembersFacts.

(** C7: when the [members] option of section [batou] has value [value],
    [get_members] returns the pieces of [value] between commas (joined by
    commas they give [value] back, none contains a comma), each stripped of
    the white space around it, without the empty ones, in ascending order;
    it is a permutation of the stripped non-empty pieces, so an identifier
    occurs in the result as often as among them. *)
Theorem get_members_splits_trims_sorts (cfg : Config.t) (value : string) :
  Config.get_value "batou" "members" cfg = Some value ->
  let members := snd (get_members_of cfg) in
  let entries := PyStr.split "," value in
  PyStr.join "," entries = value
  /\ Forall (fun e => Forall (fun c => c <> ","%char) (list_ascii_of_string e))
            entries
  /\ Forall (fun e => exists a b,
               e = a +:+ PyStr.strip e +:+ b
               /\ PyStr.all_space a /\ PyStr.all_space b
               /\ (forall c, PyStr.first_char (PyStr.strip e) = Some c ->
                             PyStr.isspace c = false)
               /\ (forall c, PyStr.last_char (PyStr.strip e) = Some c ->
                             PyStr.isspace c = false)) entries
  /\ (members ≡ₚ List.filter PyStr.truthy (map PyStr.strip entries))
  /\ Sorted String.le members
  /\ (EmptyString ∉ members)
  /\ (forall m, m <> EmptyString ->
        count_occ string_dec members m
        = count_occ string_dec (map PyStr.strip entries) m).
Proof.
  intros Hv members entries. subst members.
  rewrite MembersFacts.members_of_value, Hv. fold entries.
  split; [apply PyStrFacts.join_split|].
  split; [apply PyStrFacts.split_no_sep|].
  split; [apply Forall_forall; intros e _; apply PyStrFacts.strip_spec|].
  split; [apply PyStrFacts.sort_Permutation|].
  split; [apply PyStrFacts.sort_Sorted|].
  split.
  - rewrite PyStrFacts.sort_Permutation. intros H.
    apply list_elem_of_In, filter_In in H. destruct H as [_ H]. discriminate.
  - intros m Hm.
    rewrite (proj1 (Permutation_count_occ string_dec _ _)
               (PyStrFacts.sort_Permutation _)).
    induction (map PyStr.strip entries) as [|x l IH]; [reflexivity|].
    simpl. destruct (PyStr.truthy x) eqn:T; simpl.
    + destruct (string_dec x m); congruence.
    + destruct x; [|discriminate].
      destruct (string_dec "" m); [congruence | exact IH].
Qed.

Lemma get_members_splits_trims_sorts_witness :
  Config.get_value "batou" "members" Sample.cfg_dup = Some " bob, alice ,,bob"
  /\ Sorted String.le (snd (get_members_of Sample.cfg_dup))
  /\ count_occ string_dec (snd (get_members_of Sample.cfg_dup)) "bob"
     = count_occ string_dec
         (map PyStr.strip (PyStr.split "," " bob, alice ,,bob")) "bob".
Proof.
  assert (H : Config.get_value "batou" "members" Sample.cfg_dup
              = Some " bob, alice ,,bob") by reflexivity.
  split; [exact H|].
  destruct (get_members_splits_trims_sorts Sample.cfg_dup _ H)
    as (_ & _ & _ & _ & S & _ & C).
  split; [exact S | apply C; discriminate].
Defined.

(** Duplicates stay: [bob] is listed twice and returned twice. *)
Example get_members_keeps_duplicates :
  snd (get_members_of Sample.cfg_dup) = ["alice"; "bob"; "bob"].
Proof. reflexivity. Qed.

(** Without the option there are no members. *)
Example get_members_no_option : get_members_of [] = ([("batou", [])], []).
Proof. reflexivity. Qed.

(** ** Facts about [EncryptedFile] *)

Module FileFacts.
Import EncryptedFile.

Lemma length_append a b :
  String.length (a +:+ b) = (String.length a + String.length b)%nat.
Proof.
  induction a as [|c a IH]; [reflexivity|].
  rewrite PyStrFacts.append_cons. cbn [String.length]. rewrite IH. reflexivity.
Qed.

Lemma backup_differs p : backup_of p <> p.
Proof.
  unfold backup_of. intros H.
  apply (f_equal String.length) in H.
  rewrite length_append in H. cbn [String.length] in H. lia.
Qed.

Lemma rename_cases src dst h :
  (fs h !! src = None /\ OS.rename src dst h = (Raise (FileNotFoundError src), h))
  \/ (exists c, fs h !! src = Some c
        /\ OS.rename src dst h
           = (Return (), set_fs (<[dst := c]> (delete src (fs h))) h)).
Proof.
  unfold OS.rename. destruct (fs h !! src) as [c|]; [right; eauto | left; auto].
Qed.

Section WithTool.
Variable tool : Tool.

(** Looking for the binary spawns version queries and touches nothing
    else. *)
Lemma gpg_frame h r h' :
  gpg tool h = (r, h') ->
  fs h' = fs h /\ foreign h' = foreign h
  /\ decrypt_calls h' = decrypt_calls h
  /\ (exists calls, calls <> [] /\ spawned h' = (calls ++ spawned h)%list
        /\ Forall (fun c => is_encrypt_call c = false) calls)
  /\ (r = Raise BinaryNotFound
      \/ exists g, r = Return g /\ In g GPG_BINARY_CANDIDATES).
Proof.
  unfold gpg, GPG_BINARY_CANDIDATES. cbn [gpg_probe].
  destruct (version_probe tool h "gpg").
  - intros [= <- <-]. cbn.
    repeat split.
    + exists [Spawn ["gpg"; "--version"] None].
      repeat split; [discriminate | repeat constructor].
    + right. exists "gpg". split; [reflexivity | left; reflexivity].
  - destruct (version_probe tool _ "gpg2").
    + intros [= <- <-]. cbn.
      repeat split.
      * exists [Spawn ["gpg2"; "--version"] None;
                Spawn ["gpg"; "--version"] None].
        repeat split; [discriminate | repeat constructor].
      * right. exists "gpg2". split; [reflexivity | right; left; reflexivity].
    + intros [= <- <-]. cbn.
      repeat split.
      * exists [Spawn ["gpg2"; "--version"] None;
                Spawn ["gpg"; "--version"] None].
        repeat split; [discriminate | repeat constructor].
      * left. reflexivity.
Qed.

(** Decrypting reads: the files stay, and the tool is asked to decrypt at
    most once. *)
Lemma decrypt_frame f h r h' :
  _decrypt tool f h = (r, h') ->
  fs h' = fs h /\ foreign h' = foreign h
  /\ (decrypt_calls h' <= decrypt_calls h + 1)%nat
  /\ (exists calls, calls <> [] /\ spawned h' = (calls ++ spawned h)%list).
Proof.
  unfold _decrypt.
  destruct (gpg tool h) as [rg hg] eqn:G.
  destruct (gpg_frame _ _ _ G) as (Hfs & Hfo & Hd & (calls & Hne & Hsp & _) & _).
  assert (Hrec : forall c,
    let h2 := record_call c hg in
    fs h2 = fs h /\ foreign h2 = foreign h
    /\ (decrypt_calls h2 <= decrypt_calls h + 1)%nat
    /\ (exists calls, calls <> [] /\ spawned h2 = (calls ++ spawned h)%list)).
  { intros c. cbn. repeat split; try assumption.
    - unfold decrypt_calls in *. cbn. destruct (is_decrypt_call c); cbn; lia.
    - exists (c :: calls). rewrite Hsp. split; [discriminate | reflexivity]. }
  destruct rg as [g|e].
  - destruct (decrypt_run tool hg (decrypt_argv g f)) as [|rc out err].
    + intros [= <- <-]. apply Hrec.
    + destruct (rc =? 0); [destruct out|]; intros [= <- <-]; apply Hrec.
  - intros [= <- <-]. repeat split; try assumption; [lia|].
    exists calls. split; assumption.
Qed.

(** What the body of the [try] can do: spawn one process, leave something
    at the output path, and fail in one of three ways. *)
Lemma encrypt_process_cases args filename data h r h' :
  encrypt_process tool args filename data h = (r, h') ->
  foreign h' = foreign h
  /\ (exists stdin, spawned h' = Spawn args stdin :: spawned h)
  /\ (exists out, fs h' = match out with
                          | Some c => <[filename := c]> (fs h)
                          | None => fs h
                          end
        /\ (r = Return () ->
            exists run d, encrypt_run tool h args = EncryptRuns run
              /\ data = Some d /\ run d = (0, out)
              /\ spawned h' = Spawn args (Some d) :: spawned h))
  /\ (forall e, r = Raise e ->
        e = OSError \/ e = AttributeError \/ e = NonZeroExit).
Proof.
  unfold encrypt_process.
  destruct (encrypt_run tool h args) as [|run] eqn:R.
  - intros [= <- <-]. cbn. repeat split; eauto.
    + exists None. split; [reflexivity | discriminate].
    + intros e [= <-]. auto.
  - destruct data as [d|].
    + destruct (run d) as [rc out] eqn:D.
      destruct (rc =? 0) eqn:Z; intros [= <- <-].
      * apply Z.eqb_eq in Z. subst rc.
        split; [destruct out; reflexivity|].
        split; [destruct out; eexists; reflexivity|].
        split; [|discriminate].
        exists out. split; [destruct out; reflexivity|].
        intros _. exists run, d. repeat split; try assumption.
        destruct out; reflexivity.
      * split; [destruct out; reflexivity|].
        split; [destruct out; eexists; reflexivity|].
        split.
        -- exists out. split; [destruct out; reflexivity | discriminate].
        -- intros e [= <-]. auto.
    + intros [= <- <-]. cbn. repeat split; eauto.
      * exists None. split; [reflexivity | discriminate].
      * intros e [= <-]. auto.
Qed.

(** Every way [_encrypt] can end.  Files other than the one written and
    its backup are never touched. *)
Lemma encrypt_cases f data h r h' :
  _encrypt tool f data h = (r, h') ->
  let fn := encrypted_filename f in
  foreign h' = foreign h
  /\ (forall p, p <> fn -> p <> backup_of fn -> fs h' !! p = fs h !! p)
  /\ ((recipients f = [] /\ r = Raise MissingRecipients /\ h' = h)
      \/ (recipients f <> [] /\ fs h !! fn = None
          /\ r = Raise (FileNotFoundError fn) /\ h' = h)
      \/ (recipients f <> [] /\ exists c, fs h !! fn = Some c /\
          ((r = Raise BinaryNotFound
            /\ fs h' !! fn = None /\ fs h' !! backup_of fn = Some c)
           \/ ((r = Raise OSError \/ r = Raise AttributeError
                \/ r = Raise NonZeroExit)
               /\ fs h' !! fn = Some c /\ fs h' !! backup_of fn = None)
           \/ (r = Return () /\ fs h' !! backup_of fn = None
               /\ exists g hs run d calls,
                    In g GPG_BINARY_CANDIDATES
                    /\ encrypt_run tool hs (encrypt_argv g (recipients f) fn)
                       = EncryptRuns run
                    /\ data = Some d
                    /\ run d = (0, fs h' !! fn)
                    /\ spawned h'
                       = (Spawn (encrypt_argv g (recipients f) fn) (Some d)
                            :: calls ++ spawned h)%list
                    /\ Forall (fun c => is_encrypt_call c = false) calls)))).
Proof.
  intros E fn. unfold _encrypt in E. fold fn in E.
  pose proof (backup_differs fn) as Hbk.
  destruct (recipients f) as [|r0 rs] eqn:Hr.
  { injection E as <- <-. repeat split; auto. }
  destruct (rename_cases fn (backup_of fn) h) as [[Hn Hren]|(c & Hc & Hren)];
    rewrite Hren in E.
  { injection E as <- <-. repeat split; auto.
    right; left. repeat split; auto; discriminate. }
  set (h1 := set_fs (<[backup_of fn := c]> (delete fn (fs h))) h) in *.
  destruct (gpg tool h1) as [rg hg] eqn:G.
  destruct (gpg_frame _ _ _ G)
    as (Gfs & Gfo & _ & (calls & _ & Gsp & Gne) & Gr).
  assert (F1 : forall p, p <> fn -> p <> backup_of fn ->
                 fs h1 !! p = fs h !! p).
  { intros p H1 H2. cbn. rewrite lookup_insert_ne, lookup_delete_ne; auto. }
  assert (B1 : fs h1 !! backup_of fn = Some c).
  { cbn. apply lookup_insert_eq. }
  assert (N1 : fs h1 !! fn = None).
  { cbn. rewrite lookup_insert_ne, lookup_delete_eq; auto. }
  assert (O1 : foreign h1 = foreign h) by reflexivity.
  assert (S1 : spawned h1 = spawned h) by reflexivity.
  destruct rg as [g|e].
  2:{ injection E as <- <-.
      destruct Gr as [[= ->]|(g & [=] & _)].
      split; [congruence|]. rewrite Gfs.
      split; [exact F1|]. right; right. split; [discriminate|].
      exists c. split; [exact Hc|]. left. auto. }
  destruct Gr as [[=]|(g' & [= <-] & Hg)].
  destruct (encrypt_process tool (encrypt_argv g (r0 :: rs) fn) fn data hg)
    as [rp hp] eqn:P.
  destruct (encrypt_process_cases _ _ _ _ _ _ P)
    as (Pfo & (stdin & Psp) & (out & Pfs & Pret) & Praise).
  assert (Bp : fs hp !! backup_of fn = Some c).
  { rewrite Pfs. destruct out; rewrite ?lookup_insert_ne; auto; congruence. }
  assert (Fp : forall p, p <> fn -> p <> backup_of fn ->
                 fs hp !! p = fs h !! p).
  { intros p H1 H2. rewrite Pfs.
    destruct out; rewrite ?lookup_insert_ne; auto; rewrite Gfs; auto. }
  destruct rp as [[]|e].
  - unfold OS.unlink in E. rewrite Bp in E. injection E as <- <-. cbn.
    split; [congruence|].
    split; [intros p H1 H2; rewrite lookup_delete_ne; auto|].
    right; right. split; [discriminate|].
    exists c. split; [exact Hc|]. right; right.
    split; [reflexivity|]. split; [apply lookup_delete_eq|].
    destruct (Pret eq_refl) as (run & d & Hrun & Hd & Hout & Hsp).
    exists g, hg, run, d, calls. repeat split; auto.
    + rewrite Hout. f_equal. rewrite lookup_delete_ne by auto.
      rewrite Pfs. destruct out.
      * rewrite lookup_insert_eq. reflexivity.
      * rewrite Gfs. symmetry. exact N1.
    + rewrite Hsp, Gsp. reflexivity.
  - unfold OS.rename in E. rewrite Bp in E. injection E as <- <-. cbn.
    split; [congruence|].
    split.
    { intros p H1 H2. rewrite lookup_insert_ne, lookup_delete_ne; auto. }
    right; right. split; [discriminate|].
    exists c. split; [exact Hc|]. right; left.
    split.
    { destruct (Praise e eq_refl) as [->|[->| ->]]; auto. }
    split; [apply lookup_insert_eq|].
    rewrite lookup_insert_ne, lookup_delete_eq; auto.
Qed.


Lemma write_unfold f h :
  write tool f h =
  if negb (write_lock f) then (Raise NotWritable, f, h)
  else (fst (_encrypt tool (set_is_new (Some false) f) (cleartext f) h),
        set_is_new (Some false) f,
        snd (_encrypt tool (set_is_new (Some false) f) (cleartext f) h)).
Proof.
  unfold write. destruct (negb (write_lock f)); [reflexivity|].
  cbn. destruct (_encrypt _ _ _ _). reflexivity.
Qed.

Lemma write_inv f h r f' h' :
  write tool f h = (r, f', h') ->
  (write_lock f = false /\ r = Raise NotWritable /\ f' = f /\ h' = h)
  \/ (write_lock f = true /\ f' = set_is_new (Some false) f
      /\ _encrypt tool f' (cleartext f) h = (r, h')).
Proof.
  rewrite write_unfold. destruct (write_lock f); cbn.
  - intros [= <- <- <-]. right. repeat split.
    destruct (_encrypt _ _ _ _); reflexivity.
  - intros [= <- <- <-]. left. auto.
Qed.


End WithTool.
End FileFacts.

(** ** [EncryptedFile]: writing *)

(** C1: with a write lock, at least one recipient and the file in place,
    when no candidate binary answers, [write] raises after the file was
    renamed to its backup name and before the [try] that would rename it
    back: the path is left without a file and the old content sits under
    the backup name. *)
Theorem write_without_binary_leaves_backup
    (tool : Tool) (f : EncryptedFile.t) (h : Host) (c : string) :
  EncryptedFile.write_lock f = true ->
  EncryptedFile.recipients f <> [] ->
  fs h !! EncryptedFile.encrypted_filename f = Some c ->
  (forall h0 g, version_probe tool h0 g = false) ->
  exists h',
    EncryptedFile.write tool f h
    = (Raise BinaryNotFound, EncryptedFile.set_is_new (Some false) f, h')
    /\ fs h' !! EncryptedFile.encrypted_filename f = None
    /\ fs h' !! backup_of (EncryptedFile.encrypted_filename f) = Some c.
Proof.
  intros Hw Hr Hc Hp.
  destruct (EncryptedFile.write tool f h) as [[r f'] h'] eqn:W.
  destruct (FileFacts.write_inv _ _ _ _ _ _ W)
    as [(Hw' & _)|(_ & -> & E)]; [congruence|].
  assert (r = Raise BinaryNotFound) as ->.
  { revert E. unfold EncryptedFile._encrypt. cbn.
    destruct (EncryptedFile.recipients f); [congruence|].
    unfold OS.rename. rewrite Hc.
    unfold EncryptedFile.gpg, GPG_BINARY_CANDIDATES.
    cbn [EncryptedFile.gpg_probe]. rewrite !Hp. congruence. }
  exists h'. split; [reflexivity|].
  destruct (FileFacts.encrypt_cases _ _ _ _ _ _ E) as (_ & _ & C).
  cbn in C.
  destruct C as [(_ & [=] & _)|[(_ & _ & [=] & _)|(_ & c' & Hc' & C)]].
  assert (c' = c) as -> by congruence.
  destruct C as [(_ & H1 & H2)|[([[=]|[[=]|[=]]] & _)|([=] & _)]].
  auto.
Qed.

Lemma write_without_binary_leaves_backup_witness :
  exists h',
    EncryptedFile.write Sample.no_gpg Sample.writer0 Sample.host0
    = (Raise BinaryNotFound,
       EncryptedFile.set_is_new (Some false) Sample.writer0, h')
    /\ fs h' !! Sample.path0 = None
    /\ fs h' !! backup_of Sample.path0 = Some "CIPHERTEXT".
Proof.
  apply (write_without_binary_leaves_backup
           Sample.no_gpg Sample.writer0 Sample.host0 "CIPHERTEXT").
  - reflexivity.
  - discriminate.
  - reflexivity.
  - reflexivity.
Defined.

(** A new file on a host without the binary: [read] needs no tool,
    [__enter__] creates the empty file, and [write] leaves it under the
    backup name. *)
Example new_file_without_binary :
  let f0 := EncryptedFile.__init__ Sample.path0 true false in
  let '(r1, f1, h1) := EncryptedFile.read Sample.no_gpg f0 Sample.host_new in
  let '(r2, f2, h2) := EncryptedFile.__enter__ f1 h1 in
  let f3 := EncryptedFile.set_cleartext (Some "token = 1")
              (EncryptedFile.set_recipients ["alice"] f2) in
  let '(r4, f4, h4) := EncryptedFile.write Sample.no_gpg f3 h2 in
  r1 = Return EmptyString /\ r2 = Return ()
  /\ EncryptedFile.is_new f2 = Some true
  /\ fs h2 !! Sample.path0 = Some EmptyString
  /\ r4 = Raise BinaryNotFound
  /\ fs h4 !! Sample.path0 = None
  /\ fs h4 !! backup_of Sample.path0 = Some EmptyString.
Proof. vm_compute. repeat split. Qed.

(** A tool failure inside the [try] is rolled back. *)
Example write_nonzero_exit_restores :
  let '(r, _, h') :=
    EncryptedFile.write Sample.failing_gpg Sample.writer0 Sample.host0 in
  r = Raise NonZeroExit
  /\ fs h' !! Sample.path0 = Some "CIPHERTEXT"
  /\ fs h' !! backup_of Sample.path0 = None.
Proof. vm_compute. repeat split. Qed.

(** C4 (amended): without a write lock [write] raises the
    write-lock error; with a write lock and no recipient it raises the
    missing-recipient error.  In both cases the host is returned as it was:
    no process was spawned and no file changed. *)
Theorem write_refusals (tool : Tool) (f : EncryptedFile.t) (h : Host) :
  (EncryptedFile.write_lock f = false ->
   EncryptedFile.write tool f h = (Raise NotWritable, f, h))
  /\ (EncryptedFile.write_lock f = true ->
      EncryptedFile.recipients f = [] ->
      EncryptedFile.write tool f h
      = (Raise MissingRecipients, EncryptedFile.set_is_new (Some false) f, h)).
Proof.
  split.
  - intros Hw. unfold EncryptedFile.write. rewrite Hw. reflexivity.
  - intros Hw Hr. unfold EncryptedFile.write, EncryptedFile._encrypt.
    rewrite Hw. cbn. rewrite Hr. reflexivity.
Qed.

Lemma write_refusals_witness :
  EncryptedFile.write Sample.toy_gpg Sample.reader0 Sample.host0
  = (Raise NotWritable, Sample.reader0, Sample.host0)
  /\ EncryptedFile.write Sample.toy_gpg
       (EncryptedFile.__init__ Sample.path0 true false) Sample.host0
     = (Raise MissingRecipients,
        EncryptedFile.set_is_new (Some false)
          (EncryptedFile.__init__ Sample.path0 true false),
        Sample.host0).
Proof.
  split.
  - apply (proj1 (write_refusals Sample.toy_gpg Sample.reader0 Sample.host0)).
    reflexivity.
  - apply (proj2 (write_refusals Sample.toy_gpg
                    (EncryptedFile.__init__ Sample.path0 true false)
                    Sample.host0)); reflexivity.
Defined.

(** C4 as stated fails: a read-only handle without recipients is refused
    for the missing write lock, not for the missing recipients. *)
Lemma write_read_only_without_recipients :
  EncryptedFile.write_lock Sample.reader0 = false
  /\ EncryptedFile.recipients Sample.reader0 = []
  /\ EncryptedFile.write Sample.toy_gpg Sample.reader0 Sample.host0
     = (Raise NotWritable, Sample.reader0, Sample.host0)
  /\ NotWritable <> MissingRecipients.
Proof. repeat split. discriminate. Qed.

(** C10: with a write lock, [write] has set [is_new] to [False] however it
    ends; without recipients it ends with the missing-recipient error and
    the host untouched; and no later [_lock], [read], [write] or [__exit__]
    on the handle sets the flag again. *)
Theorem write_clears_is_new
    (tool : Tool) (f : EncryptedFile.t) (h : Host)
    (r : outcome unit) (f' : EncryptedFile.t) (h' : Host) :
  EncryptedFile.write_lock f = true ->
  EncryptedFile.write tool f h = (r, f', h') ->
  EncryptedFile.is_new f' = Some false
  /\ (EncryptedFile.recipients f = [] -> r = Raise MissingRecipients /\ h' = h)
  /\ (forall h2,
        EncryptedFile.is_new (snd (fst (EncryptedFile._lock f' h2)))
        = Some false
        /\ EncryptedFile.is_new (snd (fst (EncryptedFile.read tool f' h2)))
           = Some false
        /\ EncryptedFile.is_new (snd (fst (EncryptedFile.write tool f' h2)))
           = Some false
        /\ EncryptedFile.is_new (snd (EncryptedFile.__exit__ f')) = Some false).
Proof.
  intros Hw W.
  destruct (FileFacts.write_inv _ _ _ _ _ _ W)
    as [(Hw' & _)|(_ & -> & E)]; [congruence|].
  split; [reflexivity|]. split.
  - intros Hr.
    unfold EncryptedFile._encrypt in E. cbn in E. rewrite Hr in E.
    injection E as <- <-. auto.
  - intros h2. repeat split.
    + unfold EncryptedFile._lock. cbn.
      destruct (OS.open _ _ _) as [[fd|e] h3]; [|reflexivity].
      cbn. destruct (OS.lockf _ _ _); reflexivity.
    + unfold EncryptedFile.read. cbn.
      destruct (EncryptedFile.cleartext f); [reflexivity|].
      destruct (OS.path_exists _ _); [|reflexivity].
      destruct (EncryptedFile._decrypt _ _ _) as [[c|e] h3]; reflexivity.
    + rewrite FileFacts.write_unfold.
      destruct (negb _); reflexivity.
    + unfold EncryptedFile.__exit__. cbn.
      destruct (EncryptedFile.lockfd f); reflexivity.
Qed.

Lemma write_clears_is_new_witness :
  let f := EncryptedFile.set_is_new (Some true)
             (EncryptedFile.__init__ Sample.path0 true false) in
  EncryptedFile.is_new f = Some true
  /\ EncryptedFile.is_new
       (snd (fst (EncryptedFile.write Sample.toy_gpg f Sample.host0)))
     = Some false
  /\ fst (fst (EncryptedFile.write Sample.toy_gpg f Sample.host0))
     = Raise MissingRecipients.
Proof.
  intros f. split; [reflexivity|].
  destruct (write_clears_is_new Sample.toy_gpg f Sample.host0
              (Raise MissingRecipients)
              (EncryptedFile.set_is_new (Some false) f) Sample.host0
              eq_refl eq_refl) as (H & _ & _).
  split; [exact H | reflexivity].
Defined.

(** ** [EncryptedFile]: reading *)

(** C3: when [read] returns a string, reading again returns the same
    string and changes nothing, so that over both calls the tool was asked
    to decrypt at most once; on a handle without cleartext whose path does
    not exist, [read] returns and caches the empty string, and on a path
    that does not exist [read] always leaves the host as it was; when
    [read] raises, the handle is unchanged and still without cleartext, the
    file is still there, and the next [read] runs [_decrypt] again.  On a
    handle without cleartext whose path exists, [read] ends as [_decrypt]
    does: what [_decrypt] raises, [read] raises, with nothing cached; what
    [_decrypt] returns, [read] caches and returns. *)
Theorem read_caches
    (tool : Tool) (f : EncryptedFile.t) (h : Host)
    (r : outcome string) (f1 : EncryptedFile.t) (h1 : Host) :
  EncryptedFile.read tool f h = (r, f1, h1) ->
  (forall s, r = Return s ->
     EncryptedFile.read tool f1 h1 = (Return s, f1, h1)
     /\ (decrypt_calls h1 <= decrypt_calls h + 1)%nat)
  /\ (OS.path_exists (EncryptedFile.encrypted_filename f) h = false ->
      h1 = h
      /\ (EncryptedFile.cleartext f = None ->
          r = Return EmptyString
          /\ f1 = EncryptedFile.set_cleartext (Some EmptyString) f))
  /\ (forall e, r = Raise e ->
       f1 = f /\ EncryptedFile.cleartext f1 = None
       /\ OS.path_exists (EncryptedFile.encrypted_filename f1) h1 = true
       /\ EncryptedFile.read tool f1 h1
          = match EncryptedFile._decrypt tool f1 h1 with
            | (Return c, h2) =>
                (Return c, EncryptedFile.set_cleartext (Some c) f1, h2)
            | (Raise e', h2) => (Raise e', f1, h2)
            end)
  /\ (EncryptedFile.cleartext f = None ->
      OS.path_exists (EncryptedFile.encrypted_filename f) h = true ->
      (forall e h2,
         EncryptedFile._decrypt tool f h = (Raise e, h2) ->
         r = Raise e /\ f1 = f /\ h1 = h2
         /\ EncryptedFile.cleartext f1 = None)
      /\ (forall c h2,
            EncryptedFile._decrypt tool f h = (Return c, h2) ->
            r = Return c /\ h1 = h2
            /\ f1 = EncryptedFile.set_cleartext (Some c) f)).
Proof.
  unfold EncryptedFile.read at 1.
  destruct (EncryptedFile.cleartext f) as [c|] eqn:C.
  { intros [= <- <- <-]. split; [|split; [|split]]; [| |discriminate|].
    - intros s [= <-]. unfold EncryptedFile.read. rewrite C.
      split; [reflexivity | lia].
    - intros _. split; [reflexivity | discriminate].
    - discriminate. }
  destruct (OS.path_exists (EncryptedFile.encrypted_filename f) h) eqn:X.
  - destruct (EncryptedFile._decrypt tool f h) as [[c|e] h2] eqn:D;
      intros [= <- <- <-];
      destruct (FileFacts.decrypt_frame _ _ _ _ _ D) as (Hfs & _ & Hd & _).
    + split; [|split; [|split]]; [|discriminate|discriminate|].
      * intros s [= <-]. split; [reflexivity | exact Hd].
      * intros _ _. split; [discriminate|].
        intros c' h2' [= <- <-]. auto.
    + split; [discriminate|]. split; [discriminate|]. split.
      * intros e' [= <-]. split; [reflexivity|]. split; [exact C|].
        assert (X' : OS.path_exists (EncryptedFile.encrypted_filename f) h2
                     = true).
        { unfold OS.path_exists in *. rewrite Hfs. exact X. }
        split; [exact X'|].
        unfold EncryptedFile.read. rewrite C, X'. reflexivity.
      * intros _ _. split; [|discriminate].
        intros e' h2' [= <- <-]. auto.
  - intros [= <- <- <-]. split; [|split; [|split]]; [| auto |discriminate|].
    + intros s [= <-]. split; [reflexivity | lia].
    + discriminate.
Qed.

Lemma read_caches_witness :
  EncryptedFile.read Sample.toy_gpg Sample.reader0 Sample.host0
  = (Return "CIPHERTEXT",
     EncryptedFile.set_cleartext (Some "CIPHERTEXT") Sample.reader0,
     record_call (Spawn ["gpg"; "--decrypt"; Sample.path0] None)
       (record_call (Spawn ["gpg"; "--version"] None) Sample.host0))
  /\ EncryptedFile.read Sample.toy_gpg
       (EncryptedFile.set_cleartext (Some "CIPHERTEXT") Sample.reader0)
       (record_call (Spawn ["gpg"; "--decrypt"; Sample.path0] None)
          (record_call (Spawn ["gpg"; "--version"] None) Sample.host0))
     = (Return "CIPHERTEXT",
        EncryptedFile.set_cleartext (Some "CIPHERTEXT") Sample.reader0,
        record_call (Spawn ["gpg"; "--decrypt"; Sample.path0] None)
          (record_call (Spawn ["gpg"; "--version"] None) Sample.host0))
  /\ fst (fst (EncryptedFile.read Sample.failing_gpg Sample.reader0
                 Sample.host0))
     = Raise (GPGCallError ["gpg"; "--decrypt"; Sample.path0] 2 "")
  /\ EncryptedFile.cleartext
       (snd (fst (EncryptedFile.read Sample.failing_gpg Sample.reader0
                    Sample.host0)))
     = None.
Proof.
  assert (E : EncryptedFile.read Sample.toy_gpg Sample.reader0 Sample.host0
              = (Return "CIPHERTEXT",
                 EncryptedFile.set_cleartext (Some "CIPHERTEXT")
                   Sample.reader0,
                 record_call (Spawn ["gpg"; "--decrypt"; Sample.path0] None)
                   (record_call (Spawn ["gpg"; "--version"] None)
                      Sample.host0))) by reflexivity.
  split; [exact E|].
  split; [apply (proj1 (read_caches _ _ _ _ _ _ E) "CIPHERTEXT" eq_refl)|].
  set (out := EncryptedFile.read Sample.failing_gpg Sample.reader0
                Sample.host0).
  assert (F : out = (fst (fst out), snd (fst out), snd out))
    by (destruct out as [[? ?] ?]; reflexivity).
  destruct (proj1 (proj2 (proj2 (proj2 (read_caches _ _ _ _ _ _ F)))
                     eq_refl eq_refl)
              (GPGCallError ["gpg"; "--decrypt"; Sample.path0] 2 "")
              (snd (EncryptedFile._decrypt Sample.failing_gpg Sample.reader0
                      Sample.host0))
              eq_refl)
    as (H1 & _ & _ & H4).
  split; [exact H1 | exact H4].
Defined.

(** A failed decryption leaves the handle without cleartext, and the next
    [read] asks the tool again. *)
Example read_retries_after_failure :
  let '(r1, f1, h1) :=
    EncryptedFile.read Sample.failing_gpg Sample.reader0 Sample.host0 in
  let '(r2, f2, h2) := EncryptedFile.read Sample.failing_gpg f1 h1 in
  r1 = Raise (GPGCallError ["gpg"; "--decrypt"; Sample.path0] 2 "")
  /\ EncryptedFile.cleartext f1 = None
  /\ r2 = r1
  /\ decrypt_calls h1 = 1%nat /\ decrypt_calls h2 = 2%nat.
Proof. vm_compute. repeat split. Qed.

(** A path that does not exist reads as the empty string, without any
    process. *)
Example read_missing_file :
  EncryptedFile.read Sample.no_gpg Sample.reader0 Sample.host_new
  = (Return EmptyString,
     EncryptedFile.set_cleartext (Some EmptyString) Sample.reader0,
     Sample.host_new).
Proof. reflexivity. Qed.

(** ** [EncryptedFile]: locking *)

(** The operation word of a read-only handle carries the [LOCK_EX] bit next
    to [LOCK_SH]; [lockf] looks at [LOCK_SH] first. *)
Remark lock_operation_words :
  EncryptedFile.lock_operation true = Z.lor OS.LOCK_EX OS.LOCK_NB
  /\ EncryptedFile.lock_operation false
     = Z.lor (Z.lor OS.LOCK_EX OS.LOCK_NB) OS.LOCK_SH
  /\ EncryptedFile.lock_operation true = 6
  /\ EncryptedFile.lock_operation false = 7.
Proof. repeat split. Qed.

(** C6: the operation [_lock] hands to [lockf] asks for a write (exclusive)
    lock when the handle has [write_lock] and for a read (shared) lock
    when it has not, non-blocking either way.  When [_lock] returns, the
    handle holds that lock; when it raises, either the file is missing and
    could not be opened (the handle is read-only, or the directory the
    file lies in is missing too), or another process holds a conflicting
    lock and the refusal is immediate. *)
Theorem lock_request_by_intent (f : EncryptedFile.t) (h : Host) :
  let wanted := if EncryptedFile.write_lock f then F_WRLCK else F_RDLCK in
  OS.lockf_request (EncryptedFile.lock_operation (EncryptedFile.write_lock f))
  = Some (OS.Lock wanted true)
  /\ (forall f' h',
        EncryptedFile._lock f h = (Return (), f', h') ->
        exists fd, EncryptedFile.lockfd f' = Some fd
                   /\ OS.fo_lock fd = Some wanted
                   /\ OS.conflicts wanted
                        (EncryptedFile.encrypted_filename f) h = false)
  /\ (forall e f' h',
        EncryptedFile._lock f h = (Raise e, f', h') ->
        (e = FileNotFoundError (EncryptedFile.encrypted_filename f)
         /\ fs h !! EncryptedFile.encrypted_filename f = None
         /\ (EncryptedFile.write_lock f = false
             \/ OS.parent_exists (EncryptedFile.encrypted_filename f) h
                = false))
        \/ (e = FileLockedError (EncryptedFile.encrypted_filename f)
            /\ OS.conflicts wanted
                 (EncryptedFile.encrypted_filename f) h = true)).
Proof.
  intros wanted.
  destruct f as [fn wl q rc lfd ct isn].
  cbn [EncryptedFile.write_lock EncryptedFile.encrypted_filename] in *.
  assert (Hreq : OS.lockf_request (EncryptedFile.lock_operation wl)
                 = Some (OS.Lock wanted true)).
  { subst wanted. destruct wl; reflexivity. }
  split; [exact Hreq|].
  assert (Hc : forall m, OS.conflicts wanted fn (set_fs m h)
                         = OS.conflicts wanted fn h) by reflexivity.
  unfold EncryptedFile._lock, OS.open.
  assert (Hfn : forall n, EncryptedFile.encrypted_filename
            (match isn with
             | None => EncryptedFile.set_is_new n
                         (EncryptedFile.mk fn wl q rc lfd ct isn)
             | Some _ => EncryptedFile.mk fn wl q rc lfd ct isn
             end) = fn) by (intros; destruct isn; reflexivity).
  assert (Hwl : forall n, EncryptedFile.write_lock
            (match isn with
             | None => EncryptedFile.set_is_new n
                         (EncryptedFile.mk fn wl q rc lfd ct isn)
             | Some _ => EncryptedFile.mk fn wl q rc lfd ct isn
             end) = wl) by (intros; destruct isn; reflexivity).
  cbn [EncryptedFile.is_new EncryptedFile.encrypted_filename].
  rewrite Hfn, Hwl.
  destruct (fs h !! fn) as [c|] eqn:X.
  - unfold OS.lockf.
    cbn [EncryptedFile.write_lock EncryptedFile.set_lockfd OS.fo_path].
    rewrite Hwl, Hreq.
    destruct (OS.conflicts wanted fn h) eqn:K.
    + split; [discriminate|]. intros e f' h' [= <- <- <-]. right.
      rewrite ?Hfn. auto.
    + split; [|discriminate]. intros f' h' [= <- <-].
      eexists. split; [reflexivity|]. split; reflexivity.
  - destruct wl.
    + change (("a+" =? "a+")%string) with true. cbv iota.
      destruct (OS.parent_exists fn h) eqn:PE.
      * unfold OS.lockf.
        cbn [EncryptedFile.write_lock EncryptedFile.set_lockfd OS.fo_path].
        rewrite Hwl, Hreq, Hc.
        destruct (OS.conflicts wanted fn h) eqn:K.
        -- split; [discriminate|]. intros e f' h' [= <- <- <-]. right.
           rewrite ?Hfn. auto.
        -- split; [|discriminate]. intros f' h' [= <- <-].
           eexists. split; [reflexivity|]. split; reflexivity.
      * split; [discriminate|]. intros e f' h' [= <- <- <-]. left.
        rewrite ?Hfn. auto.
    + change (("r+" =? "a+")%string) with false. cbv iota.
      split; [discriminate|]. intros e f' h' [= <- <- <-]. left.
      rewrite ?Hfn. auto.
Qed.

Lemma lock_request_by_intent_witness :
  (exists fd,
     EncryptedFile.lockfd
       (snd (fst (EncryptedFile._lock Sample.reader0 Sample.host0))) = Some fd
     /\ OS.fo_lock fd = Some F_RDLCK
     /\ OS.conflicts F_RDLCK Sample.path0 Sample.host0 = false)
  /\ OS.conflicts F_WRLCK Sample.path0 Sample.host_locked = true.
Proof.
  split.
  - apply (proj1 (proj2 (lock_request_by_intent Sample.reader0 Sample.host0))
             _ Sample.host0).
    reflexivity.
  - destruct (proj2 (proj2 (lock_request_by_intent
                              Sample.writer0 Sample.host_locked))
                (FileLockedError Sample.path0)
                (EncryptedFile.set_lockfd
                   (Some (OS.mkFileObject Sample.path0 "a+" None false))
                   (EncryptedFile.set_is_new (Some false) Sample.writer0))
                Sample.host_locked eq_refl)
      as [(H & _)|(_ & H)]; [discriminate H | exact H].
Defined.

(** Two read-only sessions share the file; a writer is turned away. *)
Example shared_lock_admits_reader :
  let h := mkHost {[ Sample.path0 := "CIPHERTEXT" ]} {[ Sample.dir0 ]}
                  {[ Sample.path0 := F_RDLCK ]} [] in
  fst (fst (EncryptedFile._lock Sample.reader0 h)) = Return ()
  /\ fst (fst (EncryptedFile._lock Sample.writer0 h))
     = Raise (FileLockedError Sample.path0).
Proof. vm_compute. split; reflexivity. Qed.

(** ** [EncryptedConfigFile]: registering files *)

Module BundleFacts.
Import EncryptedConfigFile.

Lemma find_app_last {A} (P : A -> bool) l x :
  List.find P l = None -> P x = true -> List.find P (l ++ [x]) = Some x.
Proof.
  induction l as [|a l IH]; simpl.
  - intros _ ->. reflexivity.
  - destruct (P a); [discriminate | exact IH].
Qed.

(** After registering a new path, the path is looked up to the new
    handle. *)
Lemma lookup_registered p f b :
  lookup p b = None ->
  EncryptedFile.encrypted_filename f = p ->
  lookup p (set_other_files (other_files b ++ [f]) b) = Some f.
Proof.
  unfold lookup, files. cbn [main_file other_files set_other_files].
  intros H E.
  change (main_file b :: other_files b ++ [f])%list
    with ((main_file b :: other_files b) ++ [f])%list.
  apply find_app_last; [exact H|]. rewrite E. apply String.eqb_refl.
Qed.

Lemma read_keeps_name tool f h :
  EncryptedFile.encrypted_filename (snd (fst (EncryptedFile.read tool f h)))
  = EncryptedFile.encrypted_filename f.
Proof.
  unfold EncryptedFile.read.
  destruct (EncryptedFile.cleartext f); [reflexivity|].
  destruct (OS.path_exists _ _); [|reflexivity].
  destruct (EncryptedFile._decrypt tool f h) as [[c|e] h']; reflexivity.
Qed.

(** The keys of the dictionary stay distinct when a file is added. *)
Lemma add_file_keys_unique tool p b h :
  List.NoDup (filenames (files b)) ->
  List.NoDup (filenames (files (snd (fst (add_file tool p b h))))).
Proof.
  intros Hnd. unfold add_file.
  destruct (lookup p b) as [f|] eqn:L; [exact Hnd|].
  pose proof (read_keeps_name tool
                (EncryptedFile.__init__ p (write_lock b) (quiet b)) h) as Hn.
  destruct (EncryptedFile.read tool _ h) as [[r f] h'].
  cbn [fst snd EncryptedFile.__init__ EncryptedFile.encrypted_filename] in Hn.
  assert (Hfiles : filenames (files (set_other_files (other_files b ++ [f]) b))
                   = (filenames (files b) ++ [p])%list).
  { unfold files, filenames. cbn [main_file other_files set_other_files map].
    rewrite map_app. cbn [map]. rewrite Hn. reflexivity. }
  assert (Hfresh : ~ In p (filenames (files b))).
  { intros Hin. unfold filenames in Hin. apply in_map_iff in Hin.
    destruct Hin as (g & Hg & Hin).
    pose proof (find_none _ _ L g Hin) as Hf. cbn in Hf.
    rewrite Hg, String.eqb_refl in Hf. discriminate. }
  assert (Hgoal : List.NoDup (filenames (files b) ++ [p])%list).
  { clear -Hnd Hfresh. induction Hnd as [|x l Hx Hl IH]; cbn.
    - constructor; [intros [] | constructor].
    - constructor.
      + intros Hin. apply in_app_or in Hin. destruct Hin as [Hin|[->|[]]].
        * exact (Hx Hin).
        * apply Hfresh. left. reflexivity.
      + apply IH. intros Hin. apply Hfresh. right. exact Hin. }
  destruct r; cbn [fst snd]; rewrite Hfiles; exact Hgoal.
Qed.

End BundleFacts.

(** C5 (amended): [add_file] with a path that is not registered and does
    not exist registers a handle whose cleartext is the empty string and
    whose [is_new] is still unset, and leaves the host as it was; [read] on
    the handle returns the empty string and leaves the host as it was;
    [_lock] on the handle, while the path still does not exist, sets
    [is_new] to true. *)
Theorem add_file_new_path
    (tool : Tool) (b : EncryptedConfigFile.t) (h : Host) (p : string) :
  fs h !! p = None ->
  EncryptedConfigFile.lookup p b = None ->
  let f := EncryptedFile.set_cleartext (Some EmptyString)
             (EncryptedFile.__init__ p (EncryptedConfigFile.write_lock b)
                (EncryptedConfigFile.quiet b)) in
  let b' := EncryptedConfigFile.set_other_files
              (EncryptedConfigFile.other_files b ++ [f])%list b in
  EncryptedConfigFile.add_file tool p b h = (Return f, b', h)
  /\ EncryptedConfigFile.lookup p b' = Some f
  /\ EncryptedFile.is_new f = None
  /\ EncryptedFile.read tool f h = (Return EmptyString, f, h)
  /\ (forall h2, fs h2 !! p = None ->
        EncryptedFile.is_new (snd (fst (EncryptedFile._lock f h2)))
        = Some true).
Proof.
  intros Hp Hl f b'.
  split.
  { unfold EncryptedConfigFile.add_file. rewrite Hl.
    unfold EncryptedFile.read. cbn. unfold OS.path_exists. rewrite Hp.
    reflexivity. }
  split; [apply BundleFacts.lookup_registered; [exact Hl | reflexivity]|].
  split; [reflexivity|].
  split; [reflexivity|].
  intros h2 H2. unfold EncryptedFile._lock. cbn.
  unfold OS.path_exists, OS.open. rewrite H2. cbn.
  destruct (EncryptedConfigFile.write_lock b); cbn; [|reflexivity].
  destruct (OS.parent_exists p h2); [|reflexivity].
  destruct (OS.lockf _ _ _); reflexivity.
Qed.

Lemma add_file_new_path_witness :
  let f := Sample.added "environments/dev/secret-new" EmptyString in
  EncryptedConfigFile.add_file Sample.toy_gpg "environments/dev/secret-new"
    Sample.bundle0 Sample.host_bundle
  = (Return f,
     EncryptedConfigFile.set_other_files
       (EncryptedConfigFile.other_files Sample.bundle0 ++ [f])%list
       Sample.bundle0,
     Sample.host_bundle)
  /\ EncryptedFile.is_new f = None.
Proof.
  intros f.
  destruct (add_file_new_path Sample.toy_gpg Sample.bundle0 Sample.host_bundle
              "environments/dev/secret-new" eq_refl eq_refl)
    as (H1 & _ & H3 & _).
  split; [exact H1 | exact H3].
Defined.

(** C5 as stated fails: the handle [add_file] returns for a path that does
    not exist has [is_new] unset, not true. *)
Lemma add_file_leaves_is_new_unset :
  let p := "environments/dev/secret-new" in
  let '(r, b', h') :=
    EncryptedConfigFile.add_file Sample.toy_gpg p
      Sample.bundle0 Sample.host_bundle in
  fs Sample.host_bundle !! p = None
  /\ EncryptedConfigFile.lookup p Sample.bundle0 = None
  /\ r = Return (Sample.added p EmptyString)
  /\ EncryptedConfigFile.lookup p b' = Some (Sample.added p EmptyString)
  /\ EncryptedFile.is_new (Sample.added p EmptyString) = None
  /\ EncryptedFile.is_new (Sample.added p EmptyString) <> Some true.
Proof. vm_compute. repeat split. discriminate. Qed.

(** ** [EncryptedConfigFile]: leaving the session *)

(** C9: on a bundle whose main file was locked and whose document was
    read, [__exit__] closes the lock file of the main file, which drops the
    lock.  With no members the main file is gone afterwards and nothing
    else changed; with members the host is as it was. *)
Theorem exit_releases_and_cleans
    (b : EncryptedConfigFile.t) (h : Host)
    (fd : OS.FileObject) (cfg : Config.t) :
  EncryptedFile.lockfd (EncryptedConfigFile.main_file b) = Some fd ->
  EncryptedConfigFile.config b = Some cfg ->
  let main := EncryptedFile.encrypted_filename
                (EncryptedConfigFile.main_file b) in
  let members := snd (get_members_of cfg) in
  exists r b' h',
    EncryptedConfigFile.__exit__ b h = (r, b', h')
    /\ EncryptedFile.lockfd (EncryptedConfigFile.main_file b')
       = Some (OS.close fd)
    /\ OS.fo_lock (OS.close fd) = None
    /\ OS.fo_closed (OS.close fd) = true
    /\ (members = [] ->
        fs h' !! main = None
        /\ (forall p, p <> main -> fs h' !! p = fs h !! p)
        /\ (fs h !! main <> None -> r = Return ()))
    /\ (members <> [] -> r = Return () /\ h' = h).
Proof.
  intros Hfd Hcfg main members.
  unfold EncryptedConfigFile.__exit__, EncryptedFile.__exit__.
  rewrite Hfd.
  unfold EncryptedConfigFile.get_members.
  cbn [EncryptedConfigFile.config EncryptedConfigFile.set_main_file].
  rewrite Hcfg.
  subst members. destruct (get_members_of cfg) as [cfg' ms].
  cbn [snd]. destruct ms as [|m ms].
  - cbn [EncryptedConfigFile.main_file EncryptedConfigFile.set_config
         EncryptedConfigFile.set_main_file
         EncryptedFile.encrypted_filename EncryptedFile.set_lockfd].
    fold main. unfold OS.unlink.
    destruct (fs h !! main) as [c|] eqn:X.
    + eexists _, _, _. split; [reflexivity|].
      split; [reflexivity|]. split; [reflexivity|]. split; [reflexivity|].
      split; [|congruence]. intros _. cbn.
      split; [apply lookup_delete_eq|].
      split; [|reflexivity]. intros p Hp. apply lookup_delete_ne. congruence.
    + eexists _, _, _. split; [reflexivity|].
      split; [reflexivity|]. split; [reflexivity|]. split; [reflexivity|].
      split; [|congruence]. intros _.
      split; [exact X|]. split; [reflexivity | congruence].
  - eexists _, _, _. split; [reflexivity|].
    split; [reflexivity|]. split; [reflexivity|]. split; [reflexivity|].
    split; [discriminate|]. auto.
Qed.

Lemma exit_releases_and_cleans_witness :
  exists r b' h',
    EncryptedConfigFile.__exit__ Sample.bundle_nobody Sample.host_bundle
    = (r, b', h')
    /\ fs h' !! Sample.path0 = None
    /\ fs h' !! Sample.secret_a = Some "CA".
Proof.
  destruct (exit_releases_and_cleans Sample.bundle_nobody Sample.host_bundle
              (OS.mkFileObject Sample.path0 "a+" (Some F_WRLCK) false)
              Sample.cfg_nobody eq_refl eq_refl)
    as (r & b' & h' & E & _ & _ & _ & Hempty & _).
  exists r, b', h'. split; [exact E|].
  destruct (Hempty eq_refl) as (H1 & H2 & _).
  split; [exact H1|]. rewrite H2; [reflexivity | discriminate].
Defined.

(** With members left the main file stays. *)
Example exit_keeps_file_with_members :
  let '(r, b', h') :=
    EncryptedConfigFile.__exit__ Sample.bundle0 Sample.host_bundle in
  r = Return () /\ h' = Sample.host_bundle
  /\ fs h' !! Sample.path0 = Some "CIPHERTEXT".
Proof. vm_compute. repeat split. Qed.

(** ** [EncryptedConfigFile]: writing all files *)

Module CommitFacts.
Import EncryptedConfigFile.

Lemma encrypt_argv_is_encrypt g m p :
  is_encrypt_call (Spawn (EncryptedFile.encrypt_argv g m p) None) = true
  /\ forall d,
       is_encrypt_call (Spawn (EncryptedFile.encrypt_argv g m p) (Some d))
       = true.
Proof.
  unfold is_encrypt_call, EncryptedFile.encrypt_argv. cbn [app existsb].
  change (("--encrypt" =? "--encrypt")%string) with true.
  rewrite orb_true_l, orb_true_r. auto.
Qed.

Section WithTool.
Variable tool : Tool.
Variable render : Config.t -> string.

(** One turn of the loop: the members are asked for, given to the file,
    and the file is written. *)
Lemma write_one_inv cfg f h r cfg1 f1 h1 :
  write_one tool cfg f h = (r, cfg1, f1, h1) ->
  cfg1 = fst (get_members_of cfg)
  /\ EncryptedFile.write tool
       (EncryptedFile.set_recipients (snd (get_members_of cfg)) f) h
     = (r, f1, h1).
Proof.
  unfold write_one. destruct (get_members_of cfg) as [c m]. cbn [fst snd].
  destruct (EncryptedFile.write tool _ h) as [[r' f'] h'].
  intros [= <- <- <- <-]. auto.
Qed.

(** One turn touches the file it writes and its backup name only, and
    keeps the name of the handle. *)
Lemma write_one_frame cfg f h r cfg1 f1 h1 :
  write_one tool cfg f h = (r, cfg1, f1, h1) ->
  EncryptedFile.encrypted_filename f1 = EncryptedFile.encrypted_filename f
  /\ (forall p, p <> EncryptedFile.encrypted_filename f ->
                p <> backup_of (EncryptedFile.encrypted_filename f) ->
                fs h1 !! p = fs h !! p).
Proof.
  intros W. destruct (write_one_inv _ _ _ _ _ _ _ W) as (_ & W').
  destruct (FileFacts.write_inv _ _ _ _ _ _ W')
    as [(_ & _ & -> & ->)|(_ & -> & E)]; [auto|].
  split; [reflexivity|].
  destruct (FileFacts.encrypt_cases _ _ _ _ _ _ E) as (_ & F & _).
  exact F.
Qed.

(** A turn that returns has encrypted the file for the members. *)
Lemma write_one_return cfg f h cfg1 f1 h1 :
  write_one tool cfg f h = (Return (), cfg1, f1, h1) ->
  let m := snd (get_members_of cfg) in
  m <> []
  /\ f1 = EncryptedFile.set_is_new (Some false)
            (EncryptedFile.set_recipients m f)
  /\ encrypted_for tool m f1
       (fs h1 !! EncryptedFile.encrypted_filename f)
  /\ exists c calls,
       encrypt_call m f1 c
       /\ spawned h1 = (c :: calls ++ spawned h)%list
       /\ Forall (fun c => is_encrypt_call c = false) calls.
Proof.
  intros W m. destruct (write_one_inv _ _ _ _ _ _ _ W) as (_ & W').
  fold m in W'.
  destruct (FileFacts.write_inv _ _ _ _ _ _ W')
    as [(_ & [=] & _)|(_ & -> & E)].
  destruct (FileFacts.encrypt_cases _ _ _ _ _ _ E) as (_ & _ & C).
  cbn [EncryptedFile.recipients EncryptedFile.set_is_new
       EncryptedFile.set_recipients EncryptedFile.encrypted_filename
       EncryptedFile.cleartext] in C.
  destruct C as [(_ & [=] & _)|[(_ & _ & [=] & _)|(Hm & c & Hc & C)]].
  destruct C as [([=] & _)|[([[=]|[[=]|[=]]] & _)|(_ & Hb & C)]].
  destruct C as (g & hs & run & d & calls & Hg & Hrun & Hd & Hout & Hsp & Hne).
  split; [exact Hm|]. split; [reflexivity|]. split.
  - exists g, hs, run, d. auto.
  - eexists _, calls. split; [|split; [exact Hsp | exact Hne]].
    exists g, d. auto.
Qed.


(** The loop touches the files it goes through and their backup names
    only. *)
Lemma write_files_frame l : forall cfg h r cfg' l' h',
  write_files tool cfg l h = (r, cfg', l', h') ->
  filenames l' = filenames l
  /\ forall p,
       (forall f, In f l ->
          p <> EncryptedFile.encrypted_filename f
          /\ p <> backup_of (EncryptedFile.encrypted_filename f)) ->
       fs h' !! p = fs h !! p.
Proof.
  induction l as [|f rest IH]; intros cfg h r cfg' l' h' W.
  - injection W as <- <- <- <-. auto.
  - cbn [write_files] in W.
    destruct (write_one tool cfg f h) as [[[r1 cfg1] f1] h1] eqn:W1.
    destruct (write_one_frame _ _ _ _ _ _ _ W1) as (Hn & F1).
    destruct r1 as [[]|e1].
    + destruct (write_files tool cfg1 rest h1) as [[[r2 cfg2] rest2] h2] eqn:W2.
      injection W as <- <- <- <-.
      destruct (IH _ _ _ _ _ _ W2) as (Hns & F2).
      split; [unfold filenames in *; cbn; congruence|].
      intros p Hp. rewrite F2, F1.
      * reflexivity.
      * apply (Hp f). left. reflexivity.
      * apply (Hp f). left. reflexivity.
      * intros g Hg. apply Hp. right. exact Hg.
    + injection W as <- <- <- <-.
      split; [unfold filenames; cbn; congruence|].
      intros p Hp. apply F1; apply (Hp f); left; reflexivity.
Qed.

(** A loop that returns has encrypted every file for the same members. *)
Lemma write_files_return l : forall cfg h cfg' l' h',
  write_files tool cfg l h = (Return (), cfg', l', h') ->
  let m := snd (get_members_of cfg) in
  (l <> [] -> m <> [] /\ snd (get_members_of cfg') = m)
  /\ Forall (fun f' => EncryptedFile.recipients f' = m) l'
  /\ exists calls,
       spawned h' = (calls ++ spawned h)%list
       /\ (forall f', In f' l' -> exists c, In c calls /\ encrypt_call m f' c)
       /\ (forall c, In c calls -> is_encrypt_call c = true ->
              exists f', In f' l' /\ encrypt_call m f' c).
Proof.
  induction l as [|f rest IH]; intros cfg h cfg' l' h' W m.
  - injection W as <- <- <-.
    split; [congruence|]. split; [constructor|].
    exists []. split; [reflexivity|]. split; intros ? [].
  - cbn [write_files] in W.
    destruct (write_one tool cfg f h) as [[[r1 cfg1] f1] h1] eqn:W1.
    destruct r1 as [[]|e1]; [|discriminate].
    destruct (write_files tool cfg1 rest h1) as [[[r2 cfg2] rest2] h2] eqn:W2.
    injection W as -> <- <- <-.
    destruct (write_one_inv _ _ _ _ _ _ _ W1) as (Hcfg1 & _).
    destruct (write_one_return _ _ _ _ _ _ W1)
      as (Hm & Hf1 & _ & c & calls1 & Hc & Hsp1 & Hne1).
    fold m in Hm, Hf1, Hc.
    assert (Hm1 : snd (get_members_of cfg1) = m).
    { rewrite Hcfg1. apply MembersFacts.members_stable. }
    destruct (IH _ _ _ _ _ W2) as (Hrest & Hall & calls2 & Hsp2 & Hin & Hout).
    rewrite Hm1 in Hrest, Hall, Hin, Hout.
    split.
    { intros _. split; [exact Hm|].
      destruct rest as [|g rest'].
      - injection W2 as <- _ _. exact Hm1.
      - apply Hrest. discriminate. }
    split.
    { constructor; [rewrite Hf1; reflexivity | exact Hall]. }
    exists (calls2 ++ c :: calls1)%list.
    split; [rewrite Hsp2, Hsp1, <- app_assoc; reflexivity|].
    split.
    + intros f' [<-|Hf'].
      * exists c. split; [apply in_or_app; right; left; reflexivity | exact Hc].
      * destruct (Hin f' Hf') as (c' & Hc' & Hcall).
        exists c'. split; [apply in_or_app; left; exact Hc' | exact Hcall].
    + intros c' Hc' He.
      apply in_app_or in Hc'. destruct Hc' as [Hc'|[<-|Hc']].
      * destruct (Hout c' Hc' He) as (f' & Hf' & Hcall).
        exists f'. split; [right; exact Hf' | exact Hcall].
      * exists f1. split; [left; reflexivity | exact Hc].
      * rewrite Forall_forall in Hne1.
        rewrite (Hne1 c') in He by (apply list_elem_of_In; exact Hc').
        discriminate.
Qed.

(** [write] is the loop over the main file, with the rendered document as
    its cleartext, followed by the other files. *)
Lemma write_as_loop b h cfg :
  config b = Some cfg ->
  forall r cfg' l' h',
  write_files tool cfg
    (EncryptedFile.set_cleartext (Some (render cfg)) (main_file b)
       :: other_files b) h = (r, cfg', l', h') ->
  exists b',
    write tool render b h = (r, b', h')
    /\ files b' = l' /\ config b' = Some cfg'.
Proof.
  intros Hcfg r cfg' l' h'. unfold write. rewrite Hcfg.
  cbn [write_files].
  destruct (write_one tool cfg _ h) as [[[r1 cfg1] f1] h1].
  destruct r1 as [[]|e1].
  - destruct (write_files tool cfg1 (other_files b) h1)
      as [[[r2 cfg2] rest2] h2].
    intros [= <- <- <- <-]. eexists. split; [reflexivity|]. split; reflexivity.
  - intros [= <- <- <- <-]. eexists. split; [reflexivity|]. split; reflexivity.
Qed.


(** A loop that returns: for every file the tool exited with code 0, and
    when the keys are distinct and none is the backup name of another,
    every path holds what the tool left there. *)
Lemma write_files_written l : forall cfg h cfg' l' h',
  write_files tool cfg l h = (Return (), cfg', l', h') ->
  let m := snd (get_members_of cfg) in
  Forall (fun f' => exists content, encrypted_for tool m f' content) l'
  /\ (List.NoDup (filenames l) -> no_backup_clash l ->
      Forall (fun f' =>
                encrypted_for tool m f'
                  (fs h' !! EncryptedFile.encrypted_filename f')) l').
Proof.
  induction l as [|f rest IH]; intros cfg h cfg' l' h' W m.
  - injection W as <- <- <-. split; [constructor | intros _ _; constructor].
  - cbn [write_files] in W.
    destruct (write_one tool cfg f h) as [[[r1 cfg1] f1] h1] eqn:W1.
    destruct r1 as [[]|e1]; [|discriminate].
    destruct (write_files tool cfg1 rest h1) as [[[r2 cfg2] rest2] h2] eqn:W2.
    injection W as -> <- <- <-.
    destruct (write_one_frame _ _ _ _ _ _ _ W1) as (Hn1 & _).
    destruct (write_one_inv _ _ _ _ _ _ _ W1) as (Hcfg1 & _).
    destruct (write_one_return _ _ _ _ _ _ W1) as (_ & _ & Henc & _).
    fold m in Henc.
    assert (Hm1 : snd (get_members_of cfg1) = m).
    { rewrite Hcfg1. apply MembersFacts.members_stable. }
    destruct (IH _ _ _ _ _ W2) as (Hex & Hdisk).
    rewrite Hm1 in Hex, Hdisk.
    split; [constructor; [eexists; exact Henc | exact Hex]|].
    intros Hnd Hcl.
    inversion Hnd as [|? ? Hnotin Hnd']; subst.
    assert (Hcl' : no_backup_clash rest).
    { intros a b' Ha Hb. apply Hcl; right; assumption. }
    destruct (write_files_frame _ _ _ _ _ _ _ W2) as (_ & F2).
    constructor; [|exact (Hdisk Hnd' Hcl')].
    rewrite Hn1, F2; [exact Henc|].
    intros g Hg. split.
    + intros E. apply Hnotin. rewrite E.
      unfold filenames. apply in_map. exact Hg.
    + apply Hcl; [left; reflexivity | right; exact Hg].
Qed.

Lemma write_needs_config b h :
  config b = None -> write tool render b h = (Raise AttributeError, b, h).
Proof. intros H. unfold write. rewrite H. reflexivity. Qed.

End WithTool.
End CommitFacts.

(** The command line of an encryption for the members of a document names
    each member once per occurrence, in order, as it stands. *)
Lemma encrypt_argv_members cfg g p :
  let m := snd (get_members_of cfg) in
  EncryptedFile.encrypt_argv g m p
  = ([g; "--encrypt"] ++ flat_map (fun r => ["-r"; r]) m ++ ["-o"; p])%list.
Proof.
  intros m. unfold EncryptedFile.encrypt_argv. do 2 f_equal.
  pose proof (MembersFacts.members_stripped cfg) as H. fold m in H.
  induction m as [|r m IH]; [reflexivity|].
  cbn in H |- *. injection H as H1 H2. rewrite H1, (IH H2). reflexivity.
Qed.

(** C2: when [write] of the bundle returns, the document had a non-empty
    member list [m], it still has it, every file of the bundle carries [m]
    as its recipients, and the processes spawned meanwhile contain, for
    every file, the encryption of its cleartext for exactly [m] into its
    path, and no encryption for anything else.  For every file the tool
    was given that cleartext and exited with code 0; and when the keys of
    the bundle are distinct and none is the backup name of another, the
    path of every file holds, when [write] returns, what the tool left
    there for that cleartext and [m]. *)
Theorem commit_synchronizes
    (tool : Tool) (render : Config.t -> string)
    (b : EncryptedConfigFile.t) (h : Host)
    (b' : EncryptedConfigFile.t) (h' : Host) :
  EncryptedConfigFile.write tool render b h = (Return (), b', h') ->
  exists cfg,
    EncryptedConfigFile.config b = Some cfg
    /\ let m := snd (get_members_of cfg) in
       m <> []
       /\ fst (EncryptedConfigFile.get_members b') = Return m
       /\ filenames (EncryptedConfigFile.files b')
          = filenames (EncryptedConfigFile.files b)
       /\ Forall (fun f => EncryptedFile.recipients f = m)
                 (EncryptedConfigFile.files b')
       /\ (forall g p,
             EncryptedFile.encrypt_argv g m p
             = ([g; "--encrypt"] ++ flat_map (fun r => ["-r"; r]) m
                  ++ ["-o"; p])%list)
       /\ (exists calls,
            spawned h' = (calls ++ spawned h)%list
            /\ (forall f, In f (EncryptedConfigFile.files b') ->
                  exists c, In c calls /\ encrypt_call m f c)
            /\ (forall c, In c calls -> is_encrypt_call c = true ->
                  exists f, In f (EncryptedConfigFile.files b')
                            /\ encrypt_call m f c))
       /\ Forall (fun f => exists content, encrypted_for tool m f content)
                 (EncryptedConfigFile.files b')
       /\ (List.NoDup (filenames (EncryptedConfigFile.files b)) ->
           no_backup_clash (EncryptedConfigFile.files b) ->
           Forall (fun f =>
                     encrypted_for tool m f
                       (fs h' !! EncryptedFile.encrypted_filename f))
                  (EncryptedConfigFile.files b')).
Proof.
  intros W.
  destruct (EncryptedConfigFile.config b) as [cfg|] eqn:Hcfg.
  2:{ rewrite (CommitFacts.write_needs_config tool render b h Hcfg) in W.
      discriminate. }
  exists cfg. split; [reflexivity|]. intros m.
  destruct (EncryptedConfigFile.write_files tool cfg
              (EncryptedFile.set_cleartext (Some (render cfg))
                 (EncryptedConfigFile.main_file b)
               :: EncryptedConfigFile.other_files b) h)
    as [[[r cfg'] l'] h''] eqn:L.
  destruct (CommitFacts.write_as_loop tool render b h cfg Hcfg _ _ _ _ L)
    as (b'' & W' & Hfiles & Hcfg').
  rewrite W in W'. injection W' as <- <- <-.
  destruct (CommitFacts.write_files_return tool _ _ _ _ _ _ L)
    as (Hm & Hall & calls & Hsp & Hin & Hout).
  fold m in Hm, Hall, Hin, Hout.
  destruct (Hm ltac:(discriminate)) as (Hne & Hm').
  destruct (CommitFacts.write_files_frame tool _ _ _ _ _ _ _ L) as (Hnames & _).
  split; [exact Hne|].
  split.
  { unfold EncryptedConfigFile.get_members. rewrite Hcfg'.
    destruct (get_members_of cfg') as [c2 m2] eqn:G. cbn in Hm' |- *.
    congruence. }
  split; [rewrite Hfiles; exact Hnames|].
  split; [rewrite Hfiles; exact Hall|].
  split; [intros g p; apply encrypt_argv_members|].
  split; [exists calls; rewrite Hfiles; auto|].
  destruct (CommitFacts.write_files_written tool _ _ _ _ _ _ L)
    as (Hex & Hdisk).
  fold m in Hex, Hdisk. rewrite Hfiles.
  split; [exact Hex|].
  intros Hnd Hcl. apply Hdisk; [exact Hnd|].
  intros f g Hf Hg.
  assert (Hkey : forall x,
            In x (EncryptedFile.set_cleartext (Some (render cfg))
                    (EncryptedConfigFile.main_file b)
                  :: EncryptedConfigFile.other_files b) ->
            exists y, In y (EncryptedConfigFile.files b)
                      /\ EncryptedFile.encrypted_filename y
                         = EncryptedFile.encrypted_filename x).
  { intros x [<-|Hx].
    - exists (EncryptedConfigFile.main_file b).
      split; [left; reflexivity | reflexivity].
    - exists x. split; [right; exact Hx | reflexivity]. }
  destruct (Hkey f Hf) as (f0 & Hf0 & <-).
  destruct (Hkey g Hg) as (g0 & Hg0 & <-).
  apply Hcl; assumption.
Qed.

Lemma commit_synchronizes_witness :
  let out := EncryptedConfigFile.write Sample.toy_gpg Sample.render0
               Sample.bundle0 Sample.host_bundle in
  Forall (fun f => EncryptedFile.recipients f = ["alice"; "bob"])
    (EncryptedConfigFile.files (snd (fst out)))
  /\ Forall (fun f =>
               encrypted_for Sample.toy_gpg ["alice"; "bob"] f
                 (fs (snd out) !! EncryptedFile.encrypted_filename f))
       (EncryptedConfigFile.files (snd (fst out))).
Proof.
  intros out.
  assert (E : EncryptedConfigFile.write Sample.toy_gpg Sample.render0
                Sample.bundle0 Sample.host_bundle
              = (Return (), snd (fst out), snd out))
    by (vm_compute; reflexivity).
  assert (Hnd : List.NoDup
                  (filenames (EncryptedConfigFile.files Sample.bundle0))).
  { repeat constructor; cbn; intuition discriminate. }
  assert (Hcl : no_backup_clash (EncryptedConfigFile.files Sample.bundle0)).
  { intros f g [<-|[<-|[<-|[]]]] [<-|[<-|[<-|[]]]]; vm_compute; discriminate. }
  destruct (commit_synchronizes _ _ _ _ _ _ E)
    as (cfg & Hcfg & _ & _ & _ & Hall & _ & _ & _ & Hdisk).
  injection Hcfg as <-. split; [exact Hall | exact (Hdisk Hnd Hcl)].
Defined.

(** Without the condition on the keys the last part fails: a bundle that
    holds a left-over backup before the file it belongs to is written
    without error, and the path of the backup holds nothing afterwards. *)
Example commit_returns_and_backup_named_file_is_gone :
  let b := EncryptedConfigFile.mk (Some "dev") true false
             (Sample.entered Sample.path0 "[batou] members = bob, alice; ")
             [Sample.added (backup_of Sample.secret_a) "a = 0";
              Sample.added Sample.secret_a "a = 1"]
             (Some Sample.cfg_team) in
  let '(r, b', h') :=
    EncryptedConfigFile.write Sample.toy_gpg Sample.render0 b
      Sample.host_clash in
  r = Return ()
  /\ fs Sample.host_clash !! backup_of Sample.secret_a = Some "CA-OLD"
  /\ fs h' !! backup_of Sample.secret_a = None.
Proof. vm_compute. repeat split. Qed.

(** Three files, one member list, three encryptions. *)
Example commit_three_files :
  let '(r, b', h') :=
    EncryptedConfigFile.write Sample.toy_gpg Sample.render0
      Sample.bundle0 Sample.host_bundle in
  r = Return ()
  /\ map EncryptedFile.recipients (EncryptedConfigFile.files b')
     = [["alice"; "bob"]; ["alice"; "bob"]; ["alice"; "bob"]]
  /\ List.filter is_encrypt_call (spawned h')
     = [Spawn ["gpg"; "--encrypt"; "-r"; "alice"; "-r"; "bob"; "-o";
               Sample.secret_b] (Some "b = 2");
        Spawn ["gpg"; "--encrypt"; "-r"; "alice"; "-r"; "bob"; "-o";
               Sample.secret_a] (Some "a = 1");
        Spawn ["gpg"; "--encrypt"; "-r"; "alice"; "-r"; "bob"; "-o";
               Sample.path0] (Some "[batou] members = bob, alice; ")].
Proof. vm_compute. repeat split. Qed.



(** The tool fails on the third file: the first two hold new ciphertext,
    the third holds the old one. *)
Example commit_stops_at_third_file :
  let '(r, b', h') :=
    EncryptedConfigFile.write Sample.picky_gpg Sample.render0
      Sample.bundle0 Sample.host_bundle in
  r = Raise NonZeroExit
  /\ fs h' !! Sample.path0
     = Some ("gpg --encrypt -r alice -r bob -o environments/dev/secrets.cfg"
             +:+ ":[batou] members = bob, alice; ")
  /\ fs h' !! Sample.secret_a
     = Some "gpg --encrypt -r alice -r bob -o environments/dev/secret-a:a = 1"
  /\ fs h' !! Sample.secret_b = Some "CB".
Proof. vm_compute. repeat split. Qed.


(** The missing binary during a commit: the second file is left under its
    backup name. *)
Example commit_missing_binary_loses_failing_file :
  let '(r, b', h') :=
    EncryptedConfigFile.write Sample.vanishing_gpg Sample.render0
      Sample.bundle0 Sample.host_bundle in
  r = Raise BinaryNotFound
  /\ fs h' !! Sample.secret_a = None
  /\ fs h' !! backup_of Sample.secret_a = Some "CA"
  /\ fs h' !! Sample.secret_b = Some "CB".
Proof. vm_compute. repeat split. Qed.

(** ** Further properties: looking for the binary, decrypting *)

Module ToolFacts.
Import EncryptedFile.

Section WithTool.
Variable tool : Tool.

(** The search tries the candidates in order, spawns one version query per
    candidate tried, stops at the first that answers and touches neither
    files nor locks. *)
Lemma gpg_probe_first cands : forall h res h',
  gpg_probe tool cands h = (res, h') ->
  fs h' = fs h /\ foreign h' = foreign h
  /\ exists tried rest,
       cands = (tried ++ rest)%list
       /\ spawned h'
          = (rev (map (fun g => Spawn [g; "--version"] None) tried)
               ++ spawned h)%list
       /\ match res with
          | Some g =>
              exists before hg,
                tried = (before ++ [g])%list
                /\ fs hg = fs h /\ foreign hg = foreign h
                /\ version_probe tool hg g = true
                /\ Forall (fun g' => exists hi,
                             fs hi = fs h /\ foreign hi = foreign h
                             /\ version_probe tool hi g' = false) before
          | None =>
              rest = []
              /\ Forall (fun g' => exists hi,
                           fs hi = fs h /\ foreign hi = foreign h
                           /\ version_probe tool hi g' = false) tried
          end.
Proof.
  induction cands as [|g cands IH]; intros h res h' E.
  - injection E as <- <-. repeat split.
    exists [], []. repeat split. constructor.
  - cbn [gpg_probe] in E.
    destruct (version_probe tool h g) eqn:P.
    + injection E as <- <-. repeat split.
      exists [g], cands. repeat split.
      exists [], h. repeat split; [exact P | constructor].
    + destruct (IH _ _ _ E) as (Hfs & Hfo & tried & rest & Hc & Hsp & Hres).
      cbn in Hfs, Hfo, Hsp.
      split; [exact Hfs|]. split; [exact Hfo|].
      exists (g :: tried), rest.
      split; [rewrite Hc; reflexivity|].
      split.
      { rewrite Hsp. cbn [map rev]. rewrite <- app_assoc. reflexivity. }
      destruct res as [g0|].
      * destruct Hres as (before & hg & Ht & Hg1 & Hg2 & Hg3 & Hall).
        exists (g :: before), hg.
        split; [rewrite Ht; reflexivity|].
        repeat split; try assumption.
        constructor; [exists h; auto | exact Hall].
      * destruct Hres as (-> & Hall). split; [reflexivity|].
        constructor; [exists h; auto | exact Hall].
Qed.

End WithTool.
End ToolFacts.

(** X1: [gpg] asks the candidates [gpg], [gpg2] in this order for their
    version, one process each, and returns the first that answers; it
    raises the binary-not-found error exactly when it has asked all of
    them in vain; it changes neither files nor locks. *)
Theorem gpg_first_answering
    (tool : Tool) (h : Host) (r : outcome string) (h' : Host) :
  EncryptedFile.gpg tool h = (r, h') ->
  fs h' = fs h /\ foreign h' = foreign h
  /\ exists tried rest,
       GPG_BINARY_CANDIDATES = (tried ++ rest)%list
       /\ spawned h'
          = (rev (map (fun g => Spawn [g; "--version"] None) tried)
               ++ spawned h)%list
       /\ match r with
          | Return g =>
              exists before hg,
                tried = (before ++ [g])%list
                /\ fs hg = fs h /\ foreign hg = foreign h
                /\ version_probe tool hg g = true
                /\ Forall (fun g' => exists hi,
                             fs hi = fs h /\ foreign hi = foreign h
                             /\ version_probe tool hi g' = false) before
          | Raise e =>
              e = BinaryNotFound /\ rest = []
              /\ Forall (fun g' => exists hi,
                           fs hi = fs h /\ foreign hi = foreign h
                           /\ version_probe tool hi g' = false) tried
          end.
Proof.
  unfold EncryptedFile.gpg.
  destruct (EncryptedFile.gpg_probe tool GPG_BINARY_CANDIDATES h)
    as [res hp] eqn:E.
  destruct (ToolFacts.gpg_probe_first tool _ _ _ _ E)
    as (Hfs & Hfo & tried & rest & Hc & Hsp & Hres).
  destruct res as [g|]; intros [= <- <-].
  - split; [exact Hfs|]. split; [exact Hfo|]. exists tried, rest. auto.
  - split; [exact Hfs|]. split; [exact Hfo|]. exists tried, rest.
    destruct Hres as (Hr & Hall). auto.
Qed.

Lemma gpg_first_answering_witness :
  exists tried rest,
    GPG_BINARY_CANDIDATES = (tried ++ rest)%list
    /\ spawned (snd (EncryptedFile.gpg Sample.toy_gpg Sample.host0))
       = (rev (map (fun g => Spawn [g; "--version"] None) tried)
            ++ spawned Sample.host0)%list.
Proof.
  destruct (gpg_first_answering Sample.toy_gpg Sample.host0
              (Return "gpg")
              (record_call (Spawn ["gpg"; "--version"] None) Sample.host0)
              eq_refl)
    as (_ & _ & tried & rest & H1 & H2 & _).
  exists tried, rest. split; [exact H1 | exact H2].
Defined.

(** X2: [_decrypt] changes neither files nor locks.  What it returns is
    what the tool printed, with exit code 0, for the command line of this
    file; a [GPGCallError] carries that command line, a non-zero exit code
    and the error output of the tool; the only other errors are the missing
    binary, a process that does not start and output that does not
    decode. *)
Theorem decrypt_reports_tool
    (tool : Tool) (f : EncryptedFile.t) (h : Host)
    (r : outcome string) (h' : Host) :
  EncryptedFile._decrypt tool f h = (r, h') ->
  fs h' = fs h /\ foreign h' = foreign h
  /\ (forall s, r = Return s ->
        exists g hg err,
          In g GPG_BINARY_CANDIDATES /\ fs hg = fs h
          /\ decrypt_run tool hg (EncryptedFile.decrypt_argv g f)
             = DecryptExit 0 (Some s) err
          /\ spawned h'
             = Spawn (EncryptedFile.decrypt_argv g f) None :: spawned hg)
  /\ (forall args rc err, r = Raise (GPGCallError args rc err) ->
        rc <> 0
        /\ exists g hg out,
             In g GPG_BINARY_CANDIDATES /\ fs hg = fs h
             /\ args = EncryptedFile.decrypt_argv g f
             /\ decrypt_run tool hg args = DecryptExit rc out err)
  /\ (forall e, r = Raise e ->
        e = BinaryNotFound \/ e = OSError \/ e = UnicodeDecodeError
        \/ exists args rc err, e = GPGCallError args rc err).
Proof.
  unfold EncryptedFile._decrypt.
  destruct (EncryptedFile.gpg tool h) as [rg hg] eqn:G.
  destruct (FileFacts.gpg_frame _ _ _ _ G) as (Hfs & Hfo & _ & _ & Hr).
  destruct rg as [g|e].
  - destruct Hr as [[=]|(g' & [= <-] & Hg)].
    destruct (decrypt_run tool hg (EncryptedFile.decrypt_argv g f))
      as [|rc out err] eqn:D.
    + intros [= <- <-].
      split; [exact Hfs|]. split; [exact Hfo|].
      split; [discriminate|]. split; [discriminate|].
      intros e [= <-]. auto.
    + destruct (rc =? 0) eqn:Z.
      * apply Z.eqb_eq in Z. subst rc.
        destruct out as [s|]; intros [= <- <-];
          (split; [exact Hfs|]); (split; [exact Hfo|]).
        -- split; [|split; discriminate].
           intros s' [= <-]. exists g, hg, err. auto.
        -- split; [discriminate|]. split; [discriminate|].
           intros e [= <-]. auto.
      * apply Z.eqb_neq in Z. intros [= <- <-].
        split; [exact Hfs|]. split; [exact Hfo|].
        split; [discriminate|]. split.
        -- intros a0 rc' err' [= <- <- <-]. split; [exact Z|].
           exists g, hg, out. auto.
        -- intros e [= <-]. right; right; right. eauto.
  - destruct Hr as [[= ->]|(g' & [=] & _)].
    intros [= <- <-].
    split; [exact Hfs|]. split; [exact Hfo|].
    split; [discriminate|]. split; [discriminate|].
    intros e [= <-]. auto.
Qed.

Lemma decrypt_reports_tool_witness :
  exists g hg err,
    In g GPG_BINARY_CANDIDATES /\ fs hg = fs Sample.host0
    /\ decrypt_run Sample.toy_gpg hg
         (EncryptedFile.decrypt_argv g Sample.reader0)
       = DecryptExit 0 (Some "CIPHERTEXT") err.
Proof.
  destruct (decrypt_reports_tool Sample.toy_gpg Sample.reader0 Sample.host0
              (Return "CIPHERTEXT")
              (record_call (Spawn ["gpg"; "--decrypt"; Sample.path0] None)
                 (record_call (Spawn ["gpg"; "--version"] None)
                    Sample.host0))
              eq_refl)
    as (_ & _ & H & _).
  destruct (H "CIPHERTEXT" eq_refl) as (g & hg & err & H1 & H2 & H3 & _).
  exists g, hg, err. auto.
Defined.

(** X3: [read] changes neither files nor locks and no attribute of the
    handle other than [cleartext].  A string it returns is cached, and is
    the string cached before, or the empty string for a path without file,
    or what [_decrypt] returned for a path with a file. *)
Theorem read_only_reads
    (tool : Tool) (f : EncryptedFile.t) (h : Host)
    (r : outcome string) (f' : EncryptedFile.t) (h' : Host) :
  EncryptedFile.read tool f h = (r, f', h') ->
  fs h' = fs h /\ foreign h' = foreign h
  /\ f' = EncryptedFile.set_cleartext (EncryptedFile.cleartext f') f
  /\ (forall s, r = Return s ->
        EncryptedFile.cleartext f' = Some s
        /\ (EncryptedFile.cleartext f = Some s /\ h' = h
            \/ (EncryptedFile.cleartext f = None
                /\ fs h !! EncryptedFile.encrypted_filename f = None
                /\ s = EmptyString /\ h' = h)
            \/ (EncryptedFile.cleartext f = None
                /\ fs h !! EncryptedFile.encrypted_filename f <> None
                /\ EncryptedFile._decrypt tool f h = (Return s, h')))).
Proof.
  unfold EncryptedFile.read, OS.path_exists.
  destruct f as [fn wl q rc lfd ct isn].
  cbn [EncryptedFile.cleartext EncryptedFile.encrypted_filename].
  destruct ct as [c|].
  { intros [= <- <- <-].
    split; [reflexivity|]. split; [reflexivity|]. split; [reflexivity|].
    intros s [= <-]. split; [reflexivity|]. left. auto. }
  destruct (fs h !! fn) as [c|] eqn:X.
  - destruct (EncryptedFile._decrypt tool _ h) as [[s|e] h2] eqn:D;
      destruct (FileFacts.decrypt_frame _ _ _ _ _ D) as (Hfs & Hfo & _);
      intros [= <- <- <-];
      (split; [exact Hfs|]); (split; [exact Hfo|]); (split; [reflexivity|]).
    + intros s' [= <-]. split; [reflexivity|]. right; right.
      split; [reflexivity|]. split; [discriminate | reflexivity].
    + discriminate.
  - intros [= <- <- <-].
    split; [reflexivity|]. split; [reflexivity|]. split; [reflexivity|].
    intros s [= <-]. split; [reflexivity|]. right; left. auto.
Qed.

Lemma read_only_reads_witness :
  fs (snd (EncryptedFile.read Sample.toy_gpg Sample.reader0 Sample.host0))
  = fs Sample.host0.
Proof.
  destruct (read_only_reads Sample.toy_gpg Sample.reader0 Sample.host0
              _ _ _ eq_refl) as (H & _).
  exact H.
Defined.

(** ** Further properties: locking *)

(** X4: [_lock] decides [is_new] only when it is still unset, from the
    existence of the path before the file is opened, and leaves the flag
    set in any case, also when it raises.  It never changes the content of
    an existing file nor any other path; a read-only handle changes no
    file at all; a write handle creates a missing file empty when the
    directory it lies in exists, and raises [FileNotFoundError], with no
    file created and the lock file it had, when that directory is
    missing.  It spawns nothing, makes no directory, and changes no
    attribute of the handle other than [is_new] and [lockfd]. *)
Theorem lock_effects
    (f : EncryptedFile.t) (h : Host)
    (r : outcome unit) (f' : EncryptedFile.t) (h' : Host) :
  EncryptedFile._lock f h = (r, f', h') ->
  let fn := EncryptedFile.encrypted_filename f in
  (EncryptedFile.is_new f = None ->
   EncryptedFile.is_new f' = Some (negb (OS.path_exists fn h)))
  /\ (forall b, EncryptedFile.is_new f = Some b ->
                EncryptedFile.is_new f' = Some b)
  /\ (forall p c, fs h !! p = Some c -> fs h' !! p = Some c)
  /\ (forall p, p <> fn -> fs h' !! p = fs h !! p)
  /\ (EncryptedFile.write_lock f = false -> fs h' = fs h)
  /\ (EncryptedFile.write_lock f = true -> fs h !! fn = None ->
      if OS.parent_exists fn h
      then fs h' !! fn = Some EmptyString
      else r = Raise (FileNotFoundError fn) /\ fs h' = fs h
           /\ EncryptedFile.lockfd f' = EncryptedFile.lockfd f)
  /\ dirs h' = dirs h
  /\ foreign h' = foreign h /\ spawned h' = spawned h
  /\ f' = EncryptedFile.set_lockfd (EncryptedFile.lockfd f')
            (EncryptedFile.set_is_new (EncryptedFile.is_new f') f).
Proof.
  destruct f as [fn0 wl q rc lfd ct isn].
  unfold EncryptedFile._lock, OS.open, OS.lockf, OS.path_exists.
  cbn [EncryptedFile.is_new EncryptedFile.encrypted_filename
       EncryptedFile.write_lock].
  cbv zeta.
  assert (Hw : OS.lockf_request (EncryptedFile.lock_operation true)
               = Some (OS.Lock F_WRLCK true)) by reflexivity.
  assert (Hr : OS.lockf_request (EncryptedFile.lock_operation false)
               = Some (OS.Lock F_RDLCK true)) by reflexivity.
  destruct isn as [b0|];
    cbn [EncryptedFile.encrypted_filename EncryptedFile.is_new
         EncryptedFile.write_lock EncryptedFile.set_is_new
         EncryptedFile.lockfd];
    destruct (OS.parent_exists fn0 h) eqn:PE; intros E;
    destruct (fs h !! fn0) as [c0|] eqn:X; cbn in E;
    destruct wl; cbn in E; rewrite ?Hw, ?Hr in E; cbn in E;
    repeat match type of E with
           | context [OS.conflicts ?t ?p ?h0] =>
               destruct (OS.conflicts t p h0)
           end;
    injection E as <- <- <-; cbn;
    repeat match goal with |- _ /\ _ => split end;
    try reflexivity; try discriminate; try congruence;
    try (intros p c Hp;
         destruct (decide (p = fn0)) as [->|Hne];
         [congruence | rewrite lookup_insert_ne by congruence; exact Hp]);
    try (intros p Hp; rewrite lookup_insert_ne by congruence; reflexivity);
    try (intros; apply lookup_insert_eq);
    try (intros; rewrite X; reflexivity);
    try (intros _ _; repeat split; reflexivity).
Qed.

Lemma lock_effects_witness :
  let '(r, f', h') := EncryptedFile._lock Sample.writer0 Sample.host_new in
  EncryptedFile.is_new f' = Some true
  /\ fs h' !! Sample.path0 = Some EmptyString.
Proof.
  destruct (lock_effects Sample.writer0 Sample.host_new
              (Return ())
              (snd (fst (EncryptedFile._lock Sample.writer0 Sample.host_new)))
              (snd (EncryptedFile._lock Sample.writer0 Sample.host_new))
              eq_refl)
    as (H1 & _ & _ & _ & _ & H6 & _).
  split; [exact (H1 eq_refl) | exact (H6 eq_refl eq_refl)].
Defined.

(** The directory a path lies in. *)
Remark parent_of_path :
  OS.parent "environments/dev/secrets.cfg" = Some "environments/dev"
  /\ OS.parent "environments//secrets.cfg" = Some "environments"
  /\ OS.parent "secrets.cfg" = None
  /\ OS.parent "/secrets.cfg" = Some EmptyString.
Proof. repeat split. Qed.

(** A write session on a path whose directory is missing: [_lock] raises,
    nothing is created, and [is_new] is set all the same. *)
Example lock_missing_directory :
  let h := mkHost ∅ ∅ ∅ [] in
  let '(r, f1, h1) := EncryptedFile._lock Sample.writer0 h in
  r = Raise (FileNotFoundError Sample.path0)
  /\ h1 = h
  /\ EncryptedFile.is_new f1 = Some true
  /\ EncryptedFile.lockfd f1 = None.
Proof. vm_compute. repeat split. Qed.

(** Locking again does not look at the path again: the file a write
    session created stays new. *)
Example lock_twice_keeps_is_new :
  let '(_, f1, h1) := EncryptedFile._lock Sample.writer0 Sample.host_new in
  let '(_, f2, h2) := EncryptedFile._lock f1 h1 in
  OS.path_exists Sample.path0 h1 = true
  /\ EncryptedFile.is_new f1 = Some true
  /\ EncryptedFile.is_new f2 = Some true.
Proof. vm_compute. repeat split. Qed.

(** X5: after [__enter__] returned, the handle has an open file object
    holding the lock, [__exit__] returns and leaves the file object closed
    without lock, and [__exit__] returns again on the closed one.  When
    [__enter__] raises for a lock held elsewhere, the file object stays on
    the handle, open and without lock; when it raises for a missing file,
    the handle has the file object it had. *)
Theorem enter_then_exit
    (f : EncryptedFile.t) (h : Host)
    (r : outcome unit) (f1 : EncryptedFile.t) (h1 : Host) :
  EncryptedFile.__enter__ f h = (r, f1, h1) ->
  let fn := EncryptedFile.encrypted_filename f in
  (r = Return () ->
   exists fd,
     EncryptedFile.lockfd f1 = Some fd
     /\ OS.fo_closed fd = false
     /\ OS.fo_lock fd
        = Some (if EncryptedFile.write_lock f then F_WRLCK else F_RDLCK)
     /\ EncryptedFile.__exit__ f1
        = (Return (), EncryptedFile.set_lockfd (Some (OS.close fd)) f1)
     /\ EncryptedFile.__exit__
          (EncryptedFile.set_lockfd (Some (OS.close fd)) f1)
        = (Return (), EncryptedFile.set_lockfd (Some (OS.close fd)) f1))
  /\ (r = Raise (FileLockedError fn) ->
      exists fd, EncryptedFile.lockfd f1 = Some fd
                 /\ OS.fo_closed fd = false /\ OS.fo_lock fd = None)
  /\ (r = Raise (FileNotFoundError fn) ->
      EncryptedFile.lockfd f1 = EncryptedFile.lockfd f).
Proof.
  destruct f as [fn0 wl q rc lfd ct isn].
  unfold EncryptedFile.__enter__, EncryptedFile._lock, OS.open, OS.lockf,
    OS.path_exists.
  cbn [EncryptedFile.is_new EncryptedFile.encrypted_filename
       EncryptedFile.write_lock].
  intros E. cbv zeta.
  cbn [EncryptedFile.encrypted_filename EncryptedFile.write_lock
       EncryptedFile.lockfd].
  assert (Hw : OS.lockf_request (EncryptedFile.lock_operation true)
               = Some (OS.Lock F_WRLCK true)) by reflexivity.
  assert (Hr : OS.lockf_request (EncryptedFile.lock_operation false)
               = Some (OS.Lock F_RDLCK true)) by reflexivity.
  destruct isn as [b0|]; cbn in E;
    destruct (fs h !! fn0) as [c0|] eqn:X; cbn in E;
    destruct wl; cbn in E;
    repeat match type of E with
           | context [OS.parent_exists ?p ?h0] =>
               destruct (OS.parent_exists p h0)
           end;
    rewrite ?Hw, ?Hr in E; cbn in E;
    repeat match type of E with
           | context [OS.conflicts ?t ?p ?h0] =>
               destruct (OS.conflicts t p h0)
           end;
    injection E as <- <- <-;
    (split; [|split]);
    try discriminate;
    try (intros _; eexists; repeat split; reflexivity);
    try (intros _; reflexivity).
Qed.

Lemma enter_then_exit_witness :
  exists fd,
    EncryptedFile.lockfd
      (snd (fst (EncryptedFile.__enter__ Sample.writer0 Sample.host0)))
    = Some fd
    /\ OS.fo_lock fd = Some F_WRLCK.
Proof.
  destruct (enter_then_exit Sample.writer0 Sample.host0 (Return ())
              (snd (fst (EncryptedFile.__enter__ Sample.writer0
                           Sample.host0)))
              (snd (EncryptedFile.__enter__ Sample.writer0 Sample.host0))
              eq_refl)
    as (H & _).
  destruct (H eq_refl) as (fd & H1 & _ & H3 & _).
  exists fd. split; [exact H1 | exact H3].
Defined.

(** ** Further properties: writing one file *)

(** X6: with a write lock and a recipient, [write] on a path without file
    raises [FileNotFoundError] for that path and leaves the host as it
    was; and whenever [write] raises the write-lock error, the
    missing-recipient error or that [FileNotFoundError], the host is as
    it was: nothing was renamed and nothing spawned. *)
Theorem write_refused_before_rename
    (tool : Tool) (f : EncryptedFile.t) (h : Host) :
  let fn := EncryptedFile.encrypted_filename f in
  (EncryptedFile.write_lock f = true ->
   EncryptedFile.recipients f <> [] ->
   fs h !! fn = None ->
   EncryptedFile.write tool f h
   = (Raise (FileNotFoundError fn),
      EncryptedFile.set_is_new (Some false) f, h))
  /\ (forall e f' h',
        EncryptedFile.write tool f h = (Raise e, f', h') ->
        e = NotWritable \/ e = MissingRecipients
        \/ e = FileNotFoundError fn ->
        h' = h).
Proof.
  intros fn. split.
  - intros Hw Hr Hn. unfold EncryptedFile.write, EncryptedFile._encrypt.
    rewrite Hw. cbn. destruct (EncryptedFile.recipients f); [congruence|].
    unfold OS.rename. fold fn. rewrite Hn. reflexivity.
  - intros e f' h' W He.
    destruct (FileFacts.write_inv _ _ _ _ _ _ W)
      as [(_ & _ & _ & ->)|(_ & -> & E)]; [reflexivity|].
    destruct (FileFacts.encrypt_cases _ _ _ _ _ _ E) as (_ & _ & C).
    destruct C as [(_ & _ & ->)|[(_ & _ & _ & ->)|(_ & c & Hc & C)]];
      [reflexivity | reflexivity |].
    exfalso.
    destruct C as [([= ->] & _)|[([[= ->]|[[= ->]|[= ->]]] & _)|([=] & _)]];
      destruct He as [He|[He|He]]; discriminate He.
Qed.

Lemma write_refused_before_rename_witness :
  EncryptedFile.write Sample.toy_gpg Sample.writer0 Sample.host_new
  = (Raise (FileNotFoundError Sample.path0),
     EncryptedFile.set_is_new (Some false) Sample.writer0, Sample.host_new).
Proof.
  apply (proj1 (write_refused_before_rename
                  Sample.toy_gpg Sample.writer0 Sample.host_new)).
  - reflexivity.
  - discriminate.
  - reflexivity.
Defined.

(** X7: when [write] returns, the handle had a write lock, a recipient
    and cleartext, and its file existed; the path now holds what the tool
    left, with exit code 0, for this cleartext and the command line naming
    the recipients and the path; nothing is left under the backup name;
    after the version queries exactly one further process was spawned,
    that encryption. *)
Theorem write_returns_encrypted
    (tool : Tool) (f : EncryptedFile.t) (h : Host)
    (f' : EncryptedFile.t) (h' : Host) :
  EncryptedFile.write tool f h = (Return (), f', h') ->
  let fn := EncryptedFile.encrypted_filename f in
  EncryptedFile.write_lock f = true
  /\ EncryptedFile.recipients f <> []
  /\ fs h !! fn <> None
  /\ f' = EncryptedFile.set_is_new (Some false) f
  /\ fs h' !! backup_of fn = None
  /\ exists g hs run d calls,
       In g GPG_BINARY_CANDIDATES
       /\ EncryptedFile.cleartext f = Some d
       /\ encrypt_run tool hs
            (EncryptedFile.encrypt_argv g (EncryptedFile.recipients f) fn)
          = EncryptRuns run
       /\ run d = (0, fs h' !! fn)
       /\ spawned h'
          = (Spawn (EncryptedFile.encrypt_argv g
                      (EncryptedFile.recipients f) fn) (Some d)
               :: calls ++ spawned h)%list
       /\ Forall (fun c => is_encrypt_call c = false) calls.
Proof.
  intros W fn.
  destruct (FileFacts.write_inv _ _ _ _ _ _ W)
    as [(_ & [=] & _)|(Hw & -> & E)].
  destruct (FileFacts.encrypt_cases _ _ _ _ _ _ E) as (_ & _ & C).
  cbn [EncryptedFile.recipients EncryptedFile.set_is_new
       EncryptedFile.encrypted_filename] in C. fold fn in C.
  destruct C as [(_ & [=] & _)|[(_ & _ & [=] & _)|(Hr & c & Hc & C)]].
  destruct C as [([=] & _)|[([[=]|[[=]|[=]]] & _)|(_ & Hb & C)]].
  destruct C as (g & hs & run & d & calls & Hg & Hrun & Hd & Hout & Hsp & Hne).
  split; [exact Hw|]. split; [exact Hr|]. split; [congruence|].
  split; [reflexivity|]. split; [exact Hb|].
  exists g, hs, run, d, calls. repeat split; assumption.
Qed.

Lemma write_returns_encrypted_witness :
  fs (snd (EncryptedFile.write Sample.toy_gpg Sample.writer0 Sample.host0))
    !! backup_of Sample.path0 = None.
Proof.
  assert (E : EncryptedFile.write Sample.toy_gpg Sample.writer0 Sample.host0
              = (Return (),
                 snd (fst (EncryptedFile.write Sample.toy_gpg Sample.writer0
                             Sample.host0)),
                 snd (EncryptedFile.write Sample.toy_gpg Sample.writer0
                        Sample.host0)))
    by (vm_compute; reflexivity).
  destruct (write_returns_encrypted _ _ _ _ _ E) as (_ & _ & _ & _ & H & _).
  exact H.
Defined.



(** ** Further properties: the member list and its lines *)

Module LinesFacts.
Import PyStr.

Lemma append_assoc a b c : (a +:+ b) +:+ c = a +:+ (b +:+ c).
Proof.
  induction a as [|x a IH]; [reflexivity|].
  rewrite !PyStrFacts.append_cons, IH. reflexivity.
Qed.

Lemma chars_append a b :
  list_ascii_of_string (a +:+ b)
  = (list_ascii_of_string a ++ list_ascii_of_string b)%list.
Proof.
  induction a as [|x a IH]; [reflexivity|].
  rewrite PyStrFacts.append_cons. cbn [list_ascii_of_string app].
  rewrite IH. reflexivity.
Qed.

Lemma prefix_append a s t :
  String.prefix a s = true -> String.prefix a (s +:+ t) = true.
Proof.
  revert s. induction a as [|x a IH]; intros s.
  - intros _. destruct (s +:+ t); reflexivity.
  - destruct s as [|y s]; [discriminate|].
    rewrite PyStrFacts.append_cons. cbn [String.prefix].
    destruct (ascii_dec x y); [apply IH | discriminate].
Qed.

(** A string without the separator is one piece. *)
Lemma split_one sep a :
  Forall (fun c => c <> sep) (list_ascii_of_string a) -> split sep a = [a].
Proof.
  induction a as [|x a IH]; intros H; [reflexivity|].
  cbn [list_ascii_of_string] in H. inversion H as [|? ? Hx Ha]; subst.
  cbn [split]. apply Ascii.eqb_neq in Hx. rewrite Hx, (IH Ha). reflexivity.
Qed.

(** The first piece ends at the first separator. *)
Lemma split_at sep a s :
  Forall (fun c => c <> sep) (list_ascii_of_string a) ->
  split sep (a +:+ String sep s) = a :: split sep s.
Proof.
  induction a as [|x a IH]; intros H.
  - rewrite PyStrFacts.append_empty. cbn [split].
    rewrite Ascii.eqb_refl. reflexivity.
  - cbn [list_ascii_of_string] in H. inversion H as [|? ? Hx Ha]; subst.
    rewrite PyStrFacts.append_cons. cbn [split].
    apply Ascii.eqb_neq in Hx. rewrite Hx, (IH Ha). reflexivity.
Qed.

Lemma lstrip_spaces w m : all_space w -> lstrip (w +:+ m) = lstrip m.
Proof.
  unfold all_space. induction w as [|x w IH]; intros H; [reflexivity|].
  cbn [list_ascii_of_string] in H. inversion H as [|? ? Hx Hw]; subst.
  rewrite PyStrFacts.append_cons. cbn [lstrip]. rewrite Hx. apply IH, Hw.
Qed.

Lemma lstrip_of_stripped m : strip m = m -> lstrip m = m.
Proof.
  intros H. apply PyStrFacts.lstrip_fixed.
  destruct (PyStrFacts.strip_spec m) as (_ & _ & _ & _ & _ & F & _).
  rewrite H in F. exact F.
Qed.

(** White space in front of a stripped string is stripped away. *)
Lemma strip_spaces w m : all_space w -> strip m = m -> strip (w +:+ m) = m.
Proof.
  intros Hw Hm. unfold strip. rewrite (lstrip_spaces _ _ Hw).
  exact Hm.
Qed.

Lemma spaces_no_comma w :
  all_space w -> Forall (fun c => c <> ","%char) (list_ascii_of_string w).
Proof.
  unfold all_space. intros H. eapply Forall_impl; [exact H|].
  intros c Hc ->. discriminate Hc.
Qed.

Lemma plain_no_comma m :
  plain_member m ->
  Forall (fun c => c <> ","%char) (list_ascii_of_string m).
Proof.
  intros (_ & _ & H). eapply Forall_impl; [exact H|]. intros c [Hc _]. exact Hc.
Qed.

Lemma plain_no_newline m :
  plain_member m ->
  Forall (fun c => c <> newline) (list_ascii_of_string m).
Proof.
  intros (_ & _ & H). eapply Forall_impl; [exact H|]. intros c [_ Hc]. exact Hc.
Qed.

(** The lines of one member, and of a member followed by others. *)
Lemma lines_one m : plain_member m -> set_members_lines [m] = [m].
Proof.
  intros H. unfold set_members_lines. cbn [join].
  apply split_one, plain_no_newline, H.
Qed.

Lemma lines_cons m m' r :
  plain_member m ->
  set_members_lines (m :: m' :: r)
  = (m +:+ ",") :: set_members_lines (m' :: r).
Proof.
  intros H. unfold set_members_lines.
  rewrite PyStrFacts.join_cons.
  change (m +:+ ("," +:+ String newline EmptyString) +:+ ?j)
    with (m +:+ (String ","%char (String newline j))).
  replace (m +:+ String ","%char
                   (String newline
                      (join ("," +:+ String newline EmptyString) (m' :: r))))
    with ((m +:+ ",") +:+ String newline
            (join ("," +:+ String newline EmptyString) (m' :: r)))
    by (rewrite append_assoc; reflexivity).
  apply split_at. rewrite chars_append. apply Forall_app. split.
  - apply plain_no_newline, H.
  - repeat constructor. discriminate.
Qed.

Lemma join_more sep x l :
  l <> [] -> join sep (x :: l) = x +:+ sep +:+ join sep l.
Proof. destruct l; [congruence | reflexivity]. Qed.

(** The pieces between the commas of the laid-out lines are the members,
    each behind the white space that separates the lines. *)
Lemma stripped_pieces w ms : forall w0,
  ms <> [] -> Forall plain_member ms -> all_space w0 -> all_space w ->
  map strip (split "," (w0 +:+ join w (set_members_lines ms))) = ms.
Proof.
  induction ms as [|m ms IH]; intros w0 Hne Hms Hw0 Hw; [congruence|].
  inversion Hms as [|? ? Hm Hms']; subst.
  destruct ms as [|m' r].
  - rewrite (lines_one _ Hm). cbn [join].
    rewrite split_one.
    + cbn [map]. rewrite (strip_spaces _ _ Hw0); [reflexivity | apply Hm].
    + rewrite chars_append. apply Forall_app. split.
      * apply spaces_no_comma, Hw0.
      * apply plain_no_comma, Hm.
  - rewrite (lines_cons _ _ _ Hm).
    rewrite join_more
      by (unfold set_members_lines; apply PyStrFacts.split_nonempty).
    replace (w0 +:+ (m +:+ ",") +:+ w +:+ join w (set_members_lines (m' :: r)))
      with ((w0 +:+ m) +:+ String ","%char
              (w +:+ join w (set_members_lines (m' :: r))))
      by (rewrite !append_assoc; reflexivity).
    rewrite split_at.
    + cbn [map]. rewrite (strip_spaces _ _ Hw0) by apply Hm.
      rewrite (IH w); [reflexivity | discriminate | exact Hms' | exact Hw
                       | exact Hw].
    + rewrite chars_append. apply Forall_app. split.
      * apply spaces_no_comma, Hw0.
      * apply plain_no_comma, Hm.
Qed.

End LinesFacts.

Module DocumentFacts.

Lemma assoc_set_assoc {A} k (v : A) l :
  Config.assoc k (Config.set_assoc k v l) = Some v.
Proof.
  induction l as [|[k' v'] l IH]; cbn.
  - rewrite String.eqb_refl. reflexivity.
  - destruct (String.eqb k' k) eqn:E; cbn; rewrite E; [reflexivity | exact IH].
Qed.

(** An option that was set has the value it was set to. *)
Lemma get_after_set section key value cfg cfg' :
  Config.set section key value cfg = Some cfg' ->
  Config.get_value section key cfg' = Some value.
Proof.
  unfold Config.set, Config.get_value.
  destruct (Config.assoc section cfg) as [opts|]; [|discriminate].
  intros [= <-]. rewrite assoc_set_assoc. apply assoc_set_assoc.
Qed.

(** Setting an option needs the section and nothing else. *)
Lemma set_defined section key value cfg :
  Config.assoc section cfg <> None ->
  exists cfg', Config.set section key value cfg = Some cfg'.
Proof.
  unfold Config.set. destruct (Config.assoc section cfg); [eauto | congruence].
Qed.

Lemma sort_unique l1 l2 : l1 ≡ₚ l2 -> PyStr.sort l1 = PyStr.sort l2.
Proof.
  intros H. apply (Sorted_unique String.le).
  - apply PyStrFacts.sort_Sorted.
  - apply PyStrFacts.sort_Sorted.
  - rewrite !PyStrFacts.sort_Permutation. exact H.
Qed.

Lemma sort_sorted l : Sorted String.le l -> PyStr.sort l = l.
Proof.
  intros H. apply (Sorted_unique String.le).
  - apply PyStrFacts.sort_Sorted.
  - exact H.
  - apply PyStrFacts.sort_Permutation.
Qed.

End DocumentFacts.

(** ** Further properties: paths *)

Module PathFacts.
Import Pathlib.

(** A separator at the end gives one more, empty, piece. *)
Lemma split_trailing sep a :
  PyStr.split sep (a +:+ String sep EmptyString)
  = (PyStr.split sep a ++ [EmptyString])%list.
Proof.
  induction a as [|c r IH].
  - rewrite PyStrFacts.append_empty. cbn [PyStr.split].
    rewrite Ascii.eqb_refl. reflexivity.
  - rewrite PyStrFacts.append_cons. cbn [PyStr.split].
    destruct (Ascii.eqb c sep); [rewrite IH; reflexivity|].
    rewrite IH. pose proof (PyStrFacts.split_nonempty sep r) as Hne.
    destruct (PyStr.split sep r) as [|x l]; [congruence | reflexivity].
Qed.

Lemma components_trailing s : components (s +:+ "/") = components s.
Proof.
  unfold components. rewrite split_trailing, List.filter_app.
  cbn [List.filter String.eqb negb andb]. apply app_nil_r.
Qed.

Lemma components_single s : single_component s -> components s = [s].
Proof.
  intros (Hne & Hdot & Hs). unfold components.
  rewrite (LinesFacts.split_one _ _ Hs). cbn [List.filter].
  apply String.eqb_neq in Hne. apply String.eqb_neq in Hdot.
  rewrite Hne, Hdot. reflexivity.
Qed.

Lemma prefix_empty s : String.prefix "" s = true.
Proof. destruct s; reflexivity. Qed.

Lemma relative_single s : single_component s -> String.prefix "/" s = false.
Proof.
  intros (Hne & _ & Hs). destruct s as [|c r]; [congruence|].
  cbn [list_ascii_of_string] in Hs. inversion Hs as [|? ? Hc _]; subst.
  cbn [String.prefix]. destruct (ascii_dec "/" c); congruence.
Qed.

Lemma relative_trailing s :
  s <> EmptyString -> String.prefix "/" (s +:+ "/") = String.prefix "/" s.
Proof.
  destruct s as [|c r]; [congruence|]. intros _.
  rewrite PyStrFacts.append_cons. cbn [String.prefix].
  destruct (ascii_dec "/" c); [|reflexivity].
  rewrite !prefix_empty. reflexivity.
Qed.

(** A name that starts with [secret-] is no root, and its first component
    starts with [secret-] too. *)
Lemma secret_components s :
  String.prefix "secret-" s = true ->
  String.prefix "/" s = false
  /\ exists c cs, components s = c :: cs
                  /\ exists t, c = "secret-" +:+ t.
Proof.
  intros H.
  do 7 (destruct s as [|? s]; [discriminate|];
        cbn [String.prefix] in H;
        match type of H with
        | (if ascii_dec ?a ?b then _ else _) = true =>
            destruct (ascii_dec a b) as [<-|]; [|discriminate]
        end).
  split; [reflexivity|].
  unfold components. cbn [PyStr.split Ascii.eqb Bool.eqb].
  pose proof (PyStrFacts.split_nonempty "/" s) as Hne.
  destruct (PyStr.split "/" s) as [|x l]; [congruence|].
  cbn [List.filter String.eqb Ascii.eqb Bool.eqb negb andb].
  eexists _, _. split; [reflexivity|]. exists x. reflexivity.
Qed.

Lemma str_parts p :
  parts p <> [] -> str p = root p +:+ PyStr.join "/" (parts p).
Proof.
  unfold str. destruct (root p); [|reflexivity].
  destruct (parts p); [congruence | reflexivity].
Qed.

(** The text of the components from the last one of [P] on. *)
Lemma join_app P x l :
  PyStr.join "/" (P ++ x :: l)
  = match P with
    | [] => EmptyString
    | _ :: _ => PyStr.join "/" P +:+ "/"
    end +:+ PyStr.join "/" (x :: l).
Proof.
  induction P as [|a P IH]; [reflexivity|].
  change ((a :: P) ++ x :: l)%list with (a :: (P ++ x :: l))%list.
  rewrite LinesFacts.join_more by (destruct P; discriminate).
  rewrite IH. destruct P as [|b P].
  - cbn [PyStr.join]. rewrite !LinesFacts.append_assoc. reflexivity.
  - rewrite (LinesFacts.join_more "/" a (b :: P)) by discriminate.
    rewrite !LinesFacts.append_assoc. reflexivity.
Qed.

(** The path of an entry below a directory, as text. *)
Lemma str_child p c cs :
  str (mk (root p) (parts p ++ c :: cs))
  = root p
    +:+ match parts p with
        | [] => EmptyString
        | _ :: _ => PyStr.join "/" (parts p) +:+ "/"
        end
    +:+ PyStr.join "/" (c :: cs).
Proof.
  rewrite str_parts by (cbn [parts]; destruct (parts p); discriminate).
  cbn [root parts]. rewrite join_app. reflexivity.
Qed.

(** The path of a single component below a directory. *)
Lemma str_single p name' :
  single_component name' ->
  str (joinpath p name')
  = root p
    +:+ match parts p with
        | [] => EmptyString
        | _ :: _ => PyStr.join "/" (parts p) +:+ "/"
        end
    +:+ name'.
Proof.
  intros H. unfold joinpath.
  rewrite (relative_single _ H), (components_single _ H).
  apply str_child.
Qed.

Lemma single_backup name' :
  single_component name' -> single_component (backup_of name').
Proof.
  intros (Hne & Hdot & Hs). unfold backup_of, single_component.
  destruct name' as [|c r]; [congruence|].
  split; [discriminate|]. split.
  - rewrite PyStrFacts.append_cons. intros H. injection H as _ H.
    destruct r;
      rewrite ?PyStrFacts.append_empty, ?PyStrFacts.append_cons in H;
      discriminate H.
  - rewrite LinesFacts.chars_append. apply Forall_app. split; [exact Hs|].
    cbn. repeat constructor; discriminate.
Qed.

(** The directory of an environment whose name is a single component. *)
Lemma environment_single env :
  single_component env ->
  environment_path env = mk "" ["environments"; env].
Proof.
  intros H. unfold environment_path, joinpath.
  rewrite (relative_single _ H), (components_single _ H). reflexivity.
Qed.

End PathFacts.

(** How [pathlib] writes the directory of an environment. *)
Remark environment_path_examples :
  Pathlib.str (environment_path "dev") = "environments/dev"
  /\ Pathlib.str (environment_path "dev/") = "environments/dev"
  /\ Pathlib.str (environment_path "./dev//x") = "environments/dev/x"
  /\ Pathlib.str (environment_path "a/../b") = "environments/a/../b"
  /\ Pathlib.str (environment_path "") = "environments"
  /\ Pathlib.str (environment_path "/srv/env") = "/srv/env"
  /\ Pathlib.str (environment_path "//srv") = "//srv"
  /\ Pathlib.str (environment_path "///srv") = "/srv"
  /\ Pathlib.str (Pathlib.Path "") = "."
  /\ Pathlib.name (Pathlib.joinpath (environment_path "dev") "secret-a")
     = "secret-a".
Proof. vm_compute. repeat split. Qed.

(** X9: [iter_other_secrets] yields one path for every entry whose name
    starts with [secret-], and none for the others, in the order of the
    entries.  The path is the directory of the environment joined with the
    name, as [pathlib] writes it: for an environment and an entry that are
    single components it is [environments/<env>/<name>], and a slash at
    the end of the name of the environment changes nothing.  So for a
    secret it yields, it also yields the backup name [write] uses for it
    whenever an entry of that name is in the directory. *)
Theorem iter_other_secrets_yields (env : string) (listing : list string) :
  (forall l1 l2,
     iter_other_secrets env (l1 ++ l2)
     = iter_other_secrets env l1 ++ iter_other_secrets env l2)%list
  /\ (forall entry,
        (String.prefix "secret-" entry = true ->
         exists p, iter_other_secrets env [entry] = [p])
        /\ (String.prefix "secret-" entry = false ->
            iter_other_secrets env [entry] = []))
  /\ (forall entry,
        single_component env -> single_component entry ->
        String.prefix "secret-" entry = true ->
        iter_other_secrets env [entry]
        = ["environments/" +:+ env +:+ "/" +:+ entry])
  /\ (env <> EmptyString -> String.prefix "/" env = false ->
      iter_other_secrets (env +:+ "/") listing
      = iter_other_secrets env listing)
  /\ (forall entry p,
        single_component entry ->
        iter_other_secrets env [entry] = [p] ->
        In entry listing -> In (backup_of entry) listing ->
        In p (iter_other_secrets env listing)
        /\ In (backup_of p) (iter_other_secrets env listing)).
Proof.
  split.
  { intros l1 l2. unfold iter_other_secrets.
    rewrite List.filter_app, map_app. reflexivity. }
  split.
  { intros entry. unfold iter_other_secrets. cbn [List.filter].
    split; intros ->; [eexists|]; reflexivity. }
  split.
  { intros entry He Hn Hp. unfold iter_other_secrets. cbn [List.filter].
    rewrite Hp. cbn [map].
    rewrite (PathFacts.environment_single _ He).
    rewrite (PathFacts.str_single _ _ Hn). cbn [Pathlib.root Pathlib.parts].
    cbn [PyStr.join]. rewrite !LinesFacts.append_assoc. reflexivity. }
  split.
  { intros Hne Hrel. unfold iter_other_secrets, environment_path.
    unfold Pathlib.joinpath at 2 4.
    rewrite (PathFacts.relative_trailing _ Hne), Hrel.
    rewrite PathFacts.components_trailing. reflexivity. }
  intros entry p Hn Hy Hin Hb.
  assert (Hp : String.prefix "secret-" entry = true).
  { unfold iter_other_secrets in Hy. cbn [List.filter] in Hy.
    destruct (String.prefix "secret-" entry); [reflexivity | discriminate]. }
  assert (Hpath : p = Pathlib.str (Pathlib.joinpath (environment_path env)
                                     entry)).
  { unfold iter_other_secrets in Hy. cbn [List.filter] in Hy.
    rewrite Hp in Hy. injection Hy as <-. reflexivity. }
  split.
  - unfold iter_other_secrets. apply in_map_iff. exists entry.
    split; [symmetry; exact Hpath|]. apply filter_In. auto.
  - unfold iter_other_secrets. apply in_map_iff. exists (backup_of entry).
    split.
    + rewrite Hpath.
      rewrite (PathFacts.str_single _ _ Hn).
      rewrite (PathFacts.str_single _ _ (PathFacts.single_backup _ Hn)).
      unfold backup_of. rewrite !LinesFacts.append_assoc. reflexivity.
    + apply filter_In. split; [exact Hb|].
      unfold backup_of. apply LinesFacts.prefix_append. exact Hp.
Qed.

Lemma iter_other_secrets_yields_witness :
  let listing :=
    ["environment.cfg"; "secrets.cfg"; "secret-a"; "secret-a.old"] in
  iter_other_secrets "dev" ["secret-a"] = ["environments/dev/secret-a"]
  /\ iter_other_secrets "dev/" listing = iter_other_secrets "dev" listing
  /\ In (backup_of "environments/dev/secret-a")
        (iter_other_secrets "dev" listing).
Proof.
  intros listing.
  destruct (iter_other_secrets_yields "dev" listing) as (_ & _ & H3 & H4 & H5).
  assert (Hd : single_component "dev")
    by (repeat split; try discriminate; repeat constructor; discriminate).
  assert (Ha : single_component "secret-a")
    by (repeat split; try discriminate; repeat constructor; discriminate).
  split; [apply (H3 "secret-a" Hd Ha eq_refl)|].
  split; [apply H4; [discriminate | reflexivity]|].
  apply (H5 "secret-a" "environments/dev/secret-a" Ha).
  - apply (H3 "secret-a" Hd Ha eq_refl).
  - right; right; left; reflexivity.
  - right; right; right; left; reflexivity.
Defined.

(** X10: the member list does not depend on the order in which the
    members are written: two values whose non-empty stripped pieces are the
    same up to order give the same list. *)
Theorem get_members_ignores_order
    (cfg1 cfg2 : Config.t) (v1 v2 : string) :
  Config.get_value "batou" "members" cfg1 = Some v1 ->
  Config.get_value "batou" "members" cfg2 = Some v2 ->
  List.filter PyStr.truthy (map PyStr.strip (PyStr.split "," v1))
  ≡ₚ List.filter PyStr.truthy (map PyStr.strip (PyStr.split "," v2)) ->
  snd (get_members_of cfg1) = snd (get_members_of cfg2).
Proof.
  intros H1 H2 Hp. rewrite !MembersFacts.members_of_value, H1, H2.
  apply DocumentFacts.sort_unique, Hp.
Qed.

Lemma get_members_ignores_order_witness :
  snd (get_members_of [("batou", [("members", "bob, alice")])])
  = snd (get_members_of [("batou", [("members", " alice ,,bob")])]).
Proof.
  apply (get_members_ignores_order _ _ "bob, alice" " alice ,,bob").
  - reflexivity.
  - reflexivity.
  - vm_compute. apply perm_swap.
Defined.

(** X11: when the library lays the lines of a multi-line value out with
    white space in front of them and between them, [get_members] after
    [set_members] returns the members that were set, sorted; this holds
    for members that are not empty, have no white space around them and
    contain neither comma nor line break, and for the empty list. *)
Theorem set_then_get_members
    (lib : ConfigUpdaterLib) (b b1 : EncryptedConfigFile.t)
    (members : list string) (w0 w : string) :
  (forall lines, multiline lib lines = w0 +:+ PyStr.join w lines) ->
  PyStr.all_space w0 -> PyStr.all_space w ->
  Forall plain_member members ->
  EncryptedConfigFile.set_members lib members b = (Return (), b1) ->
  fst (EncryptedConfigFile.get_members b1) = Return (PyStr.sort members).
Proof.
  intros Hlay Hw0 Hw Hms.
  unfold EncryptedConfigFile.set_members.
  destruct (EncryptedConfigFile.config b) as [cfg|]; [|discriminate].
  destruct (Config.set "batou" "members" _ cfg) as [cfg'|] eqn:S;
    [|discriminate].
  intros [= <-]. apply DocumentFacts.get_after_set in S.
  unfold EncryptedConfigFile.get_members.
  cbn [EncryptedConfigFile.config EncryptedConfigFile.set_config].
  pose proof (MembersFacts.members_of_value cfg') as Hv.
  destruct (get_members_of cfg') as [cfg2 ms]. cbn [fst snd] in Hv |- *.
  rewrite Hv, S, Hlay. f_equal.
  destruct members as [|m ms'].
  - unfold set_members_lines. cbn [PyStr.join PyStr.split].
    rewrite LinesFacts.split_one.
    + cbn [map]. rewrite (LinesFacts.strip_spaces _ _ Hw0) by reflexivity.
      reflexivity.
    + rewrite LinesFacts.chars_append. apply Forall_app. split.
      * apply LinesFacts.spaces_no_comma, Hw0.
      * constructor.
  - rewrite LinesFacts.stripped_pieces;
      [|discriminate | exact Hms | exact Hw0 | exact Hw].
    f_equal. clear -Hms.
    induction Hms as [|x l Hx _ IH]; [reflexivity|].
    cbn [List.filter]. destruct Hx as (Hne & _).
    destruct x; [congruence|]. cbn [PyStr.truthy]. rewrite IH. reflexivity.
Qed.

Lemma set_then_get_members_witness :
  fst (EncryptedConfigFile.get_members
         (snd (EncryptedConfigFile.set_members Sample.lib0 ["bob"; "alice"]
                 Sample.bundle_nobody)))
  = Return (PyStr.sort ["bob"; "alice"]).
Proof.
  apply (set_then_get_members Sample.lib0 Sample.bundle_nobody _
           ["bob"; "alice"] Sample.indent Sample.indent).
  - intros lines. reflexivity.
  - repeat constructor.
  - repeat constructor.
  - repeat constructor; try discriminate.
  - reflexivity.
Defined.

(** After [set_members] the option holds one member per line. *)
Example set_members_lays_out_lines :
  set_members_lines ["alice"; "bob"; "carol"] = ["alice,"; "bob,"; "carol"]
  /\ set_members_lines [] = [EmptyString]
  /\ fst (EncryptedConfigFile.get_members
            (snd (EncryptedConfigFile.set_members Sample.lib0
                    ["carol"; "alice"] Sample.bundle_nobody)))
     = Return ["alice"; "carol"].
Proof. vm_compute. repeat split. Qed.

(** ** Further properties: the files of a bundle *)

Module RegistryFacts.
Import EncryptedConfigFile.

Lemma find_app_first {A} (P : A -> bool) l k x :
  List.find P l = Some x -> List.find P (l ++ k) = Some x.
Proof.
  induction l as [|a l IH]; cbn; [discriminate|].
  destruct (P a); [auto | exact IH].
Qed.

(** Registering at the end keeps what was registered. *)
Lemma lookup_kept q g f b :
  lookup q b = Some g ->
  lookup q (set_other_files (other_files b ++ [f]) b) = Some g.
Proof.
  unfold lookup, files. cbn [main_file other_files set_other_files].
  change (main_file b :: other_files b ++ [f])%list
    with ((main_file b :: other_files b) ++ [f])%list.
  apply find_app_first.
Qed.

Lemma lookup_name p f b :
  lookup p b = Some f -> EncryptedFile.encrypted_filename f = p.
Proof.
  unfold lookup. intros H. apply find_some in H. destruct H as [_ H].
  apply String.eqb_eq in H. exact H.
Qed.

Section WithTool.
Variable tool : Tool.

(** A [read] that raises leaves the handle as it was, without
    cleartext. *)
Lemma read_raise_unchanged f h e f' h' :
  EncryptedFile.read tool f h = (Raise e, f', h') ->
  f' = f /\ EncryptedFile.cleartext f = None.
Proof.
  unfold EncryptedFile.read.
  destruct (EncryptedFile.cleartext f); [discriminate|].
  destruct (OS.path_exists _ _); [|discriminate].
  destruct (EncryptedFile._decrypt tool f h) as [[c|e0] h2];
    intros [= <- <- <-]. auto.
Qed.

(** What [add_file] does with a path that is not registered. *)
Lemma add_file_fresh p b h :
  lookup p b = None ->
  exists r f h1,
    EncryptedFile.read tool
      (EncryptedFile.__init__ p (write_lock b) (quiet b)) h = (r, f, h1)
    /\ add_file tool p b h
       = (match r with Return _ => Return f | Raise e => Raise e end,
          set_other_files (other_files b ++ [f]) b, h1)
    /\ EncryptedFile.encrypted_filename f = p.
Proof.
  intros L. unfold add_file. rewrite L.
  pose proof (BundleFacts.read_keeps_name tool
                (EncryptedFile.__init__ p (write_lock b) (quiet b)) h) as Hn.
  destruct (EncryptedFile.read tool _ h) as [[r f] h1].
  exists r, f, h1. split; [reflexivity|].
  split; [destruct r; reflexivity | exact Hn].
Qed.

End WithTool.
End RegistryFacts.

(** X12: after [add_file], whether it returned or raised, the path is
    registered under a handle of that name and everything registered before
    still is; a second [add_file] for the path returns that handle and
    changes neither bundle nor host.  When the first call raised, the
    handle it left registered has no cleartext, and the second call
    returns it all the same, without reading.  For a path registered
    already, [add_file] changes nothing. *)
Theorem add_file_twice
    (tool : Tool) (p : string) (b : EncryptedConfigFile.t) (h : Host)
    (r : outcome EncryptedFile.t) (b1 : EncryptedConfigFile.t) (h1 : Host) :
  EncryptedConfigFile.add_file tool p b h = (r, b1, h1) ->
  exists f,
    EncryptedConfigFile.lookup p b1 = Some f
    /\ EncryptedFile.encrypted_filename f = p
    /\ (forall h2,
          EncryptedConfigFile.add_file tool p b1 h2 = (Return f, b1, h2))
    /\ (forall f0, r = Return f0 -> f0 = f)
    /\ (forall e, r = Raise e ->
          EncryptedConfigFile.lookup p b = None
          /\ EncryptedFile.cleartext f = None)
    /\ (forall q g, EncryptedConfigFile.lookup q b = Some g ->
                    EncryptedConfigFile.lookup q b1 = Some g)
    /\ (EncryptedConfigFile.lookup p b <> None -> b1 = b /\ h1 = h).
Proof.
  intros E.
  destruct (EncryptedConfigFile.lookup p b) as [f|] eqn:L.
  - unfold EncryptedConfigFile.add_file in E. rewrite L in E.
    injection E as <- <- <-. exists f.
    split; [exact L|].
    split; [apply (RegistryFacts.lookup_name _ _ _ L)|].
    split.
    { intros h2. unfold EncryptedConfigFile.add_file. rewrite L.
      reflexivity. }
    split; [intros f0 [= <-]; reflexivity|].
    split; [discriminate|]. auto.
  - destruct (RegistryFacts.add_file_fresh tool p b h L)
      as (r0 & f & h0 & R & A & Hn).
    rewrite A in E. injection E as <- <- <-. exists f.
    assert (L1 : EncryptedConfigFile.lookup p
                   (EncryptedConfigFile.set_other_files
                      (EncryptedConfigFile.other_files b ++ [f]) b)
                 = Some f)
      by (apply BundleFacts.lookup_registered; assumption).
    split; [exact L1|]. split; [exact Hn|].
    split.
    { intros h2. unfold EncryptedConfigFile.add_file. rewrite L1.
      reflexivity. }
    split.
    { intros f0. destruct r0; intros [= <-]. reflexivity. }
    split.
    { intros e He. split; [reflexivity|].
      destruct r0 as [s|e0]; [discriminate|].
      destruct (RegistryFacts.read_raise_unchanged tool _ _ _ _ _ R)
        as (-> & _). reflexivity. }
    split; [|congruence].
    intros q g Hq. apply RegistryFacts.lookup_kept. exact Hq.
Qed.

Lemma add_file_twice_witness :
  let p := "environments/dev/secret-c" in
  let h := mkHost {[ p := "CC" ]} {[ Sample.dir0 ]} ∅ [] in
  let '(r, b1, h1) :=
    EncryptedConfigFile.add_file Sample.failing_gpg p Sample.bundle0 h in
  exists f,
    EncryptedConfigFile.lookup p b1 = Some f
    /\ EncryptedFile.cleartext f = None
    /\ EncryptedConfigFile.add_file Sample.failing_gpg p b1 h1
       = (Return f, b1, h1).
Proof.
  intros p h.
  assert (E : EncryptedConfigFile.add_file Sample.failing_gpg p
                Sample.bundle0 h
              = (Raise (GPGCallError ["gpg"; "--decrypt"; p] 2 ""),
                 snd (fst (EncryptedConfigFile.add_file Sample.failing_gpg p
                             Sample.bundle0 h)),
                 snd (EncryptedConfigFile.add_file Sample.failing_gpg p
                        Sample.bundle0 h)))
    by (vm_compute; reflexivity).
  destruct (add_file_twice _ _ _ _ _ _ _ E)
    as (f & H1 & _ & H3 & _ & H5 & _).
  rewrite E. exists f. split; [exact H1|].
  split; [apply (H5 _ eq_refl) | apply H3].
Defined.

Module InitFacts.
Import EncryptedConfigFile.

Section WithTool.
Variable tool : Tool.

(** A [read] that returns has set the cleartext and nothing else, and has
    left the files alone. *)
Lemma read_return_shape f h s f' h' :
  EncryptedFile.read tool f h = (Return s, f', h') ->
  f' = EncryptedFile.set_cleartext (Some s) f /\ fs h' = fs h.
Proof.
  unfold EncryptedFile.read.
  destruct f as [fn wl q rc lfd ct isn].
  cbn [EncryptedFile.cleartext EncryptedFile.encrypted_filename].
  destruct ct as [c|]; [intros [= <- <- <-]; auto|].
  destruct (OS.path_exists fn h); [|intros [= <- <- <-]; auto].
  destruct (EncryptedFile._decrypt tool _ h) as [[c|e] h2] eqn:D;
    [|discriminate].
  destruct (FileFacts.decrypt_frame _ _ _ _ _ D) as (Hfs & _).
  intros [= <- <- <-]. auto.
Qed.

Lemma fresh_handle p wl q h s f h1 :
  EncryptedFile.read tool (EncryptedFile.__init__ p wl q) h
  = (Return s, f, h1) ->
  registered_handle wl q f
  /\ EncryptedFile.encrypted_filename f = p /\ fs h1 = fs h.
Proof.
  intros R. destruct (read_return_shape _ _ _ _ _ R) as (-> & Hfs).
  unfold registered_handle. cbn. repeat split; [discriminate | exact Hfs].
Qed.

(** What a returning [add_file] keeps. *)
Lemma add_file_inv p b h f b1 h1 :
  add_file tool p b h = (Return f, b1, h1) ->
  Forall (registered_handle (write_lock b) (quiet b)) (other_files b) ->
  Forall (registered_handle (write_lock b) (quiet b)) (other_files b1)
  /\ main_file b1 = main_file b /\ config b1 = config b
  /\ write_lock b1 = write_lock b /\ quiet b1 = quiet b
  /\ add_files_for_env b1 = add_files_for_env b
  /\ fs h1 = fs h
  /\ lookup p b1 <> None
  /\ (forall q g, lookup q b = Some g -> lookup q b1 = Some g)
  /\ (forall g, In g (files b1) ->
        In g (files b) \/ EncryptedFile.encrypted_filename g = p).
Proof.
  intros E Hall.
  destruct (lookup p b) as [f0|] eqn:L.
  - unfold add_file in E. rewrite L in E. injection E as <- <- <-.
    repeat split; auto. congruence.
  - destruct (RegistryFacts.add_file_fresh tool p b h L)
      as (r0 & f1 & h0 & R & A & Hn).
    rewrite A in E. destruct r0 as [s|e]; [|discriminate].
    injection E as <- <- <-.
    destruct (fresh_handle _ _ _ _ _ _ _ R) as (Hreg & _ & Hfs).
    split.
    { cbn [other_files set_other_files]. apply Forall_app. split; [exact Hall|].
      constructor; [exact Hreg | constructor]. }
    repeat split; try reflexivity; try exact Hfs.
    + rewrite (BundleFacts.lookup_registered p f1 b L Hn). discriminate.
    + intros q g Hq. apply RegistryFacts.lookup_kept. exact Hq.
    + intros g Hg. unfold files in Hg |- *.
      cbn [main_file other_files set_other_files] in Hg.
      destruct Hg as [<-|Hg]; [left; left; reflexivity|].
      apply in_app_or in Hg. destruct Hg as [Hg|[<-|[]]].
      * left. right. exact Hg.
      * right. exact Hn.
Qed.

(** What a returning [add_files] keeps. *)
Lemma add_files_inv ps : forall b h b1 h1,
  add_files tool ps b h = (Return (), b1, h1) ->
  Forall (registered_handle (write_lock b) (quiet b)) (other_files b) ->
  List.NoDup (filenames (files b)) ->
  Forall (registered_handle (write_lock b) (quiet b)) (other_files b1)
  /\ List.NoDup (filenames (files b1))
  /\ main_file b1 = main_file b /\ config b1 = config b
  /\ write_lock b1 = write_lock b /\ quiet b1 = quiet b
  /\ add_files_for_env b1 = add_files_for_env b
  /\ fs h1 = fs h
  /\ (forall p, In p ps -> lookup p b1 <> None)
  /\ (forall q g, lookup q b = Some g -> lookup q b1 = Some g)
  /\ (forall g, In g (files b1) ->
        In g (files b) \/ In (EncryptedFile.encrypted_filename g) ps).
Proof.
  induction ps as [|p ps IH]; intros b h b1 h1 E Hall Hnd.
  - injection E as <- <-. repeat split; auto.
  - cbn [add_files] in E.
    destruct (add_file tool p b h) as [[r b2] h2] eqn:A.
    destruct r as [f|e]; [|discriminate].
    pose proof (BundleFacts.add_file_keys_unique tool p b h Hnd) as Hnd2.
    rewrite A in Hnd2. cbn [fst snd] in Hnd2.
    destruct (add_file_inv _ _ _ _ _ _ A Hall)
      as (Hall2 & Hm2 & Hc2 & Hw2 & Hq2 & He2 & Hfs2 & Hl2 & Hk2 & Ho2).
    rewrite <- Hw2, <- Hq2 in Hall2.
    destruct (IH _ _ _ _ E Hall2 Hnd2)
      as (Hall1 & Hnd1 & Hm1 & Hc1 & Hw1 & Hq1 & He1 & Hfs1 & Hl1 & Hk1 & Ho1).
    rewrite Hw2, Hq2 in Hall1.
    split; [exact Hall1|]. split; [exact Hnd1|].
    repeat split; try congruence.
    + intros p' [<-|Hp'].
      * destruct (lookup p b2) as [g|] eqn:L; [|congruence].
        rewrite (Hk1 _ _ L). discriminate.
      * apply Hl1, Hp'.
    + intros q g Hq. apply Hk1, Hk2, Hq.
    + intros g Hg. destruct (Ho1 g Hg) as [Hg2|Hin].
      * destruct (Ho2 g Hg2) as [Hgb|Hn]; [left; exact Hgb|].
        right. left. symmetry. exact Hn.
      * right. right. exact Hin.
Qed.

End WithTool.
End InitFacts.

(** X13: a bundle that [__init__] returns has the given file as its main
    file and, when an environment is given, every path
    [iter_other_secrets] yields, and nothing else; its keys are distinct;
    every handle carries the flags of the bundle and cleartext, and none
    has a lock, [is_new] or recipients; no document is read yet; and no
    file of the host was changed. *)
Theorem init_registers
    (tool : Tool) (encrypted_file : string) (env : option string)
    (listing : list string) (wl q : bool) (h : Host)
    (b : EncryptedConfigFile.t) (h1 : Host) :
  EncryptedConfigFile.__init__ tool encrypted_file env listing wl q h
  = (Return b, h1) ->
  EncryptedFile.encrypted_filename (EncryptedConfigFile.main_file b)
  = encrypted_file
  /\ Forall (registered_handle wl q) (EncryptedConfigFile.files b)
  /\ List.NoDup (filenames (EncryptedConfigFile.files b))
  /\ EncryptedConfigFile.config b = None
  /\ fs h1 = fs h
  /\ (forall e p, env = Some e -> e <> EmptyString ->
        In p (iter_other_secrets e listing) ->
        EncryptedConfigFile.lookup p b <> None)
  /\ (forall g, In g (EncryptedConfigFile.files b) ->
        EncryptedFile.encrypted_filename g = encrypted_file
        \/ exists e, env = Some e /\ e <> EmptyString
                     /\ In (EncryptedFile.encrypted_filename g)
                          (iter_other_secrets e listing)).
Proof.
  unfold EncryptedConfigFile.__init__.
  destruct (EncryptedFile.read tool _ h) as [[r f] h0] eqn:R.
  destruct r as [s|e]; [|discriminate].
  destruct (InitFacts.fresh_handle _ _ _ _ _ _ _ _ R) as (Hreg & Hn & Hfs).
  set (b0 := EncryptedConfigFile.mk env wl q f [] None).
  assert (Hbase :
    EncryptedFile.encrypted_filename (EncryptedConfigFile.main_file b0)
    = encrypted_file
    /\ Forall (registered_handle wl q) (EncryptedConfigFile.files b0)
    /\ List.NoDup (filenames (EncryptedConfigFile.files b0))
    /\ EncryptedConfigFile.config b0 = None
    /\ fs h0 = fs h
    /\ (forall g, In g (EncryptedConfigFile.files b0) ->
          EncryptedFile.encrypted_filename g = encrypted_file)).
  { split; [exact Hn|].
    split; [constructor; [exact Hreg | constructor]|].
    split; [constructor; [intros [] | constructor]|]. split; [reflexivity|].
    split; [exact Hfs|]. intros g [<-|[]]. exact Hn. }
  destruct Hbase as (B1 & B2 & B3 & B4 & B5 & B6).
  destruct env as [e|].
  2:{ intros [= <- <-].
      split; [exact B1|]. split; [exact B2|]. split; [exact B3|].
      split; [exact B4|]. split; [exact B5|].
      split; [intros e p [=]|]. intros g Hg. left. apply B6, Hg. }
  destruct (PyStr.truthy e) eqn:T.
  2:{ intros [= <- <-].
      split; [exact B1|]. split; [exact B2|]. split; [exact B3|].
      split; [exact B4|]. split; [exact B5|].
      split.
      - intros e' p [= <-] He. destruct e; [congruence | discriminate].
      - intros g Hg. left. apply B6, Hg. }
  destruct (EncryptedConfigFile.add_files tool _ b0 h0)
    as [[r2 b2] h2] eqn:A.
  destruct r2 as [[]|e2]; [|discriminate].
  intros [= <- <-].
  destruct (InitFacts.add_files_inv tool _ _ _ _ _ A)
    as (Hall & Hnd & Hm & Hc & _ & _ & _ & Hfs2 & Hl & _ & Ho).
  { constructor. }
  { exact B3. }
  cbn [EncryptedConfigFile.write_lock EncryptedConfigFile.quiet b0] in Hall.
  split; [rewrite Hm; exact B1|].
  split.
  { unfold EncryptedConfigFile.files. constructor; [|exact Hall].
    rewrite Hm. exact Hreg. }
  split; [exact Hnd|]. split; [rewrite Hc; reflexivity|].
  split; [congruence|].
  split.
  { intros e' p [= <-] _ Hp. apply Hl, Hp. }
  intros g Hg. destruct (Ho g Hg) as [Hg0|Hin].
  - left. apply B6, Hg0.
  - right. exists e. split; [reflexivity|].
    split; [destruct e; [discriminate | discriminate] | exact Hin].
Qed.

Lemma init_registers_witness :
  let listing := ["environment.cfg"; "secrets.cfg"; "secret-a"; "secret-b"] in
  let '(r, h1) :=
    EncryptedConfigFile.__init__ Sample.toy_gpg Sample.path0 (Some "dev")
      listing true false Sample.host_bundle in
  exists b,
    r = Return b
    /\ filenames (EncryptedConfigFile.files b)
       = [Sample.path0; Sample.secret_a; Sample.secret_b]
    /\ Forall (registered_handle true false) (EncryptedConfigFile.files b).
Proof.
  intros listing.
  destruct (EncryptedConfigFile.__init__ Sample.toy_gpg Sample.path0
              (Some "dev") listing true false Sample.host_bundle)
    as [r h1] eqn:E.
  assert (Hr : exists b, r = Return b
                 /\ filenames (EncryptedConfigFile.files b)
                    = [Sample.path0; Sample.secret_a; Sample.secret_b]).
  { vm_compute in E. injection E as <- _. eexists. split; reflexivity. }
  destruct Hr as (b & -> & Hnames).
  exists b. split; [reflexivity|]. split; [exact Hnames|].
  destruct (init_registers _ _ _ _ _ _ _ _ _ E) as (_ & H & _). exact H.
Defined.

(** ** Further properties: writing all files, refusals *)

(** X14: [write] of the bundle begins with the main file.  When the main
    handle has no write lock, or the document has no members, it raises
    the write-lock error, or the missing-recipient error, there: the host
    is as it was and no other handle was touched.  The cleartext of the
    main handle is the rendered document all the same. *)
Theorem commit_refused_at_main
    (tool : Tool) (render : Config.t -> string)
    (b : EncryptedConfigFile.t) (h : Host) (cfg : Config.t) :
  EncryptedConfigFile.config b = Some cfg ->
  let refused := fun e =>
    exists b',
      EncryptedConfigFile.write tool render b h = (Raise e, b', h)
      /\ EncryptedConfigFile.other_files b'
         = EncryptedConfigFile.other_files b
      /\ EncryptedFile.cleartext (EncryptedConfigFile.main_file b')
         = Some (render cfg) in
  (EncryptedFile.write_lock (EncryptedConfigFile.main_file b) = false ->
   refused NotWritable)
  /\ (EncryptedFile.write_lock (EncryptedConfigFile.main_file b) = true ->
      snd (get_members_of cfg) = [] ->
      refused MissingRecipients).
Proof.
  intros Hcfg refused. subst refused. cbv beta.
  unfold EncryptedConfigFile.write, EncryptedConfigFile.write_one.
  rewrite Hcfg. destruct (get_members_of cfg) as [cfg1 ms]. cbn [snd].
  split.
  - intros Hw. unfold EncryptedFile.write. cbn. rewrite Hw. cbn.
    eexists. split; [reflexivity|]. split; reflexivity.
  - intros Hw ->. unfold EncryptedFile.write, EncryptedFile._encrypt.
    cbn. rewrite Hw. cbn.
    eexists. split; [reflexivity|]. split; reflexivity.
Qed.

Lemma commit_refused_at_main_witness :
  exists b',
    EncryptedConfigFile.write Sample.toy_gpg Sample.render0
      Sample.bundle_nobody Sample.host_bundle
    = (Raise MissingRecipients, b', Sample.host_bundle).
Proof.
  destruct (proj2 (commit_refused_at_main Sample.toy_gpg Sample.render0
                     Sample.bundle_nobody Sample.host_bundle
                     Sample.cfg_nobody eq_refl) eq_refl eq_refl)
    as (b' & H & _).
  exists b'. exact H.
Defined.

(** ** Further properties: reading the document, entering the session *)

Module SessionFacts.
Import EncryptedConfigFile.

(** The text [read] parses: the cleartext, or the template for none. *)
Lemma section_after_get_members doc :
  Config.assoc "batou" (fst (get_members_of doc)) <> None.
Proof.
  unfold get_members_of.
  destruct (Config.has_section "batou" doc) eqn:H; cbn [negb].
  - apply MembersFacts.has_section_true in H.
    destruct (Config.get_value "batou" "members" doc); exact H.
  - apply MembersFacts.has_section_false in H.
    destruct (Config.get_value _ _ _);
      cbn [fst]; rewrite (MembersFacts.assoc_added _ _ H); discriminate.
Qed.

(** The members read back from an option that was set to the lines of a
    list of plain members. *)
Lemma members_after_set (lib : ConfigUpdaterLib) w0 w ms cfg cfg' :
  (forall lines, multiline lib lines = w0 +:+ PyStr.join w lines) ->
  PyStr.all_space w0 -> PyStr.all_space w ->
  ms <> [] -> Forall plain_member ms ->
  Config.set "batou" "members" (multiline lib (set_members_lines ms)) cfg
  = Some cfg' ->
  snd (get_members_of cfg') = PyStr.sort ms.
Proof.
  intros Hlay Hw0 Hw Hne Hms S.
  apply DocumentFacts.get_after_set in S.
  rewrite MembersFacts.members_of_value, S, Hlay.
  rewrite LinesFacts.stripped_pieces by assumption.
  f_equal. clear -Hms.
  induction Hms as [|x l Hx _ IH]; [reflexivity|].
  cbn [List.filter]. destruct Hx as (Hx & _).
  destruct x; [congruence|]. cbn [PyStr.truthy]. rewrite IH. reflexivity.
Qed.

(** No members are read back from an option that was set to the lines of
    the empty list. *)
Lemma members_after_set_none (lib : ConfigUpdaterLib) w0 w cfg cfg' :
  (forall lines, multiline lib lines = w0 +:+ PyStr.join w lines) ->
  PyStr.all_space w0 ->
  Config.set "batou" "members" (multiline lib (set_members_lines [])) cfg
  = Some cfg' ->
  snd (get_members_of cfg') = [].
Proof.
  intros Hlay Hw0 S.
  apply DocumentFacts.get_after_set in S.
  rewrite MembersFacts.members_of_value, S, Hlay.
  unfold set_members_lines. cbn [PyStr.join PyStr.split].
  rewrite LinesFacts.split_one.
  - cbn [map]. rewrite (LinesFacts.strip_spaces _ _ Hw0) by reflexivity.
    reflexivity.
  - rewrite LinesFacts.chars_append. apply Forall_app. split.
    + apply LinesFacts.spaces_no_comma, Hw0.
    + constructor.
Qed.

Section WithParser.
Variable tool : Tool.
Variable lib : ConfigUpdaterLib.

(** [read] of the bundle, spelled out from the outcome of reading the
    main file on. *)
Lemma read_after_main b h s main1 h1 :
  EncryptedFile.read tool (main_file b) h = (Return s, main1, h1) ->
  let text := if PyStr.truthy s then s else NEW_FILE_TEMPLATE in
  let b1 := set_main_file
              (EncryptedFile.set_cleartext (Some text) (main_file b)) b in
  read tool lib b h =
  match read_string lib text with
  | (Raise e, doc) => (Raise e, set_config (Some doc) b1, h1)
  | (Return _, doc) =>
      match Config.set "batou" "members"
              (multiline lib (set_members_lines (snd (get_members_of doc))))
              (fst (get_members_of doc)) with
      | Some cfg' => (Return (), set_config (Some cfg') b1, h1)
      | None => (Raise (NoSectionError lib "batou"),
                 set_config (Some (fst (get_members_of doc))) b1, h1)
      end
  end.
Proof.
  intros R text b1.
  destruct (InitFacts.read_return_shape _ _ _ _ _ _ R) as (-> & _).
  unfold read. rewrite R.
  cbn [EncryptedFile.cleartext EncryptedFile.set_cleartext].
  fold text.
  destruct (read_string lib text) as [[[]|e] doc]; [|reflexivity].
  unfold get_members, set_members.
  cbn [config set_config].
  destruct (get_members_of doc) as [cfg ms]. cbn [fst snd config set_config].
  destruct (Config.set "batou" "members" _ cfg); reflexivity.
Qed.

Lemma read_main_raises b h e main1 h1 :
  EncryptedFile.read tool (main_file b) h = (Raise e, main1, h1) ->
  read tool lib b h = (Raise e, b, h1).
Proof.
  intros R.
  destruct (RegistryFacts.read_raise_unchanged _ _ _ _ _ _ R) as (-> & _).
  unfold read. rewrite R. destruct b; reflexivity.
Qed.

(** [read] changes the cleartext of the main handle and the document, and
    nothing else of the bundle; it changes no file. *)
Lemma read_shape b h r b1 h1 :
  read tool lib b h = (r, b1, h1) ->
  other_files b1 = other_files b
  /\ (exists c, main_file b1 = EncryptedFile.set_cleartext c (main_file b))
  /\ fs h1 = fs h.
Proof.
  destruct (EncryptedFile.read tool (main_file b) h) as [[r0 main1] h0] eqn:R.
  destruct r0 as [s|e].
  - rewrite (read_after_main _ _ _ _ _ R).
    destruct (InitFacts.read_return_shape _ _ _ _ _ _ R) as (_ & Hfs).
    destruct (read_string lib _) as [[[]|e] doc].
    + destruct (Config.set _ _ _ _); intros [= <- <- <-];
        (split; [reflexivity|]); (split; [eexists; reflexivity | exact Hfs]).
    + intros [= <- <- <-].
      split; [reflexivity|]. split; [eexists; reflexivity | exact Hfs].
  - rewrite (read_main_raises _ _ _ _ _ R). intros [= <- <- <-].
    split; [reflexivity|]. split.
    + exists (EncryptedFile.cleartext (main_file b)).
      destruct (main_file b); reflexivity.
    + destruct (EncryptedFile.cleartext (main_file b)) eqn:C.
      * unfold EncryptedFile.read in R. rewrite C in R. discriminate.
      * unfold EncryptedFile.read in R. rewrite C in R.
        destruct (OS.path_exists _ _); [|discriminate].
        destruct (EncryptedFile._decrypt tool _ h) as [[c|e0] h2] eqn:D;
          [discriminate|].
        injection R as _ _ <-.
        apply (FileFacts.decrypt_frame _ _ _ _ _ D).
Qed.

(** [__exit__] on a bundle whose main file has a lock file and whose
    document has no members: the main file is gone afterwards. *)
Lemma exit_deletes b h fd doc :
  EncryptedFile.lockfd (main_file b) = Some fd ->
  config b = Some doc ->
  snd (get_members_of doc) = [] ->
  exists r b2 h2,
    __exit__ b h = (r, b2, h2)
    /\ fs h2 !! EncryptedFile.encrypted_filename (main_file b) = None
    /\ (fs h !! EncryptedFile.encrypted_filename (main_file b) <> None ->
        r = Return ()).
Proof.
  intros Hfd Hcfg Hms.
  unfold __exit__, EncryptedFile.__exit__, get_members. rewrite Hfd.
  cbn [config set_main_file]. rewrite Hcfg.
  destruct (get_members_of doc) as [cfg ms]. cbn [snd] in Hms. subst ms.
  cbn [main_file set_config set_main_file EncryptedFile.encrypted_filename
       EncryptedFile.set_lockfd].
  unfold OS.unlink.
  destruct (fs h !! EncryptedFile.encrypted_filename (main_file b)) eqn:X.
  - eexists _, _, _. split; [reflexivity|]. cbn.
    split; [apply lookup_delete_eq | reflexivity].
  - eexists _, _, _. split; [reflexivity|]. split; [exact X | congruence].
Qed.

End WithParser.
End SessionFacts.

(** X15: [read] of the bundle never fails on its own: when reading the
    main file and parsing its text return, [read] returns, whatever the
    members are; the cleartext of the main handle is the text that was
    parsed, and no other handle changed.  When, in addition, the library
    lays lines out with white space and the members found are plain, the
    members of the document [read] leaves are the members that were
    parsed: writing them back changed the option, not the list. *)
Theorem read_keeps_members
    (tool : Tool) (lib : ConfigUpdaterLib)
    (b : EncryptedConfigFile.t) (h : Host)
    (s : string) (main1 : EncryptedFile.t) (h1 : Host)
    (doc : Config.t) :
  EncryptedFile.read tool (EncryptedConfigFile.main_file b) h
  = (Return s, main1, h1) ->
  let text := if PyStr.truthy s then s else NEW_FILE_TEMPLATE in
  read_string lib text = (Return (), doc) ->
  exists b1,
    EncryptedConfigFile.read tool lib b h = (Return (), b1, h1)
    /\ EncryptedFile.cleartext (EncryptedConfigFile.main_file b1) = Some text
    /\ EncryptedConfigFile.other_files b1 = EncryptedConfigFile.other_files b
    /\ (forall w0 w,
          (forall lines, multiline lib lines = w0 +:+ PyStr.join w lines) ->
          PyStr.all_space w0 -> PyStr.all_space w ->
          Forall plain_member (snd (get_members_of doc)) ->
          fst (EncryptedConfigFile.get_members b1)
          = Return (snd (get_members_of doc))).
Proof.
  intros R text P.
  rewrite (SessionFacts.read_after_main tool lib _ _ _ _ _ R).
  fold text. rewrite P.
  destruct (DocumentFacts.set_defined "batou" "members"
              (multiline lib (set_members_lines (snd (get_members_of doc))))
              (fst (get_members_of doc))
              (SessionFacts.section_after_get_members doc))
    as (cfg' & S).
  rewrite S. eexists. split; [reflexivity|].
  split; [reflexivity|]. split; [reflexivity|].
  intros w0 w Hlay Hw0 Hw Hplain.
  unfold EncryptedConfigFile.get_members.
  cbn [EncryptedConfigFile.config EncryptedConfigFile.set_config].
  assert (Hm : snd (get_members_of cfg') = snd (get_members_of doc)).
  { destruct (snd (get_members_of doc)) as [|m ms] eqn:M.
    - apply (SessionFacts.members_after_set_none lib w0 w _ _ Hlay Hw0 S).
    - assert (Hne : m :: ms <> []) by discriminate.
      rewrite (SessionFacts.members_after_set lib w0 w _ _ _ Hlay Hw0 Hw
                 Hne Hplain S).
      rewrite <- M. apply DocumentFacts.sort_sorted.
      rewrite MembersFacts.members_of_value.
      destruct (Config.get_value "batou" "members" doc);
        [apply PyStrFacts.sort_Sorted | constructor]. }
  destruct (get_members_of cfg') as [c2 m2]. cbn [fst snd] in Hm |- *.
  congruence.
Qed.

Lemma read_keeps_members_witness :
  exists b1,
    EncryptedConfigFile.read Sample.toy_gpg Sample.lib0
      Sample.bundle0 Sample.host_bundle
    = (Return (), b1, Sample.host_bundle)
    /\ fst (EncryptedConfigFile.get_members b1) = Return ["alice"; "bob"].
Proof.
  destruct (read_keeps_members Sample.toy_gpg Sample.lib0
              Sample.bundle0 Sample.host_bundle
              "[batou] members = bob, alice; "
              (EncryptedConfigFile.main_file Sample.bundle0)
              Sample.host_bundle Sample.cfg_team eq_refl eq_refl)
    as (b1 & H1 & _ & _ & H2).
  exists b1. split; [exact H1|].
  apply (H2 Sample.indent Sample.indent).
  - intros lines. reflexivity.
  - repeat constructor.
  - repeat constructor.
  - repeat constructor; try discriminate.
Defined.

(** X16: on a bundle whose main handle has no cleartext and no file, or
    empty cleartext, [read] spawns nothing and changes no file, parses
    [NEW_FILE_TEMPLATE] and makes it the cleartext of the main handle. *)
Theorem read_starts_from_template
    (tool : Tool) (lib : ConfigUpdaterLib)
    (b : EncryptedConfigFile.t) (h : Host) :
  let main := EncryptedConfigFile.main_file b in
  (EncryptedFile.cleartext main = None
   /\ fs h !! EncryptedFile.encrypted_filename main = None)
  \/ EncryptedFile.cleartext main = Some EmptyString ->
  exists r b1,
    EncryptedConfigFile.read tool lib b h = (r, b1, h)
    /\ EncryptedFile.cleartext (EncryptedConfigFile.main_file b1)
       = Some NEW_FILE_TEMPLATE
    /\ (forall e doc,
          read_string lib NEW_FILE_TEMPLATE = (Raise e, doc) ->
          r = Raise e /\ EncryptedConfigFile.config b1 = Some doc)
    /\ (forall doc,
          read_string lib NEW_FILE_TEMPLATE = (Return (), doc) ->
          r = Return ()
          /\ exists cfg',
               EncryptedConfigFile.config b1 = Some cfg'
               /\ Config.get_value "batou" "members" cfg'
                  = Some (multiline lib
                            (set_members_lines (snd (get_members_of doc))))).
Proof.
  intros main Hcase.
  assert (R : exists main1,
            EncryptedFile.read tool main h = (Return EmptyString, main1, h)).
  { unfold EncryptedFile.read, OS.path_exists.
    destruct Hcase as [(C & X)|C]; rewrite C; [rewrite X|]; eauto. }
  destruct R as (main1 & R).
  rewrite (SessionFacts.read_after_main tool lib _ _ _ _ _ R).
  cbn [PyStr.truthy].
  destruct (read_string lib NEW_FILE_TEMPLATE) as [[[]|e] doc].
  - destruct (DocumentFacts.set_defined "batou" "members"
                (multiline lib
                   (set_members_lines (snd (get_members_of doc))))
                (fst (get_members_of doc))
                (SessionFacts.section_after_get_members doc))
      as (cfg' & S).
    rewrite S. eexists _, _. split; [reflexivity|]. split; [reflexivity|].
    split; [discriminate|].
    intros doc' [= <-]. split; [reflexivity|].
    exists cfg'. split; [reflexivity|].
    apply (DocumentFacts.get_after_set _ _ _ _ _ S).
  - eexists _, _. split; [reflexivity|]. split; [reflexivity|].
    split; [|discriminate].
    intros e' doc' [= <- <-]. split; reflexivity.
Qed.

Lemma read_starts_from_template_witness :
  let b := EncryptedConfigFile.mk None true false
             (EncryptedFile.__init__ Sample.path0 true false) [] None in
  exists r b1,
    EncryptedConfigFile.read Sample.no_gpg Sample.lib0 b Sample.host_new
    = (r, b1, Sample.host_new)
    /\ EncryptedFile.cleartext (EncryptedConfigFile.main_file b1)
       = Some NEW_FILE_TEMPLATE.
Proof.
  intros b.
  destruct (read_starts_from_template Sample.no_gpg Sample.lib0 b
              Sample.host_new (or_introl (conj eq_refl eq_refl)))
    as (r & b1 & H1 & H2 & _).
  exists r, b1. split; [exact H1 | exact H2].
Defined.

(** X17: when the parser raises in [read], the document of the bundle is
    what the parser left, not what it was before.  If that has no
    members, as when no section was parsed, a following [__exit__] of a
    locked bundle removes the main file. *)
Theorem failed_parse_then_exit
    (tool : Tool) (lib : ConfigUpdaterLib)
    (b : EncryptedConfigFile.t) (h : Host)
    (s : string) (main1 : EncryptedFile.t) (h1 : Host)
    (e : exn) (doc : Config.t) (fd : OS.FileObject) :
  EncryptedFile.read tool (EncryptedConfigFile.main_file b) h
  = (Return s, main1, h1) ->
  read_string lib (if PyStr.truthy s then s else NEW_FILE_TEMPLATE)
  = (Raise e, doc) ->
  snd (get_members_of doc) = [] ->
  EncryptedFile.lockfd (EncryptedConfigFile.main_file b) = Some fd ->
  let main := EncryptedFile.encrypted_filename
                (EncryptedConfigFile.main_file b) in
  exists b1,
    EncryptedConfigFile.read tool lib b h = (Raise e, b1, h1)
    /\ EncryptedConfigFile.config b1 = Some doc
    /\ exists r2 b2 h2,
         EncryptedConfigFile.__exit__ b1 h1 = (r2, b2, h2)
         /\ fs h2 !! main = None
         /\ (fs h !! main <> None -> r2 = Return ()).
Proof.
  intros R P Hms Hfd main.
  rewrite (SessionFacts.read_after_main tool lib _ _ _ _ _ R), P.
  eexists. split; [reflexivity|]. split; [reflexivity|].
  destruct (InitFacts.read_return_shape _ _ _ _ _ _ R) as (_ & Hfs).
  match goal with
  | |- exists r2 b2 h2, EncryptedConfigFile.__exit__ ?b1 _ = _ /\ _ =>
      destruct (SessionFacts.exit_deletes b1 h1 fd doc)
        as (r2 & b2 & h2 & E & Hgone & Hret)
  end; [exact Hfd | reflexivity | exact Hms |].
  exists r2, b2, h2. split; [exact E|]. split; [exact Hgone|].
  intros Hx. apply Hret.
  cbn [EncryptedConfigFile.main_file EncryptedConfigFile.set_config
       EncryptedConfigFile.set_main_file EncryptedFile.encrypted_filename
       EncryptedFile.set_cleartext].
  rewrite Hfs. exact Hx.
Qed.

Lemma failed_parse_then_exit_witness :
  let b := EncryptedConfigFile.set_main_file
             (Sample.entered Sample.path0 "members = alice")
             Sample.bundle0 in
  exists b1,
    EncryptedConfigFile.read Sample.toy_gpg Sample.lib0 b Sample.host_bundle
    = (Raise (RuntimeError "File contains no section headers."), b1,
       Sample.host_bundle)
    /\ exists r2 b2 h2,
         EncryptedConfigFile.__exit__ b1 Sample.host_bundle = (r2, b2, h2)
         /\ fs Sample.host_bundle !! Sample.path0 = Some "CIPHERTEXT"
         /\ fs h2 !! Sample.path0 = None.
Proof.
  intros b.
  destruct (failed_parse_then_exit Sample.toy_gpg Sample.lib0 b
              Sample.host_bundle "members = alice"
              (EncryptedConfigFile.main_file b) Sample.host_bundle
              (RuntimeError "File contains no section headers.") []
              (OS.mkFileObject Sample.path0 "a+" (Some F_WRLCK) false)
              eq_refl eq_refl eq_refl eq_refl)
    as (b1 & H1 & _ & r2 & b2 & h2 & H2 & H3 & _).
  exists b1. split; [exact H1|].
  exists r2, b2, h2. split; [exact H2|]. split; [reflexivity | exact H3].
Defined.


Module EnterFacts.

(** A handle [__enter__] returned for holds its lock through an open file
    object. *)
Lemma enter_granted f h f1 h0 :
  EncryptedFile.__enter__ f h = (Return (), f1, h0) ->
  exists fd,
    EncryptedFile.lockfd f1 = Some fd
    /\ OS.fo_closed fd = false
    /\ OS.fo_lock fd
       = Some (if EncryptedFile.write_lock f then F_WRLCK else F_RDLCK).
Proof.
  destruct f as [fn0 wl q rc lfd ct isn].
  unfold EncryptedFile.__enter__, EncryptedFile._lock, OS.open, OS.lockf,
    OS.path_exists.
  cbn [EncryptedFile.is_new EncryptedFile.encrypted_filename
       EncryptedFile.write_lock].
  intros E.
  assert (Hw : OS.lockf_request (EncryptedFile.lock_operation true)
               = Some (OS.Lock F_WRLCK true)) by reflexivity.
  assert (Hr : OS.lockf_request (EncryptedFile.lock_operation false)
               = Some (OS.Lock F_RDLCK true)) by reflexivity.
  destruct isn as [b0|]; cbn in E;
    destruct (fs h !! fn0) as [c0|] eqn:X; cbn in E;
    destruct wl; cbn in E;
    repeat match type of E with
           | context [OS.parent_exists ?p ?h0] =>
               destruct (OS.parent_exists p h0)
           end;
    rewrite ?Hw, ?Hr in E; cbn in E;
    repeat match type of E with
           | context [OS.conflicts ?t ?p ?h0] =>
               destruct (OS.conflicts t p h0)
           end;
    try discriminate;
    injection E as <- <-;
    eexists; repeat split; reflexivity.
Qed.

End EnterFacts.

(** X18: [__enter__] of the bundle locks the main file and changes no
    other handle.  When locking raises, [__enter__] raises the same and
    the document is what it was; when locking returned and the reading or
    parsing that follows raises, [__enter__] raises with the lock file of
    the main handle still open and holding the lock. *)
Theorem enter_locks_main_only
    (tool : Tool) (lib : ConfigUpdaterLib)
    (b : EncryptedConfigFile.t) (h : Host)
    (r : outcome unit) (b1 : EncryptedConfigFile.t) (h1 : Host) :
  EncryptedConfigFile.__enter__ tool lib b h = (r, b1, h1) ->
  let main := EncryptedConfigFile.main_file b in
  EncryptedConfigFile.other_files b1 = EncryptedConfigFile.other_files b
  /\ (forall e main1 h0,
        EncryptedFile.__enter__ main h = (Raise e, main1, h0) ->
        r = Raise e /\ h1 = h0
        /\ EncryptedConfigFile.config b1 = EncryptedConfigFile.config b
        /\ EncryptedConfigFile.main_file b1 = main1)
  /\ (forall main1 h0,
        EncryptedFile.__enter__ main h = (Return (), main1, h0) ->
        fs h1 = fs h0
        /\ exists fd,
             EncryptedFile.lockfd (EncryptedConfigFile.main_file b1)
             = Some fd
             /\ OS.fo_closed fd = false
             /\ OS.fo_lock fd
                = Some (if EncryptedFile.write_lock main
                        then F_WRLCK else F_RDLCK)).
Proof.
  intros E main. unfold EncryptedConfigFile.__enter__ in E. fold main in E.
  destruct (EncryptedFile.__enter__ main h) as [[r0 m1] h0] eqn:L.
  destruct r0 as [[]|e0].
  - destruct (SessionFacts.read_shape tool lib _ _ _ _ _ E)
      as (Ho & (c & Hm) & Hfs).
    split; [exact Ho|]. split; [discriminate|].
    intros main1 h0' [= <- <-]. split; [exact Hfs|].
    destruct (EnterFacts.enter_granted _ _ _ _ L) as (fd & Hfd & Hc & Hl).
    exists fd. rewrite Hm.
    cbn [EncryptedConfigFile.main_file EncryptedConfigFile.set_main_file
         EncryptedFile.lockfd EncryptedFile.set_cleartext].
    auto.
  - injection E as <- <- <-.
    split; [reflexivity|]. split; [|discriminate].
    intros e main1 h0' [= <- <- <-]. auto.
Qed.

Lemma enter_locks_main_only_witness :
  let b := EncryptedConfigFile.mk None true false
             (Sample.added Sample.path0 "members = alice") [] None in
  let '(r, b1, h1) :=
    EncryptedConfigFile.__enter__ Sample.toy_gpg Sample.lib0 b
      Sample.host_bundle in
  r = Raise (RuntimeError "File contains no section headers.")
  /\ exists fd,
       EncryptedFile.lockfd (EncryptedConfigFile.main_file b1) = Some fd
       /\ OS.fo_closed fd = false /\ OS.fo_lock fd = Some F_WRLCK.
Proof.
  intros b.
  destruct (EncryptedConfigFile.__enter__ Sample.toy_gpg Sample.lib0 b
              Sample.host_bundle) as [[r b1] h1] eqn:E.
  split; [vm_compute in E; congruence|].
  destruct (enter_locks_main_only _ _ _ _ _ _ _ E) as (_ & _ & H).
  destruct (H (snd (fst (EncryptedFile.__enter__
                            (EncryptedConfigFile.main_file b)
                            Sample.host_bundle)))
              Sample.host_bundle eq_refl)
    as (_ & fd & H1 & H2 & H3).
  exists fd. auto.
Defined.

(** ** Further properties: the editor *)

Module EditorFacts.

Lemma path_prefix_inj a x y : a +:+ x = a +:+ y -> x = y.
Proof.
  induction a as [|c a IH]; [auto|].
  rewrite !PyStrFacts.append_cons. intros [= H]. apply IH, H.
Qed.

(** Looking up the key of a handle that was stored finds that handle, when
    the key was registered. *)
Lemma lookup_store f b g :
  EncryptedConfigFile.lookup (EncryptedFile.encrypted_filename f) b = Some g ->
  EncryptedConfigFile.lookup (EncryptedFile.encrypted_filename f)
    (Editor.store f b) = Some f.
Proof.
  unfold EncryptedConfigFile.lookup, EncryptedConfigFile.files, Editor.store.
  set (key := EncryptedFile.encrypted_filename f).
  cbn [List.find].
  destruct (String.eqb
              (EncryptedFile.encrypted_filename
                 (EncryptedConfigFile.main_file b)) key) eqn:M.
  - intros _.
    cbn [EncryptedConfigFile.main_file EncryptedConfigFile.set_main_file
         EncryptedConfigFile.other_files].
    fold key. rewrite String.eqb_refl. reflexivity.
  - cbn [EncryptedConfigFile.main_file EncryptedConfigFile.other_files
         EncryptedConfigFile.set_other_files].
    rewrite M.
    induction (EncryptedConfigFile.other_files b) as [|x l IH];
      [discriminate|].
    cbn [List.find map].
    destruct (String.eqb (EncryptedFile.encrypted_filename x) key) eqn:X.
    + intros _. fold key. rewrite String.eqb_refl. reflexivity.
    + rewrite X. exact IH.
Qed.

(** Storing a handle keeps the keys of the bundle. *)
Lemma store_keeps_names f b :
  filenames (EncryptedConfigFile.files (Editor.store f b))
  = filenames (EncryptedConfigFile.files b).
Proof.
  unfold Editor.store, EncryptedConfigFile.files, filenames.
  destruct (String.eqb _ _) eqn:M.
  - apply String.eqb_eq in M. cbn. rewrite M. reflexivity.
  - cbn. f_equal.
    induction (EncryptedConfigFile.other_files b) as [|x l IH];
      [reflexivity|].
    cbn. rewrite IH.
    destruct (String.eqb (EncryptedFile.encrypted_filename x) _) eqn:X;
      [|reflexivity].
    apply String.eqb_eq in X. rewrite X. reflexivity.
Qed.

End EditorFacts.

(** X19: the file the editor is asked to edit by name is one that
    [iter_other_secrets] yields for the environment once it is in the
    directory, so that later sessions make it part of the bundle; the main
    file, which is edited when no name is given, is never yielded. *)
Theorem editor_file_is_a_secret
    (cmd env : string) (listing : list string) :
  (forall name,
     In ("secret-" +:+ name) listing ->
     In (Editor.edit_file (Editor.__init__ cmd env (Some name)))
        (iter_other_secrets env listing))
  /\ Editor.edit_file (Editor.__init__ cmd env None)
     = Editor.encrypted_configfile (Editor.__init__ cmd env None)
  /\ ~ In (Editor.encrypted_configfile (Editor.__init__ cmd env None))
          (iter_other_secrets env listing).
Proof.
  split; [|split; [reflexivity|]].
  - intros name Hin. unfold iter_other_secrets. apply in_map_iff.
    exists ("secret-" +:+ name). split; [reflexivity|].
    apply filter_In. split; [exact Hin|].
    apply (LinesFacts.prefix_append "secret-" "secret-" name). reflexivity.
  - unfold iter_other_secrets. rewrite in_map_iff.
    intros (entry & Heq & Hin). apply filter_In in Hin.
    destruct Hin as [_ Hp].
    cbn [Editor.__init__ Editor.encrypted_configfile] in Heq.
    destruct (PathFacts.secret_components _ Hp)
      as (Hrel & c & cs & Hc & t & ->).
    assert (Hcfg : forall p,
              Pathlib.joinpath p "secrets.cfg"
              = Pathlib.mk (Pathlib.root p)
                  (Pathlib.parts p ++ ["secrets.cfg"])) by reflexivity.
    rewrite Hcfg in Heq. unfold Pathlib.joinpath in Heq.
    rewrite Hrel, Hc, !PathFacts.str_child in Heq.
    apply EditorFacts.path_prefix_inj in Heq.
    apply EditorFacts.path_prefix_inj in Heq.
    destruct cs as [|c' cs'].
    + cbn [PyStr.join] in Heq.
      rewrite !PyStrFacts.append_cons in Heq. discriminate Heq.
    + rewrite LinesFacts.join_more in Heq by discriminate.
      cbn [PyStr.join] in Heq.
      rewrite LinesFacts.append_assoc, !PyStrFacts.append_cons in Heq.
      discriminate Heq.
Qed.

Lemma editor_file_is_a_secret_witness :
  In (Editor.edit_file (Editor.__init__ "vi" "dev" (Some "a")))
     (iter_other_secrets "dev" Sample.listing0).
Proof.
  apply (proj1 (editor_file_is_a_secret "vi" "dev" Sample.listing0) "a").
  right; right; left; reflexivity.
Defined.

Module NormaliseFacts.

(** Writing the members found back into the document keeps them, when the
    library lays lines out with white space and the members are plain. *)
Lemma members_kept (lib : ConfigUpdaterLib) w0 w doc cfg' :
  (forall lines, multiline lib lines = w0 +:+ PyStr.join w lines) ->
  PyStr.all_space w0 -> PyStr.all_space w ->
  Forall plain_member (snd (get_members_of doc)) ->
  Config.set "batou" "members"
    (multiline lib (set_members_lines (snd (get_members_of doc))))
    (fst (get_members_of doc)) = Some cfg' ->
  snd (get_members_of cfg') = snd (get_members_of doc).
Proof.
  intros Hlay Hw0 Hw Hplain S.
  destruct (snd (get_members_of doc)) as [|m ms] eqn:M.
  - apply (SessionFacts.members_after_set_none lib w0 w _ _ Hlay Hw0 S).
  - assert (Hne : m :: ms <> []) by discriminate.
    rewrite (SessionFacts.members_after_set lib w0 w _ _ _ Hlay Hw0 Hw
               Hne Hplain S).
    rewrite <- M. apply DocumentFacts.sort_sorted.
    rewrite MembersFacts.members_of_value.
    destruct (Config.get_value "batou" "members" doc);
      [apply PyStrFacts.sort_Sorted | constructor].
Qed.

Lemma lookup_main b :
  EncryptedConfigFile.lookup
    (EncryptedFile.encrypted_filename (EncryptedConfigFile.main_file b)) b
  = Some (EncryptedConfigFile.main_file b).
Proof.
  unfold EncryptedConfigFile.lookup, EncryptedConfigFile.files.
  cbn [List.find]. rewrite String.eqb_refl. reflexivity.
Qed.

Lemma store_main f b :
  EncryptedFile.encrypted_filename f
  = EncryptedFile.encrypted_filename (EncryptedConfigFile.main_file b) ->
  Editor.store f b = EncryptedConfigFile.set_main_file f b.
Proof.
  intros H. unfold Editor.store. rewrite H, String.eqb_refl. reflexivity.
Qed.

End NormaliseFacts.

(** X20: when the main file is what is edited and [encrypt] of the editor
    returns after the text was changed, every file of the bundle has been
    given the members written in the edited text as its recipients, and
    these are the members of the document of the bundle.  This holds when
    the text parses, the members in it are plain and the library lays lines
    out with white space. *)
Theorem edited_members_apply
    (tool : Tool) (lib : ConfigUpdaterLib) (render : Config.t -> string)
    (ed : Editor.t) (h : Host) (ed' : Editor.t) (h' : Host)
    (b : EncryptedConfigFile.t) (text original : string)
    (doc : Config.t) (w0 w : string) :
  (forall lines, multiline lib lines = w0 +:+ PyStr.join w lines) ->
  PyStr.all_space w0 -> PyStr.all_space w ->
  Editor.cleartext ed = Some text ->
  Editor.original_cleartext ed = Some original ->
  Editor.configfile ed = Some b ->
  Editor.editing ed
  = Some (EncryptedFile.encrypted_filename (EncryptedConfigFile.main_file b)) ->
  text <> original -> text <> EmptyString ->
  read_string lib text = (Return (), doc) ->
  Forall plain_member (snd (get_members_of doc)) ->
  Editor.encrypt tool lib render ed h = (Return (), ed', h') ->
  exists b',
    Editor.configfile ed' = Some b'
    /\ snd (get_members_of doc) <> []
    /\ Forall (fun f => EncryptedFile.recipients f = snd (get_members_of doc))
              (EncryptedConfigFile.files b')
    /\ fst (EncryptedConfigFile.get_members b')
       = Return (snd (get_members_of doc)).
Proof.
  intros Hlay Hw0 Hw Hc Ho Hb Hk Hne Htext P Hplain E.
  unfold Editor.encrypt in E. rewrite Hc, Ho, Hb, Hk in E.
  rewrite NormaliseFacts.lookup_main in E.
  assert (Hcmp : String.eqb text original = false)
    by (apply String.eqb_neq; exact Hne).
  rewrite Hcmp in E. cbn [andb] in E.
  rewrite NormaliseFacts.store_main in E by reflexivity.
  set (main := EncryptedConfigFile.main_file b) in *.
  set (b2 := EncryptedConfigFile.set_main_file
               (EncryptedFile.set_cleartext (Some text) main) b) in *.
  assert (R : EncryptedFile.read tool (EncryptedConfigFile.main_file b2) h
              = (Return text, EncryptedConfigFile.main_file b2, h))
    by reflexivity.
  pose proof (SessionFacts.read_after_main tool lib _ _ _ _ _ R) as Hread.
  assert (Ht : PyStr.truthy text = true)
    by (destruct text; [congruence | reflexivity]).
  cbv zeta in Hread. rewrite Ht, P in Hread.
  destruct (DocumentFacts.set_defined "batou" "members"
              (multiline lib (set_members_lines (snd (get_members_of doc))))
              (fst (get_members_of doc))
              (SessionFacts.section_after_get_members doc))
    as (cfg' & S).
  rewrite S in Hread. rewrite Hread in E.
  pose proof (NormaliseFacts.members_kept lib w0 w doc cfg'
                Hlay Hw0 Hw Hplain S) as Hkept.
  match type of E with
  | context [EncryptedConfigFile.write tool render ?x h] =>
      set (b3 := x) in *
  end.
  destruct (EncryptedConfigFile.write tool render b3 h)
    as [[r b4] h4] eqn:W.
  injection E as -> <- <-.
  exists b4. split; [reflexivity|].
  destruct (EncryptedConfigFile.write_files tool cfg'
              (EncryptedFile.set_cleartext (Some (render cfg'))
                 (EncryptedConfigFile.main_file b3)
               :: EncryptedConfigFile.other_files b3) h)
    as [[[r cfgl] l'] hl] eqn:L.
  destruct (CommitFacts.write_as_loop tool render b3 h cfg' eq_refl _ _ _ _ L)
    as (b'' & W' & Hfiles & Hcfgl).
  rewrite W in W'. injection W' as <- <- <-.
  destruct (CommitFacts.write_files_return tool _ _ _ _ _ _ L)
    as (Hm & Hall & _).
  destruct (Hm ltac:(discriminate)) as (Hnonempty & Hm').
  rewrite Hkept in Hnonempty, Hall, Hm'.
  split; [exact Hnonempty|].
  split; [rewrite Hfiles; exact Hall|].
  unfold EncryptedConfigFile.get_members. rewrite Hcfgl.
  destruct (get_members_of cfgl) as [c2 m2]. cbn [fst snd] in Hm' |- *.
  congruence.
Qed.

Lemma edited_members_apply_witness :
  let ed := Editor.mk "vi" "dev" Sample.path0 Sample.path0
              (Some Sample.bundle0) (Some Sample.path0)
              (Some "[batou] members = carol, alice; ")
              (Some "[batou] members = bob, alice; ") 1 in
  exists b',
    Editor.configfile
      (snd (fst (Editor.encrypt Sample.toy_gpg Sample.lib0 Sample.render0
                   ed Sample.host_bundle)))
    = Some b'
    /\ Forall (fun f => EncryptedFile.recipients f = ["alice"; "carol"])
              (EncryptedConfigFile.files b').
Proof.
  intros ed.
  assert (E : Editor.encrypt Sample.toy_gpg Sample.lib0 Sample.render0
                ed Sample.host_bundle
              = (Return (),
                 snd (fst (Editor.encrypt Sample.toy_gpg Sample.lib0
                             Sample.render0 ed Sample.host_bundle)),
                 snd (Editor.encrypt Sample.toy_gpg Sample.lib0
                        Sample.render0 ed Sample.host_bundle)))
    by (vm_compute; reflexivity).
  destruct (edited_members_apply Sample.toy_gpg Sample.lib0 Sample.render0
              ed Sample.host_bundle
              (snd (fst (Editor.encrypt Sample.toy_gpg Sample.lib0
                           Sample.render0 ed Sample.host_bundle)))
              (snd (Editor.encrypt Sample.toy_gpg Sample.lib0
                      Sample.render0 ed Sample.host_bundle))
              Sample.bundle0
              "[batou] members = carol, alice; "
              "[batou] members = bob, alice; "
              [("batou", [("members", "carol, alice")])]
              Sample.indent Sample.indent)
    as (b' & H1 & _ & H2 & _).
  - intros lines. reflexivity.
  - repeat constructor.
  - repeat constructor.
  - reflexivity.
  - reflexivity.
  - reflexivity.
  - reflexivity.
  - discriminate.
  - discriminate.
  - reflexivity.
  - repeat constructor; try discriminate.
  - exact E.
  - exists b'. split; [exact H1 | exact H2].
Defined.

Module PrepareFacts.
Section WithTool.
Variable tool : Tool.

(** The handle [add_file] returns is the one registered under the path. *)
Lemma add_file_registered p b h f b1 h1 :
  EncryptedConfigFile.add_file tool p b h = (Return f, b1, h1) ->
  EncryptedConfigFile.lookup p b1 = Some f
  /\ EncryptedFile.encrypted_filename f = p
  /\ EncryptedConfigFile.main_file b1 = EncryptedConfigFile.main_file b.
Proof.
  intros E.
  destruct (EncryptedConfigFile.lookup p b) as [g|] eqn:L.
  - unfold EncryptedConfigFile.add_file in E. rewrite L in E.
    injection E as <- <- <-.
    split; [exact L|].
    split; [apply (RegistryFacts.lookup_name _ _ _ L) | reflexivity].
  - destruct (RegistryFacts.add_file_fresh tool p b h L)
      as (r0 & f0 & h0 & _ & A & Hn).
    rewrite A in E. destruct r0 as [s|e]; [|discriminate].
    injection E as <- <- <-.
    split; [apply BundleFacts.lookup_registered; assumption|].
    split; [exact Hn | reflexivity].
Qed.

Lemma enter_keeps_name f h r f1 h1 :
  EncryptedFile.__enter__ f h = (r, f1, h1) ->
  EncryptedFile.encrypted_filename f1 = EncryptedFile.encrypted_filename f.
Proof.
  destruct f as [fn0 wl q rc lfd ct isn].
  unfold EncryptedFile.__enter__, EncryptedFile._lock.
  cbn [EncryptedFile.is_new EncryptedFile.encrypted_filename
       EncryptedFile.write_lock].
  destruct isn as [b0|];
    cbn [EncryptedFile.set_is_new EncryptedFile.encrypted_filename
         EncryptedFile.write_lock EncryptedFile.set_lockfd];
    destruct (OS.open fn0 _ h) as [[fd|e] h0];
    try (intros [= <- <- <-]; reflexivity);
    destruct (OS.lockf fd _ h0); intros [= <- <- <-]; reflexivity.
Qed.

End WithTool.
End PrepareFacts.

(** X21: when the body of [main] up to [interact] returns, the handle of
    the file to edit is registered in the bundle under the path of the
    file, its cleartext is what the editor will show and compare with, and
    its lock file is closed: the lock taken for reading it is gone before
    the editor starts.  When the file to edit is the main file, that handle
    is the main handle of the bundle, whose lock file is then closed
    too. *)
Theorem prepare_releases_lock
    (tool : Tool) (ed : Editor.t) (h : Host) (b : EncryptedConfigFile.t)
    (ed' : Editor.t) (h' : Host) :
  Editor.configfile ed = Some b ->
  Editor.prepare tool ed h = (Return (), ed', h') ->
  exists b' f fd s,
    Editor.configfile ed' = Some b'
    /\ Editor.editing ed' = Some (Editor.edit_file ed)
    /\ EncryptedConfigFile.lookup (Editor.edit_file ed) b' = Some f
    /\ EncryptedFile.lockfd f = Some fd
    /\ OS.fo_closed fd = true /\ OS.fo_lock fd = None
    /\ EncryptedFile.cleartext f = Some s
    /\ Editor.cleartext ed' = Some s
    /\ Editor.original_cleartext ed' = Some s
    /\ (Editor.edit_file ed
        = EncryptedFile.encrypted_filename (EncryptedConfigFile.main_file b) ->
        EncryptedConfigFile.main_file b' = f).
Proof.
  intros Hb E. unfold Editor.prepare in E. rewrite Hb in E.
  destruct (EncryptedConfigFile.add_file tool (Editor.edit_file ed) b h)
    as [[[f0|e0] b1] h1] eqn:A; [|discriminate].
  destruct (PrepareFacts.add_file_registered tool _ _ _ _ _ _ A)
    as (L0 & N0 & M0).
  destruct (EncryptedFile.__enter__ f0 h1) as [[[[]|e1] f1] h2] eqn:En;
    [|discriminate].
  pose proof (PrepareFacts.enter_keeps_name _ _ _ _ _ En) as N1.
  destruct (EnterFacts.enter_granted _ _ _ _ En) as (fd0 & Hfd & _ & _).
  destruct (EncryptedFile.read tool f1 h2) as [[[s|e2] f2] h3] eqn:R.
  - destruct (InitFacts.read_return_shape _ _ _ _ _ _ R) as (-> & _).
    unfold EncryptedFile.__exit__ in E.
    cbn [EncryptedFile.lockfd EncryptedFile.set_cleartext] in E.
    rewrite Hfd in E. injection E as <- <-.
    set (f3 := EncryptedFile.set_lockfd (Some (OS.close fd0))
                 (EncryptedFile.set_cleartext (Some s) f1)).
    assert (N3 : EncryptedFile.encrypted_filename f3 = Editor.edit_file ed)
      by (rewrite <- N0, <- N1; reflexivity).
    exists (Editor.store f3 b1), f3, (OS.close fd0), s.
    split; [reflexivity|].
    split; [cbn; rewrite N0; reflexivity|].
    split.
    { rewrite <- N3. apply (EditorFacts.lookup_store f3 b1 f0).
      rewrite N3. exact L0. }
    split; [reflexivity|]. split; [reflexivity|]. split; [reflexivity|].
    split; [reflexivity|]. split; [reflexivity|]. split; [reflexivity|].
    intros Hmain. unfold Editor.store.
    rewrite M0, N3, Hmain, String.eqb_refl. reflexivity.
  - unfold EncryptedFile.__exit__ in E.
    destruct (RegistryFacts.read_raise_unchanged tool _ _ _ _ _ R)
      as (-> & _).
    rewrite Hfd in E. discriminate.
Qed.

Lemma prepare_releases_lock_witness :
  let ed := Editor.set_configfile (Some Sample.bundle0)
              (Editor.__init__ "vi" "dev" None) in
  exists b' fd,
    Editor.configfile
      (snd (fst (Editor.prepare Sample.toy_gpg ed Sample.host_bundle)))
    = Some b'
    /\ EncryptedFile.lockfd (EncryptedConfigFile.main_file b') = Some fd
    /\ OS.fo_closed fd = true /\ OS.fo_lock fd = None.
Proof.
  intros ed.
  assert (E : Editor.prepare Sample.toy_gpg ed Sample.host_bundle
              = (Return (),
                 snd (fst (Editor.prepare Sample.toy_gpg ed
                             Sample.host_bundle)),
                 snd (Editor.prepare Sample.toy_gpg ed Sample.host_bundle)))
    by (vm_compute; reflexivity).
  destruct (prepare_releases_lock Sample.toy_gpg ed Sample.host_bundle
              Sample.bundle0 _ _ eq_refl E)
    as (b' & f & fd & s & H1 & _ & _ & H4 & H5 & H6 & _ & _ & _ & H10).
  exists b', fd. split; [exact H1|].
  rewrite (H10 eq_refl). auto.
Defined.

(** ** Further properties: the command loop *)

Module InteractFacts.
Section WithWorld.
Variable tool : Tool.
Variable lib : ConfigUpdaterLib.
Variable render : Config.t -> string.
Variable desk : Desk.

(** The loop from any command on: it returns, or the input ended, or a
    command raised what is no [Exception]. *)
Lemma loop_outcome inputs : forall cmd ed h r ed' h',
  Editor.interact_loop tool lib render desk inputs cmd ed h = (r, ed', h') ->
  let escaped := fun e =>
    is_Exception e = false
    /\ exists cmd0 ed0 h0,
         Editor.process_cmd tool lib render desk cmd0 ed0 h0
         = (Raise e, ed', h') in
  (r = Return ()
   \/ exists e, r = Raise e /\ (e = EOFError desk \/ escaped e))
  /\ (cmd = "quit"
      \/ Exists (fun line => PyStr.strip line = "quit") inputs ->
      r = Return () \/ exists e, r = Raise e /\ escaped e).
Proof.
  induction inputs as [|line inputs IH]; intros cmd ed h r ed' h' E escaped;
    subst escaped; cbn [Editor.interact_loop] in E.
  - destruct (String.eqb cmd "quit") eqn:Q; [injection E as <- <- <-; auto|].
    destruct (Editor.process_cmd tool lib render desk cmd ed h)
      as [[[[]|e] ed1] h1] eqn:P.
    + injection E as <- <- <-. auto.
    + destruct (is_Exception e) eqn:X; injection E as <- <- <-.
      * split; [right; eauto|].
        intros [->|Hex]; [discriminate Q | inversion Hex].
      * split; [right; eauto 8 | intros _; right; eauto 8].
  - destruct (String.eqb cmd "quit") eqn:Q.
    { clear IH. injection E as <- <- <-. auto. }
    destruct (Editor.process_cmd tool lib render desk cmd ed h)
      as [[[[]|e] ed1] h1] eqn:P.
    + injection E as <- <- <-. auto.
    + destruct (is_Exception e) eqn:X.
      * destruct (IH _ _ _ _ _ _ E) as (H1 & H2).
        split; [exact H1|].
        intros [->|Hex]; [discriminate Q|].
        apply H2.
        inversion Hex; subst; [left; assumption | right; assumption].
      * injection E as <- <- <-.
        split; [right; eauto 8 | intros _; right; eauto 8].
Qed.

(** A command that is none of the three changes nothing, and what it
    raises is caught. *)
Lemma unknown_command cmd ed h :
  cmd <> "edit" -> cmd <> "encrypt" ->
  exists e,
    Editor.process_cmd tool lib render desk cmd ed h = (Raise e, ed, h)
    /\ is_Exception e = true.
Proof.
  intros H1 H2. unfold Editor.process_cmd.
  apply String.eqb_neq in H1. apply String.eqb_neq in H2.
  rewrite H1, H2. eexists. split; reflexivity.
Qed.

End WithWorld.
End InteractFacts.

(** X22: no [Exception] of a command leaves [interact]: what [edit] or
    [encrypt] raise is caught, unless it is no [Exception] (as
    [KeyboardInterrupt] is), and the next command is asked for.  So
    [interact] returns, or raises what [input] raises at the end of the
    input, or raises what a command raised that is no [Exception]; and
    when a line that is [quit] once stripped is among the lines typed, it
    does not raise for the end of the input. *)
Theorem interact_raises_only_eof
    (tool : Tool) (lib : ConfigUpdaterLib) (render : Config.t -> string)
    (desk : Desk) (inputs : list string) (ed : Editor.t) (h : Host)
    (r : outcome unit) (ed' : Editor.t) (h' : Host) :
  Editor.interact tool lib render desk inputs ed h = (r, ed', h') ->
  let escaped := fun e =>
    is_Exception e = false
    /\ exists cmd0 ed0 h0,
         Editor.process_cmd tool lib render desk cmd0 ed0 h0
         = (Raise e, ed', h') in
  (r = Return ()
   \/ exists e, r = Raise e /\ (e = EOFError desk \/ escaped e))
  /\ (Exists (fun line => PyStr.strip line = "quit") inputs ->
      r = Return () \/ exists e, r = Raise e /\ escaped e).
Proof.
  intros E escaped. unfold Editor.interact in E.
  destruct (InteractFacts.loop_outcome tool lib render desk inputs
              "edit" ed h r ed' h' E) as (H1 & H2).
  split; [exact H1|]. intros Hex. apply H2. right. exact Hex.
Qed.

Lemma interact_raises_only_eof_witness :
  let out := Editor.interact Sample.toy_gpg Sample.lib0 Sample.render0
               Sample.clumsy_desk ["bogus"; " quit "; "edit"]
               (Editor.__init__ "vi" "dev" None) Sample.host_bundle in
  fst (fst out) = Return ()
  \/ exists e, fst (fst out) = Raise e /\ is_Exception e = false.
Proof.
  intros out.
  destruct (proj2 (interact_raises_only_eof Sample.toy_gpg Sample.lib0
                     Sample.render0 Sample.clumsy_desk
                     ["bogus"; " quit "; "edit"]
                     (Editor.__init__ "vi" "dev" None) Sample.host_bundle
                     (fst (fst out)) (snd (fst out)) (snd out)
                     ltac:(unfold out;
                           destruct (Editor.interact _ _ _ _ _ _ _)
                             as [[? ?] ?]; reflexivity))
              ltac:(right; left; reflexivity))
    as [H|(e & H & X & _)].
  - left. exact H.
  - right. exists e. auto.
Defined.

(** An editor that is interrupted: [KeyboardInterrupt] is no [Exception]
    and leaves [interact], though [quit] would have been typed next. *)
Example interact_lets_keyboard_interrupt_pass :
  let desk := mkDesk (fun _ _ _ => Raise KeyboardInterrupt)
                (RuntimeError "EOF when reading a line") in
  let ed := Editor.set_original_cleartext (Some "")
              (Editor.set_cleartext (Some "")
                 (Editor.__init__ "vi" "dev" None)) in
  fst (fst (Editor.interact Sample.toy_gpg Sample.lib0 Sample.render0 desk
              ["quit"] ed Sample.host_bundle))
  = Raise KeyboardInterrupt.
Proof. vm_compute. reflexivity. Qed.

Module LoopFacts.
Section WithWorld.
Variable tool : Tool.
Variable lib : ConfigUpdaterLib.
Variable render : Config.t -> string.
Variable desk : Desk.

(** One round of the loop after a command that raised what is caught. *)
Lemma loop_after_raise inputs cmd ed h e ed1 h1 :
  cmd <> "quit" ->
  Editor.process_cmd tool lib render desk cmd ed h = (Raise e, ed1, h1) ->
  is_Exception e = true ->
  Editor.interact_loop tool lib render desk inputs cmd ed h
  = match inputs with
    | [] => (Raise (EOFError desk), ed1, h1)
    | line :: rest =>
        Editor.interact_loop tool lib render desk rest (PyStr.strip line)
          ed1 h1
    end.
Proof.
  intros Q P X. apply String.eqb_neq in Q.
  destruct inputs as [|line rest]; cbn [Editor.interact_loop];
    rewrite Q, P, X; reflexivity.
Qed.

(** What is no [Exception] ends the loop, whatever would be typed. *)
Lemma loop_escapes inputs cmd ed h e ed1 h1 :
  cmd <> "quit" ->
  Editor.process_cmd tool lib render desk cmd ed h = (Raise e, ed1, h1) ->
  is_Exception e = false ->
  Editor.interact_loop tool lib render desk inputs cmd ed h
  = (Raise e, ed1, h1).
Proof.
  intros Q P X. apply String.eqb_neq in Q.
  destruct inputs as [|line rest]; cbn [Editor.interact_loop];
    rewrite Q, P, X; reflexivity.
Qed.

Lemma loop_quit inputs ed h :
  Editor.interact_loop tool lib render desk inputs "quit" ed h
  = (Return (), ed, h).
Proof. destruct inputs; reflexivity. Qed.

(** Lines that are no command are passed over. *)
Lemma loop_skips junk rest : forall cmd e ed h ed1 h1,
  cmd <> "quit" ->
  Editor.process_cmd tool lib render desk cmd ed h = (Raise e, ed1, h1) ->
  is_Exception e = true ->
  Forall (fun line =>
            PyStr.strip line <> "edit" /\ PyStr.strip line <> "encrypt"
            /\ PyStr.strip line <> "quit") junk ->
  Editor.interact_loop tool lib render desk (junk ++ rest)%list cmd ed h
  = match rest with
    | [] => (Raise (EOFError desk), ed1, h1)
    | line :: rest' =>
        Editor.interact_loop tool lib render desk rest' (PyStr.strip line)
          ed1 h1
    end.
Proof.
  induction junk as [|l junk IH]; intros cmd e ed h ed1 h1 Q P X Hj.
  - apply (loop_after_raise _ _ _ _ _ _ _ Q P X).
  - rewrite <- app_comm_cons.
    rewrite (loop_after_raise _ _ _ _ _ _ _ Q P X).
    inversion Hj as [|? ? (He & Hc & Hq) Hj']; subst.
    destruct (InteractFacts.unknown_command tool lib render desk
                (PyStr.strip l) ed1 h1 He Hc) as (e' & P' & X').
    apply (IH _ _ _ _ _ _ Hq P' X' Hj').
Qed.

End WithWorld.
End LoopFacts.

(** X23: once the first command has raised, lines that are none of
    [edit], [encrypt] and [quit] once stripped change neither the editor
    nor the host: [interact] goes on with the first line after them as if
    they had not been typed, and raises what [input] raises if there is
    none.  (When what the first command raised is no [Exception], it
    leaves [interact] at once, whatever is typed.) *)
Theorem unknown_commands_are_skipped
    (tool : Tool) (lib : ConfigUpdaterLib) (render : Config.t -> string)
    (desk : Desk) (junk rest : list string) (ed : Editor.t) (h : Host)
    (e : exn) (ed1 : Editor.t) (h1 : Host) :
  Editor.process_cmd tool lib render desk "edit" ed h = (Raise e, ed1, h1) ->
  Forall (fun line =>
            PyStr.strip line <> "edit" /\ PyStr.strip line <> "encrypt"
            /\ PyStr.strip line <> "quit") junk ->
  Editor.interact tool lib render desk (junk ++ rest)%list ed h
  = Editor.interact tool lib render desk rest ed h
  /\ (rest = [] ->
      Editor.interact tool lib render desk junk ed h
      = (Raise (if is_Exception e then EOFError desk else e), ed1, h1)).
Proof.
  intros P Hj. unfold Editor.interact.
  assert (Q : "edit" <> "quit") by discriminate.
  destruct (is_Exception e) eqn:X.
  - split.
    + rewrite (LoopFacts.loop_skips tool lib render desk junk rest
                 _ _ _ _ _ _ Q P X Hj).
      rewrite (LoopFacts.loop_after_raise tool lib render desk rest
                 _ _ _ _ _ _ Q P X).
      reflexivity.
    + intros ->.
      pose proof (LoopFacts.loop_skips tool lib render desk junk []
                    _ _ _ _ _ _ Q P X Hj) as H.
      rewrite app_nil_r in H. exact H.
  - rewrite !(LoopFacts.loop_escapes tool lib render desk _ _ _ _ _ _ _
                Q P X).
    split; [reflexivity | intros _; reflexivity].
Qed.

Lemma unknown_commands_are_skipped_witness :
  let ed := Editor.set_original_cleartext (Some "")
              (Editor.set_cleartext (Some "")
                 (Editor.__init__ "vi" "dev" None)) in
  Editor.interact Sample.toy_gpg Sample.lib0 Sample.render0
    Sample.clumsy_desk ["help"; " exit "; "quit"] ed Sample.host_bundle
  = Editor.interact Sample.toy_gpg Sample.lib0 Sample.render0
      Sample.clumsy_desk ["quit"] ed Sample.host_bundle.
Proof.
  intros ed.
  apply (proj1 (unknown_commands_are_skipped Sample.toy_gpg Sample.lib0
                  Sample.render0 Sample.clumsy_desk ["help"; " exit "]
                  ["quit"] ed Sample.host_bundle AttributeError
                  (Editor.set_cleartext (Some "members = alice")
                     (Editor.set_runs 1 ed))
                  Sample.host_bundle eq_refl
                  ltac:(repeat constructor; discriminate))).
Defined.

(** X24: the text the editor left differs from the original and the
    parser refuses it, leaving a document without members, and the next
    line typed is [quit]: [interact] returns (or, when what the parser
    raised is no [Exception], raises it at once) with no file changed and
    nothing spawned, the bundle holds the document the parser left, and
    [__exit__] of the bundle, which [main] runs next, removes the main
    file. *)
Theorem refused_text_then_quit
    (tool : Tool) (lib : ConfigUpdaterLib) (render : Config.t -> string)
    (desk : Desk) (ed : Editor.t) (h : Host) (b : EncryptedConfigFile.t)
    (text text' original : string) (e : exn) (doc : Config.t)
    (fd : OS.FileObject) (line : string) (rest : list string) :
  Editor.cleartext ed = Some text ->
  Editor.original_cleartext ed = Some original ->
  Editor.configfile ed = Some b ->
  Editor.editing ed
  = Some (EncryptedFile.encrypted_filename (EncryptedConfigFile.main_file b)) ->
  run_editor desk (Editor.runs ed) (Editor.editor_cmd ed) text
  = Return text' ->
  text' <> original -> text' <> EmptyString ->
  read_string lib text' = (Raise e, doc) ->
  snd (get_members_of doc) = [] ->
  EncryptedFile.lockfd (EncryptedConfigFile.main_file b) = Some fd ->
  PyStr.strip line = "quit" ->
  let main := EncryptedFile.encrypted_filename
                (EncryptedConfigFile.main_file b) in
  exists ed1 b1,
    Editor.interact tool lib render desk (line :: rest) ed h
    = (if is_Exception e then Return () else Raise e, ed1, h)
    /\ Editor.cleartext ed1 = Some text'
    /\ Editor.configfile ed1 = Some b1
    /\ EncryptedConfigFile.config b1 = Some doc
    /\ exists r2 b2 h2,
         EncryptedConfigFile.__exit__ b1 h = (r2, b2, h2)
         /\ fs h2 !! main = None
         /\ (fs h !! main <> None -> r2 = Return ()).
Proof.
  intros Hc Ho Hb Hk Hrun Hne Htext P Hms Hfd Hq main.
  assert (Hcmp : String.eqb text' original = false)
    by (apply String.eqb_neq; exact Hne).
  assert (Ht : PyStr.truthy text' = true)
    by (destruct text'; [congruence | reflexivity]).
  set (ed0 := Editor.set_cleartext (Some text')
                (Editor.set_runs (S (Editor.runs ed)) ed)).
  set (b0 := EncryptedConfigFile.set_main_file
               (EncryptedFile.set_cleartext (Some text')
                  (EncryptedConfigFile.main_file b)) b).
  assert (R : EncryptedFile.read tool (EncryptedConfigFile.main_file b0) h
              = (Return text', EncryptedConfigFile.main_file b0, h))
    by reflexivity.
  pose proof (SessionFacts.read_after_main tool lib _ _ _ _ _ R) as Hread.
  cbv zeta in Hread. rewrite Ht, P in Hread.
  assert (Henc : Editor.encrypt tool lib render ed0 h
                 = (Raise e,
                    Editor.set_configfile
                      (Some (EncryptedConfigFile.set_config (Some doc)
                               (EncryptedConfigFile.set_main_file
                                  (EncryptedFile.set_cleartext (Some text')
                                     (EncryptedConfigFile.main_file b0))
                                  b0)))
                      ed0, h)).
  { unfold Editor.encrypt.
    cbn [ed0 Editor.cleartext Editor.original_cleartext Editor.configfile
         Editor.editing Editor.set_cleartext Editor.set_runs].
    rewrite Ho, Hb, Hk, NormaliseFacts.lookup_main, Hcmp.
    cbn [andb]. rewrite NormaliseFacts.store_main by reflexivity.
    fold b0. rewrite Hread. reflexivity. }
  assert (Hcmd : Editor.process_cmd tool lib render desk "edit" ed h
                 = (Raise e,
                    Editor.set_configfile
                      (Some (EncryptedConfigFile.set_config (Some doc)
                               (EncryptedConfigFile.set_main_file
                                  (EncryptedFile.set_cleartext (Some text')
                                     (EncryptedConfigFile.main_file b0))
                                  b0)))
                      ed0, h)).
  { unfold Editor.process_cmd, Editor.edit. cbn [String.eqb Ascii.eqb
      Bool.eqb]. rewrite Hc, Hrun. fold ed0. rewrite Henc. reflexivity. }
  assert (Q : "edit" <> "quit") by discriminate.
  eexists _, _. split.
  { unfold Editor.interact. destruct (is_Exception e) eqn:X.
    - rewrite (LoopFacts.loop_after_raise tool lib render desk _ _ _ _ _ _ _
                 Q Hcmd X).
      rewrite Hq. apply LoopFacts.loop_quit.
    - apply (LoopFacts.loop_escapes tool lib render desk _ _ _ _ _ _ _
               Q Hcmd X). }
  split; [reflexivity|]. split; [reflexivity|]. split; [reflexivity|].
  match goal with
  | |- exists r2 b2 h2, EncryptedConfigFile.__exit__ ?b1 _ = _ /\ _ =>
      destruct (SessionFacts.exit_deletes b1 h fd doc)
        as (r2 & b2 & h2 & E & Hgone & Hret)
  end; [exact Hfd | reflexivity | exact Hms |].
  exists r2, b2, h2. split; [exact E|]. split; [exact Hgone | exact Hret].
Qed.

Lemma refused_text_then_quit_witness :
  let ed := Editor.mk "vi" "dev" Sample.path0 Sample.path0
              (Some Sample.bundle0) (Some Sample.path0)
              (Some "[batou] members = bob, alice; ")
              (Some "[batou] members = bob, alice; ") 0 in
  exists ed1 b1,
    Editor.interact Sample.toy_gpg Sample.lib0 Sample.render0
      Sample.clumsy_desk [" quit"] ed Sample.host_bundle
    = (Return (), ed1, Sample.host_bundle)
    /\ Editor.configfile ed1 = Some b1
    /\ fs Sample.host_bundle !! Sample.path0 = Some "CIPHERTEXT"
    /\ exists r2 b2 h2,
         EncryptedConfigFile.__exit__ b1 Sample.host_bundle = (r2, b2, h2)
         /\ fs h2 !! Sample.path0 = None.
Proof.
  intros ed.
  destruct (refused_text_then_quit Sample.toy_gpg Sample.lib0 Sample.render0
              Sample.clumsy_desk ed Sample.host_bundle Sample.bundle0
              "[batou] members = bob, alice; " "members = alice"
              "[batou] members = bob, alice; "
              (RuntimeError "File contains no section headers.") []
              (OS.mkFileObject Sample.path0 "a+" (Some F_WRLCK) false)
              " quit" [])
    as (ed1 & b1 & H1 & _ & H3 & _ & r2 & b2 & h2 & H5 & H6 & _).
  - reflexivity.
  - reflexivity.
  - reflexivity.
  - reflexivity.
  - reflexivity.
  - discriminate.
  - discriminate.
  - reflexivity.
  - reflexivity.
  - reflexivity.
  - reflexivity.
  - exists ed1, b1. split; [exact H1|]. split; [exact H3|].
    split; [reflexivity|].
    exists r2, b2, h2. split; [exact H5 | exact H6].
Defined.

(** X25: when the editor leaves the text as it was and the file edited
    existed when it was locked, [interact] returns after one start of the
    editor with the bundle and the host as they were: nothing is read,
    encrypted or spawned, whatever lines would be typed. *)
Theorem unchanged_text_writes_nothing
    (tool : Tool) (lib : ConfigUpdaterLib) (render : Config.t -> string)
    (desk : Desk) (inputs : list string) (ed : Editor.t) (h : Host)
    (b : EncryptedConfigFile.t) (key text : string) (f : EncryptedFile.t) :
  Editor.cleartext ed = Some text ->
  Editor.original_cleartext ed = Some text ->
  Editor.configfile ed = Some b ->
  Editor.editing ed = Some key ->
  EncryptedConfigFile.lookup key b = Some f ->
  EncryptedFile.is_new f <> Some true ->
  run_editor desk (Editor.runs ed) (Editor.editor_cmd ed) text
  = Return text ->
  exists ed1,
    Editor.interact tool lib render desk inputs ed h = (Return (), ed1, h)
    /\ Editor.configfile ed1 = Some b
    /\ Editor.cleartext ed1 = Some text
    /\ Editor.runs ed1 = S (Editor.runs ed).
Proof.
  intros Hc Ho Hb Hk L Hnew Hrun.
  assert (Hn : Editor.is_new_truthy f = false).
  { unfold Editor.is_new_truthy.
    destruct (EncryptedFile.is_new f) as [[|]|]; congruence. }
  exists (Editor.set_cleartext (Some text)
            (Editor.set_runs (S (Editor.runs ed)) ed)).
  split; [|split; [exact Hb|split; reflexivity]].
  unfold Editor.interact.
  destruct inputs; cbn [Editor.interact_loop String.eqb Ascii.eqb Bool.eqb];
    unfold Editor.process_cmd, Editor.edit, Editor.encrypt;
    cbn [String.eqb Ascii.eqb Bool.eqb];
    rewrite Hc, Hrun;
    cbn [Editor.cleartext Editor.original_cleartext Editor.configfile
         Editor.editing Editor.set_cleartext Editor.set_runs];
    rewrite Ho, Hb, Hk, L, Hn, String.eqb_refl; reflexivity.
Qed.

Lemma unchanged_text_writes_nothing_witness :
  let ed := Editor.mk "true" "dev" Sample.path0 Sample.secret_a
              (Some Sample.bundle0) (Some Sample.secret_a)
              (Some "a = 1") (Some "a = 1") 0 in
  exists ed1,
    Editor.interact Sample.toy_gpg Sample.lib0 Sample.render0
      (mkDesk (fun _ _ text => Return text) OSError) [] ed Sample.host_bundle
    = (Return (), ed1, Sample.host_bundle)
    /\ Editor.configfile ed1 = Some Sample.bundle0.
Proof.
  intros ed.
  destruct (unchanged_text_writes_nothing Sample.toy_gpg Sample.lib0
              Sample.render0 (mkDesk (fun _ _ text => Return text) OSError)
              [] ed Sample.host_bundle Sample.bundle0 Sample.secret_a
              "a = 1" (Sample.added Sample.secret_a "a = 1")
              eq_refl eq_refl eq_refl eq_refl eq_refl
              ltac:(discriminate) eq_refl)
    as (ed1 & H1 & H2 & _).
  exists ed1. split; [exact H1 | exact H2].
Defined.

(** ** Further properties: a whole session of the editor *)

Module WholeSession.
Section WithWorld.
Variable tool : Tool.
Variable lib : ConfigUpdaterLib.
Variable render : Config.t -> string.
Variable desk : Desk.
Variable path : string.

Lemma add_file_main p b h :
  EncryptedConfigFile.main_file
    (snd (fst (EncryptedConfigFile.add_file tool p b h)))
  = EncryptedConfigFile.main_file b
  /\ EncryptedConfigFile.config
       (snd (fst (EncryptedConfigFile.add_file tool p b h)))
     = EncryptedConfigFile.config b.
Proof.
  unfold EncryptedConfigFile.add_file.
  destruct (EncryptedConfigFile.lookup p b); [auto|].
  destruct (EncryptedFile.read tool _ h) as [[[s|e] f] h1]; auto.
Qed.

Lemma add_files_main ps : forall b h,
  EncryptedConfigFile.main_file
    (snd (fst (EncryptedConfigFile.add_files tool ps b h)))
  = EncryptedConfigFile.main_file b.
Proof.
  induction ps as [|p ps IH]; intros b h; [reflexivity|].
  cbn [EncryptedConfigFile.add_files].
  pose proof (add_file_main p b h) as (Hm & _).
  destruct (EncryptedConfigFile.add_file tool p b h) as [[[f|e] b1] h1];
    cbn [fst snd] in Hm |- *; [|exact Hm].
  rewrite IH. exact Hm.
Qed.

(** The main file of a bundle [__init__] returns is the file given. *)
Lemma init_main_name p env listing wl q h b h1 :
  EncryptedConfigFile.__init__ tool p env listing wl q h = (Return b, h1) ->
  EncryptedFile.encrypted_filename (EncryptedConfigFile.main_file b) = p.
Proof.
  unfold EncryptedConfigFile.__init__.
  pose proof (BundleFacts.read_keeps_name tool
                (EncryptedFile.__init__ p wl q) h) as Hn.
  destruct (EncryptedFile.read tool _ h) as [[[s|e] f] h0]; [|discriminate].
  cbn [fst snd EncryptedFile.__init__ EncryptedFile.encrypted_filename] in Hn.
  destruct env as [env|]; [|intros [= <- <-]; exact Hn].
  destruct (PyStr.truthy env); [|intros [= <- <-]; exact Hn].
  pose proof (add_files_main (iter_other_secrets env listing)
                (EncryptedConfigFile.mk (Some env) wl q f [] None) h0) as Hm.
  destruct (EncryptedConfigFile.add_files tool _ _ h0) as [[[[]|e] b1] h2];
    [|discriminate].
  intros [= <- <-]. cbn [fst snd] in Hm. rewrite Hm. exact Hn.
Qed.

(** Locking again keeps a lock file in place. *)
Lemma lock_keeps_fd f h r f1 h1 :
  EncryptedFile.__enter__ f h = (r, f1, h1) ->
  EncryptedFile.lockfd f <> None -> EncryptedFile.lockfd f1 <> None.
Proof.
  destruct f as [fn0 wl q rc lfd ct isn].
  unfold EncryptedFile.__enter__, EncryptedFile._lock.
  cbn [EncryptedFile.is_new EncryptedFile.encrypted_filename
       EncryptedFile.write_lock EncryptedFile.lockfd].
  destruct isn as [b0|];
    cbn [EncryptedFile.set_is_new EncryptedFile.encrypted_filename
         EncryptedFile.write_lock EncryptedFile.set_lockfd];
    destruct (OS.open fn0 _ h) as [[fd|e] h0];
    try (intros [= <- <- <-] H; exact H);
    destruct (OS.lockf fd _ h0); intros [= <- <- <-] _; discriminate.
Qed.

Lemma file_read_keeps f h r f1 h1 :
  EncryptedFile.read tool f h = (r, f1, h1) ->
  EncryptedFile.encrypted_filename f1 = EncryptedFile.encrypted_filename f
  /\ EncryptedFile.lockfd f1 = EncryptedFile.lockfd f.
Proof.
  destruct r as [s|e]; intros R.
  - destruct (InitFacts.read_return_shape _ _ _ _ _ _ R) as (-> & _). auto.
  - destruct (RegistryFacts.read_raise_unchanged _ _ _ _ _ _ R) as (-> & _).
    auto.
Qed.

Lemma file_exit_keeps f r f1 :
  EncryptedFile.__exit__ f = (r, f1) ->
  EncryptedFile.encrypted_filename f1 = EncryptedFile.encrypted_filename f
  /\ (EncryptedFile.lockfd f <> None -> EncryptedFile.lockfd f1 <> None).
Proof.
  unfold EncryptedFile.__exit__.
  destruct (EncryptedFile.lockfd f) eqn:L; intros [= <- <-].
  - split; [reflexivity | discriminate].
  - split; [reflexivity | rewrite L; auto].
Qed.

(** The main handle is what its path is looked up to. *)
Lemma lookup_is_main b p f :
  EncryptedConfigFile.lookup p b = Some f ->
  EncryptedFile.encrypted_filename f
  = EncryptedFile.encrypted_filename (EncryptedConfigFile.main_file b) ->
  f = EncryptedConfigFile.main_file b.
Proof.
  intros L Hn. pose proof (RegistryFacts.lookup_name _ _ _ L) as Hp.
  rewrite <- Hp, Hn, NormaliseFacts.lookup_main in L. congruence.
Qed.

Lemma store_session f b :
  in_session path b ->
  (EncryptedFile.encrypted_filename f = path ->
   EncryptedFile.lockfd f <> None) ->
  in_session path (Editor.store f b).
Proof.
  intros (Hn & Hl & Hc) Hf. unfold Editor.store.
  destruct (String.eqb _ _) eqn:M; [|exact (conj Hn (conj Hl Hc))].
  apply String.eqb_eq in M. rewrite Hn in M.
  split; [symmetry; exact M|]. split; [apply Hf; symmetry; exact M | exact Hc].
Qed.

Lemma add_file_session p b h :
  in_session path b ->
  in_session path (snd (fst (EncryptedConfigFile.add_file tool p b h))).
Proof.
  intros H. unfold in_session.
  destruct (add_file_main p b h) as (-> & ->). exact H.
Qed.

Lemma read_session b h r b1 h1 :
  in_session path b ->
  EncryptedConfigFile.read tool lib b h = (r, b1, h1) ->
  in_session path b1.
Proof.
  intros (Hn & Hl & Hc).
  destruct (EncryptedFile.read tool (EncryptedConfigFile.main_file b) h)
    as [[[s|e] main1] h0] eqn:R.
  - rewrite (SessionFacts.read_after_main tool lib _ _ _ _ _ R).
    cbv zeta.
    destruct (read_string lib _) as [[[]|e] doc];
      [destruct (Config.set _ _ _ _)|];
      intros [= <- <- <-]; (split; [exact Hn|]);
      (split; [exact Hl | discriminate]).
  - rewrite (SessionFacts.read_main_raises tool lib _ _ _ _ _ R).
    intros [= <- <- <-]. exact (conj Hn (conj Hl Hc)).
Qed.

Lemma write_session b h r b1 h1 :
  in_session path b ->
  EncryptedConfigFile.write tool render b h = (r, b1, h1) ->
  in_session path b1.
Proof.
  intros (Hn & Hl & Hc). unfold EncryptedConfigFile.write.
  destruct (EncryptedConfigFile.config b) as [cfg|]; [|contradiction].
  destruct (EncryptedConfigFile.write_one tool cfg _ h)
    as [[[r0 cfg1] main1] h0] eqn:W.
  destruct (CommitFacts.write_one_inv _ _ _ _ _ _ _ _ W) as (_ & W1).
  assert (Hmain : EncryptedFile.encrypted_filename main1 = path
                  /\ EncryptedFile.lockfd main1 <> None).
  { destruct (FileFacts.write_inv _ _ _ _ _ _ W1)
      as [(_ & _ & -> & _)|(_ & -> & _)]; split; assumption. }
  destruct r0 as [[]|e].
  - destruct (EncryptedConfigFile.write_files tool cfg1 _ h0)
      as [[[r2 cfg2] others] h2].
    intros [= <- <- <-].
    split; [apply Hmain|]. split; [apply Hmain | discriminate].
  - intros [= <- <- <-].
    split; [apply Hmain|]. split; [apply Hmain | discriminate].
Qed.

Lemma encrypt_session ed h b r ed1 h1 :
  Editor.configfile ed = Some b -> in_session path b ->
  Editor.encrypt tool lib render ed h = (r, ed1, h1) ->
  exists b1, Editor.configfile ed1 = Some b1 /\ in_session path b1.
Proof.
  intros Hb Hs. unfold Editor.encrypt.
  destruct (Editor.cleartext ed) as [text|];
    [|intros [= <- <- <-]; eauto].
  destruct (Editor.original_cleartext ed) as [original|];
    [|intros [= <- <- <-]; eauto].
  rewrite Hb.
  destruct (Editor.editing ed) as [key|]; [|intros [= <- <- <-]; eauto].
  destruct (EncryptedConfigFile.lookup key b) as [f|] eqn:L;
    [|intros [= <- <- <-]; eauto].
  destruct (_ && _); [intros [= <- <- <-]; eauto|].
  assert (Hs0 : in_session path
                  (Editor.store (EncryptedFile.set_cleartext (Some text) f)
                     b)).
  { apply store_session; [exact Hs|]. intros Hn.
    destruct Hs as (Hmn & Hl & _).
    rewrite (lookup_is_main b key f L) by (rewrite Hmn; exact Hn).
    exact Hl. }
  destruct (EncryptedConfigFile.read tool lib _ h) as [[r0 b0] h0] eqn:R.
  pose proof (read_session _ _ _ _ _ Hs0 R) as Hs1.
  destruct r0 as [[]|e].
  - destruct (EncryptedConfigFile.write tool render b0 h0)
      as [[r2 b2] h2] eqn:W.
    pose proof (write_session _ _ _ _ _ Hs1 W) as Hs2.
    intros [= <- <- <-]. eauto.
  - intros [= <- <- <-]. eauto.
Qed.

Lemma process_cmd_session cmd ed h b r ed1 h1 :
  Editor.configfile ed = Some b -> in_session path b ->
  Editor.process_cmd tool lib render desk cmd ed h = (r, ed1, h1) ->
  exists b1, Editor.configfile ed1 = Some b1 /\ in_session path b1.
Proof.
  intros Hb Hs. unfold Editor.process_cmd.
  destruct (String.eqb cmd "edit").
  - destruct (Editor.edit desk ed) as [[[]|e] ed0] eqn:Ed.
    + assert (Hb0 : Editor.configfile ed0 = Some b).
      { unfold Editor.edit in Ed.
        destruct (Editor.cleartext ed); [|discriminate].
        destruct (run_editor desk _ _ _); [|discriminate].
        injection Ed as <-. exact Hb. }
      apply (encrypt_session _ _ _ _ _ _ Hb0 Hs).
    + intros [= <- <- <-].
      unfold Editor.edit in Ed.
      destruct (Editor.cleartext ed); [|injection Ed as _ <-; eauto].
      destruct (run_editor desk _ _ _); [discriminate|].
      injection Ed as _ <-. eauto.
  - destruct (String.eqb cmd "encrypt").
    + apply (encrypt_session _ _ _ _ _ _ Hb Hs).
    + intros [= <- <- <-]. eauto.
Qed.

Lemma loop_session inputs : forall cmd ed h b r ed1 h1,
  Editor.configfile ed = Some b -> in_session path b ->
  Editor.interact_loop tool lib render desk inputs cmd ed h = (r, ed1, h1) ->
  exists b1, Editor.configfile ed1 = Some b1 /\ in_session path b1.
Proof.
  induction inputs as [|line inputs IH]; intros cmd ed h b r ed1 h1 Hb Hs;
    cbn [Editor.interact_loop];
    (destruct (String.eqb cmd "quit"); [intros [= <- <- <-]; eauto|]);
    destruct (Editor.process_cmd tool lib render desk cmd ed h)
      as [[r0 ed0] h0] eqn:P;
    destruct (process_cmd_session _ _ _ _ _ _ _ Hb Hs P) as (b0 & Hb0 & Hs0);
    (destruct r0 as [[]|e]; [intros [= <- <- <-]; eauto|]);
    (destruct (is_Exception e); [|intros [= <- <- <-]; eauto]).
  - intros [= <- <- <-]. eauto.
  - apply (IH _ _ _ _ _ _ _ Hb0 Hs0).
Qed.

Lemma prepare_session ed h b r ed1 h1 :
  Editor.configfile ed = Some b -> in_session path b ->
  Editor.prepare tool ed h = (r, ed1, h1) ->
  exists b1, Editor.configfile ed1 = Some b1 /\ in_session path b1.
Proof.
  intros Hb Hs. unfold Editor.prepare. rewrite Hb.
  pose proof (add_file_session (Editor.edit_file ed) b h Hs) as Hs1.
  destruct (EncryptedConfigFile.add_file tool (Editor.edit_file ed) b h)
    as [[[f0|e0] b1] h0] eqn:A; cbn [fst snd] in Hs1;
    [|intros [= <- <- <-]; eauto].
  destruct (PrepareFacts.add_file_registered tool _ _ _ _ _ _ A)
    as (L0 & _ & _).
  assert (Hf0 : EncryptedFile.encrypted_filename f0 = path ->
                EncryptedFile.lockfd f0 <> None).
  { intros Hn. destruct Hs1 as (Hmn & Hl & _).
    rewrite (lookup_is_main b1 _ f0 L0) by (rewrite Hmn; exact Hn).
    exact Hl. }
  destruct (EncryptedFile.__enter__ f0 h0) as [[r1 f1] h2] eqn:En.
  pose proof (PrepareFacts.enter_keeps_name _ _ _ _ _ En) as N1.
  pose proof (lock_keeps_fd _ _ _ _ _ En) as K1.
  destruct r1 as [[]|e1].
  - destruct (EncryptedFile.read tool f1 h2) as [[r2 f2] h3] eqn:R.
    destruct (file_read_keeps _ _ _ _ _ R) as (N2 & K2).
    destruct (EncryptedFile.__exit__ f2) as [r3 f3] eqn:X.
    destruct (file_exit_keeps _ _ _ X) as (N3 & K3).
    assert (Hs3 : in_session path (Editor.store f3 b1)).
    { apply store_session; [exact Hs1|]. intros Hn.
      apply K3. rewrite K2. apply K1, Hf0. congruence. }
    destruct r3 as [[]|e3]; [destruct r2 as [s|e2]|];
      intros [= <- <- <-]; eauto.
  - intros [= <- <- <-].
    eexists. split; [reflexivity|].
    apply store_session; [exact Hs1|]. intros Hn.
    apply K1, Hf0. congruence.
Qed.

End WithWorld.
End WholeSession.

(** X26: once the bundle was made and entered, [main] ends with
    [__exit__] of the bundle whatever adding, locking and reading the file
    to edit and the commands did, returned or raised: the editor still
    holds the bundle, the lock file of the main handle is closed, and a
    main file whose document has no members at the end is not on the
    host. *)
Theorem main_ends_session
    (tool : Tool) (lib : ConfigUpdaterLib) (render : Config.t -> string)
    (desk : Desk) (listing inputs : list string) (ed : Editor.t) (h : Host)
    (b0 : EncryptedConfigFile.t) (h0 : Host)
    (b1 : EncryptedConfigFile.t) (h1 : Host)
    (r : outcome unit) (ed' : Editor.t) (h' : Host) :
  EncryptedConfigFile.__init__ tool (Editor.encrypted_configfile ed)
    (Some (Editor.environment ed)) listing true false h = (Return b0, h0) ->
  EncryptedConfigFile.__enter__ tool lib b0 h0 = (Return (), b1, h1) ->
  Editor.main tool lib render desk listing inputs ed h = (r, ed', h') ->
  exists b' fd,
    Editor.configfile ed' = Some b'
    /\ EncryptedFile.encrypted_filename (EncryptedConfigFile.main_file b')
       = Editor.encrypted_configfile ed
    /\ EncryptedFile.lockfd (EncryptedConfigFile.main_file b') = Some fd
    /\ OS.fo_closed fd = true
    /\ (fst (EncryptedConfigFile.get_members b') = Return [] ->
        fs h' !! Editor.encrypted_configfile ed = None).
Proof.
  intros I En M.
  set (path := Editor.encrypted_configfile ed) in *.
  pose proof (WholeSession.init_main_name tool _ _ _ _ _ _ _ _ I) as N0.
  assert (S1 : in_session path b1).
  { unfold EncryptedConfigFile.__enter__ in En.
    destruct (EncryptedFile.__enter__ (EncryptedConfigFile.main_file b0) h0)
      as [[[[]|e] m1] h2] eqn:L; [|discriminate].
    destruct (EnterFacts.enter_granted _ _ _ _ L) as (fd & Hfd & _ & _).
    pose proof (PrepareFacts.enter_keeps_name _ _ _ _ _ L) as N1.
    destruct (EncryptedFile.read tool m1 h2) as [[[s|e] m2] h3] eqn:R.
    - assert (R' : EncryptedFile.read tool
                     (EncryptedConfigFile.main_file
                        (EncryptedConfigFile.set_main_file m1 b0)) h2
                   = (Return s, m2, h3)) by exact R.
      rewrite (SessionFacts.read_after_main tool lib _ _ _ _ _ R') in En.
      cbv zeta in En.
      destruct (read_string lib _) as [[[]|e] doc]; [|discriminate].
      destruct (Config.set _ _ _ _); [|discriminate].
      injection En as <- <-.
      split; [cbn; congruence|]. split; [cbn; congruence | discriminate].
    - assert (R' : EncryptedFile.read tool
                     (EncryptedConfigFile.main_file
                        (EncryptedConfigFile.set_main_file m1 b0)) h2
                   = (Raise e, m2, h3)) by exact R.
      rewrite (SessionFacts.read_main_raises tool lib _ _ _ _ _ R') in En.
      discriminate. }
  unfold Editor.main in M. fold path in M. rewrite I, En in M.
  cbv beta iota zeta in M.
  set (ed1 := Editor.set_configfile (Some b1) ed) in *.
  assert (S2 : exists r2 ed2 h2 b2,
            match Editor.prepare tool ed1 h1 with
            | (Raise e, ed, h) => (Raise e, ed, h)
            | (Return _, ed, h) =>
                Editor.interact tool lib render desk inputs ed h
            end = (r2, ed2, h2)
            /\ Editor.configfile ed2 = Some b2 /\ in_session path b2).
  { destruct (Editor.prepare tool ed1 h1) as [[rp edp] hp] eqn:P.
    destruct (WholeSession.prepare_session tool path ed1 h1 b1 _ _ _
                eq_refl S1 P) as (bp & Hbp & Sp).
    destruct rp as [[]|e].
    - destruct (Editor.interact tool lib render desk inputs edp hp)
        as [[ri edi] hi] eqn:Il.
      destruct (WholeSession.loop_session tool lib render desk path
                  inputs _ _ _ _ _ _ _ Hbp Sp Il) as (bi & Hbi & Si).
      eauto 8.
    - eauto 8. }
  destruct S2 as (r2 & ed2 & h2 & b2 & Hbody & Hb2 & Hn2 & Hl2 & Hc2).
  rewrite Hbody, Hb2 in M.
  unfold EncryptedConfigFile.__exit__, EncryptedFile.__exit__,
    EncryptedConfigFile.get_members in M.
  destruct (EncryptedFile.lockfd (EncryptedConfigFile.main_file b2))
    as [fd|] eqn:Hfd; [|contradiction].
  cbn [EncryptedConfigFile.config EncryptedConfigFile.set_main_file] in M.
  destruct (EncryptedConfigFile.config b2) as [cfg|] eqn:Hcfg;
    [|contradiction].
  pose proof (MembersFacts.members_stable cfg) as Hidem.
  destruct (get_members_of cfg) as [cfg' ms] eqn:G. cbn [fst snd] in Hidem.
  destruct ms as [|m ms].
  - cbn [EncryptedConfigFile.main_file EncryptedConfigFile.set_config
         EncryptedConfigFile.set_main_file EncryptedFile.encrypted_filename
         EncryptedFile.set_lockfd] in M.
    rewrite Hn2 in M. unfold OS.unlink in M.
    destruct (fs h2 !! path) eqn:Hx; injection M as <- <- <-;
      eexists _, (OS.close fd);
      (split; [reflexivity|]); (split; [exact Hn2|]);
      (split; [reflexivity|]); (split; [reflexivity|]); intros _.
    + cbn. apply lookup_delete_eq.
    + exact Hx.
  - injection M as <- <- <-.
    eexists _, (OS.close fd).
    split; [reflexivity|]. split; [exact Hn2|].
    split; [reflexivity|]. split; [reflexivity|].
    unfold EncryptedConfigFile.get_members.
    cbn [EncryptedConfigFile.config EncryptedConfigFile.set_config].
    destruct (get_members_of cfg') as [c2 m2]. cbn [fst snd] in Hidem |- *.
    rewrite Hidem. discriminate.
Qed.

Lemma main_ends_session_witness :
  let ed := Editor.__init__ "vi" "dev" None in
  let out := Editor.main Sample.toy_gpg Sample.lib0 Sample.render0
               Sample.clumsy_desk Sample.listing0 ["quit"] ed
               Sample.host_session in
  exists b' fd,
    Editor.configfile (snd (fst out)) = Some b'
    /\ EncryptedFile.lockfd (EncryptedConfigFile.main_file b') = Some fd
    /\ OS.fo_closed fd = true.
Proof.
  intros ed out.
  set (i := EncryptedConfigFile.__init__ Sample.toy_gpg
              (Editor.encrypted_configfile ed) (Some (Editor.environment ed))
              Sample.listing0 true false Sample.host_session).
  assert (I : i = (Return (match fst i with
                           | Return b => b
                           | Raise _ => Sample.bundle0
                           end), snd i))
    by (vm_compute; reflexivity).
  set (b0 := match fst i with Return b => b | Raise _ => Sample.bundle0 end)
    in I.
  set (n := EncryptedConfigFile.__enter__ Sample.toy_gpg Sample.lib0
              b0 (snd i)).
  assert (En : n = (Return (), snd (fst n), snd n))
    by (vm_compute; reflexivity).
  destruct (main_ends_session Sample.toy_gpg Sample.lib0 Sample.render0
              Sample.clumsy_desk Sample.listing0 ["quit"] ed
              Sample.host_session b0 (snd i) (snd (fst n)) (snd n)
              (fst (fst out)) (snd (fst out)) (snd out) I En)
    as (b' & fd & H1 & _ & H3 & H4 & _).
  - unfold out.
    destruct (Editor.main _ _ _ _ _ _ _ _) as [[r e] h0]. reflexivity.
  - exists b', fd. auto.
Defined.

(** The session of the witness, run: the editor leaves a line without
    section header, the user quits, and the main file, which was there
    and had two members, is removed. *)
Example main_refused_text_quit_removes_main_file :
  let out := Editor.main Sample.toy_gpg Sample.lib0 Sample.render0
               Sample.clumsy_desk Sample.listing0 ["quit"]
               (Editor.__init__ "vi" "dev" None) Sample.host_session in
  fst (fst out) = Return ()
  /\ fs (snd out) !! Sample.path0 = None
  /\ fs Sample.host_session !! Sample.path0
     = Some "[batou] members = bob, alice; ".
Proof. vm_compute. repeat split. Qed.

(** The same session with an editor that replaces [bob] by [carol]:
    every file is encrypted again, for [alice] and [carol]. *)
Example main_changed_members_reencrypts :
  let out := Editor.main Sample.toy_gpg Sample.lib0 Sample.render0
               Sample.careful_desk Sample.listing0 []
               (Editor.__init__ "vi" "dev" None) Sample.host_session in
  fst (fst out) = Return ()
  /\ fs (snd out) !! Sample.secret_a
     = Some "gpg --encrypt -r alice -r carol -o environments/dev/secret-a:a = 1".
Proof. vm_compute. repeat split. Qed.
